(** * UI-NEXUS emulator initialisation: orchestration core

    A shallow embedding of [android_world/emulator_init]:
    - [core.py]                         ([EmulatorInitializer])
    - [modules/base_configurator.py]    ([BaseConfigurator])
    - [modules/contacts_configurator.py]
    - [modules/calendar_configurator.py]
    - [utils/constants.py]              ([APP_INFO])
    - [utils/helpers.py]                ([get_all_package_names],
                                         [set_root_if_needed], [ensure_app_ready])

    Python values read from the JSON configuration are modelled by [Py.pyval],
    Python exceptions by [Py.exn], and every method that talks to the device
    or writes a log line is a computation in the monad [M]: it threads the
    device state, appends to a trace of events and may raise.  The functions of
    [android_world.env], [android_world.utils] and [android_world.task_evals],
    and those of the Python standard library ([subprocess], [datetime]), are
    not part of the package; they are the fields of the record [Backend], and
    for the helpers those of the record [Helpers.Adb]. *)

From Stdlib Require Import ZArith List String Ascii Bool Lia Floats.
From stdpp Require Import base strings gmap sets list.

Set Warnings "-register-all".

(** ** Python values and exceptions *)

Module Py.

(** The exception classes the package raises or names, all of them subclasses
    of [Exception]; [OtherError] stands for whatever else a collaborator may
    raise. *)
Inductive exn : Type :=
| AttributeError
| TypeError
| ValueError
| RuntimeError
| OverflowError
| CalledProcessError
| OtherError (code : nat).

Inductive res (A : Type) : Type :=
| Ok (a : A)
| Raise (e : exn).
Arguments Ok {A} a.
Arguments Raise {A} e.

(** What [json.load] produces.  A JSON object is kept as its list of members in
    file order.  A number without fraction or exponent is an [int], of any
    size; any other number is a [float], a double of IEEE 754. *)
Inductive pyval : Type :=
| PyNone
| PyBool (b : bool)
| PyInt (n : Z)
| PyStr (s : string)
| PyList (l : list pyval)
| PyDict (d : list (string * pyval))
| PyFloat (x : float).

(** [bool(v)], as used by [if v:] and [a and b]. *)
Definition truthy (v : pyval) : bool :=
  match v with
  | PyNone => false
  | PyBool b => b
  | PyInt n => negb (n =? 0)%Z
  | PyStr s => negb (String.eqb s "")
  | PyList l => match l with [] => false | _ :: _ => true end
  | PyDict d => match d with [] => false | _ :: _ => true end
  | PyFloat x => negb (PrimFloat.eqb x PrimFloat.zero)
  end.

Fixpoint dict_lookup (k : string) (d : list (string * pyval)) : option pyval :=
  match d with
  | [] => None
  | (k', v) :: d' => if String.eqb k k' then Some v else dict_lookup k d'
  end.

(** [v.get(k, dflt)]: only a dict has the method. *)
Definition get (v : pyval) (k : string) (dflt : pyval) : res pyval :=
  match v with
  | PyDict d => Ok (default dflt (dict_lookup k d))
  | _ => Raise AttributeError
  end.

(** [v.get(k, 1.0)]: [None] here stands for the default [1.0], the one float
    literal of the two configurators. *)
Definition get_or_float_default (v : pyval) (k : string) : res (option pyval) :=
  match v with
  | PyDict d => Ok (dict_lookup k d)
  | _ => Raise AttributeError
  end.

Fixpoint chars (s : string) : list pyval :=
  match s with
  | EmptyString => []
  | String c s' => PyStr (String c EmptyString) :: chars s'
  end.

(** The items [for x in v] visits: the elements of a list, the keys of a dict,
    the characters of a string; anything else is not iterable. *)
Definition iter (v : pyval) : res (list pyval) :=
  match v with
  | PyList l => Ok l
  | PyDict d => Ok (map (fun kv => PyStr (fst kv)) d)
  | PyStr s => Ok (chars s)
  | PyNone | PyBool _ | PyInt _ | PyFloat _ => Raise TypeError
  end.

(** [v == s] for a string literal [s]; equality never raises. *)
Definition eq_str (v : pyval) (s : string) : bool :=
  match v with PyStr s' => String.eqb s' s | _ => false end.

(** The integer a value stands for in arithmetic ([bool] is a subclass of
    [int]). *)
Definition as_int (v : pyval) : option Z :=
  match v with
  | PyInt n => Some n
  | PyBool b => Some (if b then 1 else 0)%Z
  | _ => None
  end.

(** [float(n)] for an [int]: the nearest double, ties to even, and
    [OverflowError] for an integer beyond the doubles. *)
Definition float_of_int (n : Z) : res float :=
  match SpecFloat.binary_normalize FloatOps.prec FloatOps.emax n 0 false with
  | S754_infinity _ => Raise OverflowError
  | sf => Ok (FloatOps.SF2Prim sf)
  end.

(** How the [int] [k] compares with the [float] [x]: by their exact values,
    as Python does; a NaN compares with nothing. *)
Definition compare_int_float (k : Z) (x : float) : option comparison :=
  match FloatOps.Prim2SF x with
  | S754_nan => None
  | S754_infinity s => Some (if s then Gt else Lt)
  | S754_zero _ => Some (k ?= 0)%Z
  | S754_finite s m e =>
      let v := if s then Zneg m else Zpos m in
      Some (if (0 <=? e)%Z then (k ?= v * 2 ^ e)%Z else (k * 2 ^ (- e) ?= v)%Z)
  end.

(** [k <= v], [v <= k] and [v > k] for an integer literal [k]: ordering an
    [int] against [None], a [str], a [list] or a [dict] is a [TypeError];
    every comparison with a NaN is false. *)
Definition int_le (k : Z) (v : pyval) : res bool :=
  match v with
  | PyFloat x =>
      Ok match compare_int_float k x with Some Lt | Some Eq => true | _ => false end
  | _ =>
      match as_int v with
      | Some n => Ok (k <=? n)%Z
      | None => Raise TypeError
      end
  end.

Definition le_int (v : pyval) (k : Z) : res bool :=
  match v with
  | PyFloat x =>
      Ok match compare_int_float k x with Some Gt | Some Eq => true | _ => false end
  | _ =>
      match as_int v with
      | Some n => Ok (n <=? k)%Z
      | None => Raise TypeError
      end
  end.

Definition gt_int (v : pyval) (k : Z) : res bool :=
  match v with
  | PyFloat x =>
      Ok match compare_int_float k x with Some Lt => true | _ => false end
  | _ =>
      match as_int v with
      | Some n => Ok (k <? n)%Z
      | None => Raise TypeError
      end
  end.

Fixpoint str_repeat (s : string) (n : nat) : string :=
  match n with
  | O => ""
  | S n' => s +:+ str_repeat s n'
  end.

Fixpoint list_repeat (l : list pyval) (n : nat) : list pyval :=
  match n with
  | O => []
  | S n' => l ++ list_repeat l n'
  end.

(** [v * k] for an integer literal [k]: a product of integers, a product of
    doubles, or a sequence repeated. *)
Definition mul_int (v : pyval) (k : Z) : res pyval :=
  match v with
  | PyInt n => Ok (PyInt (n * k))
  | PyBool b => Ok (PyInt ((if b then 1 else 0) * k))
  | PyFloat x =>
      match float_of_int k with
      | Ok y => Ok (PyFloat (PrimFloat.mul x y))
      | Raise e => Raise e
      end
  | PyStr s => Ok (PyStr (str_repeat s (Z.to_nat k)))
  | PyList l => Ok (PyList (list_repeat l (Z.to_nat k)))
  | PyNone | PyDict _ => Raise TypeError
  end.

(** The double a number stands for when the other operand is a [float]. *)
Definition as_float (v : pyval) : option (res float) :=
  match v with
  | PyFloat x => Some (Ok x)
  | _ => option_map float_of_int (as_int v)
  end.

(** [a + b]: a sum of integers, a sum of doubles when one of the two is a
    [float], the concatenation of two strings or of two lists. *)
Definition add (a b : pyval) : res pyval :=
  match as_int a, as_int b with
  | Some x, Some y => Ok (PyInt (x + y))
  | _, _ =>
      match as_float a, as_float b with
      | Some (Ok x), Some (Ok y) => Ok (PyFloat (PrimFloat.add x y))
      | Some (Raise e), Some _ => Raise e
      | Some (Ok _), Some (Raise e) => Raise e
      | _, _ =>
          match a, b with
          | PyStr s, PyStr t => Ok (PyStr (s +:+ t))
          | PyList l, PyList m => Ok (PyList (l ++ m))
          | _, _ => Raise TypeError
          end
      end
  end.

(** Python objects that stand for the Android environment.  What the package
    inspects is whether the object has an attribute [base_env] or
    [controller] ([None] has neither) and what the attribute holds. *)
Inductive object : Type :=
| NoneObj
| Object (oid : nat) (base_env controller : option object).

(** [hasattr(o, 'base_env')] and [hasattr(o, 'controller')]. *)
Definition hasattr_base_env (o : object) : bool :=
  match o with Object _ (Some _) _ => true | _ => false end.

Definition hasattr_controller (o : object) : bool :=
  match o with Object _ _ (Some _) => true | _ => false end.

(** [o.base_env] and [o.controller], read after the matching [hasattr]. *)
Definition attr_base_env (o : object) : object :=
  match o with Object _ (Some b) _ => b | _ => NoneObj end.

Definition attr_controller (o : object) : object :=
  match o with Object _ _ (Some c) => c | _ => NoneObj end.

(** [bool(o)]: [None] is false, an instance is true. *)
Definition obj_truthy (o : object) : bool :=
  match o with NoneObj => false | Object _ _ _ => true end.

End Py.
Import Py.

(** ** Rows of the calendar database *)

(** [sqlite_schema_utils.CalendarEvent], with the fields the configurator sets.
    The two time stamps hold whatever the configuration gave. *)
Record CalendarEvent : Type := mkCalendarEvent {
  start_ts : pyval;
  end_ts : pyval;
  title : pyval;
  description : pyval;
  location : pyval;
  repeat_interval : Z;
  repeat_rule : Z
}.

(** ** Traces *)

Inductive level : Type := Info | Warning | Error.

(** The calls a configurator makes on its collaborators. *)
Inductive call : Type :=
| clear_contacts (controller : object)
| add_contact (name number : pyval) (controller : object) (ui_delay_sec : option pyval)
| list_contacts (controller : object)
| get_all_package_names (controller : object)
| launch_app (app : string) (controller : object)
| sleep (secs : Z)
| set_root_if_needed (controller : object)
| grant_permissions (package permission : string) (controller : object)
| press_home_button (controller : object)
| clear_calendar_db (controller : object)
| get_rows_from_remote_device (controller : object)
| execute_sql_command (sql : string) (controller : object)
| add_events (events : list CalendarEvent) (controller : object)
| add_random_events (controller : object) (n : pyval).

(** What a configurator leaves in the trace: a log line (its fixed text, the
    values formatted into it and the exception it reports, if any) or a call. *)
Inductive mod_event : Type :=
| Logged (lv : level) (text : string) (args : list pyval) (e : option exn)
| Called (c : call).

(** The log lines of [EmulatorInitializer]. *)
Inductive orch_line : Type :=
| BeginInit
| SettingUp
| AvailableDevices (devices : string)
| NoEmulatorFound
| AdbDevicesFailed
| EnvironmentReady
| ConnectFailed (e : exn)
| SetupError (e : exn)
| Configuring (key : string)
| ConfiguredOk (key : string)
| ConfigureFailed (key : string)
| ConfigureError (key : string) (e : exn)
| NotInOrder (key : string)
| InitCompleted
| InitFailures (n : nat)
| CriticalError (e : exn).

(** The trace of a run of [initialize]: its own log lines, the two calls it
    makes on a configurator class, its calls on [subprocess] and
    [env_launcher], and the events of each configurator under its key. *)
Inductive event : Type :=
| Line (lv : level) (l : orch_line)
| Instantiate (key : string) (fragment : pyval)
| Invoke (key : string)
| RunAdbDevices
| LoadAndSetupEnv
| InModule (key : string) (e : mod_event).

(** ** The monad of device computations *)

Section Monad.
Context {W : Type}.

(** Device state in, device state out, the events emitted, and a result or
    an exception. *)
Definition M (E A : Type) : Type := W -> W * list E * res A.

#[export] Instance M_ret {E} : MRet (M E) :=
  fun A a w => (w, [], Ok a).

#[export] Instance M_bind {E} : MBind (M E) :=
  fun A B f c w =>
    match c w with
    | (w1, t1, Ok a) => let '(w2, t2, r) := f a w1 in (w2, t1 ++ t2, r)
    | (w1, t1, Raise e) => (w1, t1, Raise e)
    end.

Definition emit {E} (e : E) : M E unit := fun w => (w, [e], Ok tt).

Definition raise {E A} (e : exn) : M E A := fun w => (w, [], Raise e).

(** A pure step that may raise. *)
Definition lift_res {E A} (r : res A) : M E A := fun w => (w, [], r).

(** [try: c  except Exception as e: h e]. *)
Definition try_except {E A} (c : M E A) (h : exn -> M E A) : M E A :=
  fun w =>
    match c w with
    | (w1, t1, Ok a) => (w1, t1, Ok a)
    | (w1, t1, Raise e) => let '(w2, t2, r) := h e w1 in (w2, t1 ++ t2, r)
    end.

(** [for x in l: body x]. *)
Fixpoint for_each {E A} (l : list A) (body : A -> M E unit) : M E unit :=
  match l with
  | [] => mret tt
  | x :: l' => body x;; for_each l' body
  end.

(** [for i, x in enumerate(l): body i x], counting from [i]. *)
Fixpoint for_enumerate {E A} (i : nat) (l : list A) (body : nat -> A -> M E unit)
  : M E unit :=
  match l with
  | [] => mret tt
  | x :: l' => body i x;; for_enumerate (S i) l' body
  end.

(** A call on a collaborator: noted in the trace, then answered by the
    backend. *)
Definition external {A} (c : call) (f : W -> W * res A) : M mod_event A :=
  fun w => let '(w1, r) := f w in (w1, [Called c], r).

Definition log (lv : level) (text : string) (args : list pyval) : M mod_event unit :=
  emit (Logged lv text args None).

Definition log_exn (lv : level) (text : string) (args : list pyval) (e : exn)
  : M mod_event unit :=
  emit (Logged lv text args (Some e)).

(** Running a configurator's computation inside [initialize]: its events are
    filed under the module key. *)
Definition in_module {A} (key : string) (c : M mod_event A) : M event A :=
  fun w => let '(w1, t, r) := c w in (w1, map (InModule key) t, r).
End Monad.
Arguments M : clear implicits.

(** ** Collaborators *)

(** The functions the package imports and does not define.  Each one that
    touches the device takes the device state and may raise. *)
Record Backend (W : Type) : Type := mkBackend {
  (* android_world.utils.contacts_utils *)
  be_clear_contacts : object -> W -> W * res unit;
  be_add_contact : pyval -> pyval -> object -> option pyval -> W -> W * res unit;
  be_list_contacts : object -> W -> W * res (list (pyval * pyval));
  (* android_world.env.adb_utils *)
  be_get_all_package_names : object -> W -> W * res (list string);
  be_launch_app : string -> object -> W -> W * res unit;
  be_set_root_if_needed : object -> W -> W * res unit;
  be_grant_permissions : string -> string -> object -> W -> W * res unit;
  be_press_home_button : object -> W -> W * res unit;
  be_execute_sql_command : string -> object -> W -> W * res unit;
  (* android_world.task_evals.single.calendar.calendar_utils *)
  be_clear_calendar_db : object -> W -> W * res unit;
  be_add_events : list CalendarEvent -> object -> W -> W * res unit;
  be_add_random_events : object -> pyval -> W -> W * res unit;
  be_generate_simple_calendar_weekly_repeat_rule : pyval -> res Z;
  (* android_world.task_evals.utils.sqlite_utils, on the events table *)
  be_get_rows_from_remote_device : object -> W -> W * res (list CalendarEvent);
  (* datetime: [int(datetime.fromisoformat(s).timestamp())], and whether
     [datetime.fromtimestamp(v)] can be formatted *)
  be_iso_timestamp : string -> res Z;
  be_fromtimestamp : pyval -> res unit;
  (* subprocess.run([adb_path, 'devices'], check=True): its stdout *)
  be_adb_devices : string -> W -> W * res string;
  (* env_launcher.load_and_setup_env *)
  be_load_and_setup_env : Z -> bool -> string -> Z -> option string -> W -> W * res object;
  (* the interpreter: the order in which [for k in s] visits a set of strings,
     which is some order of its elements and changes with the hash seed of
     the process *)
  be_iter_set : gset string -> list string;
  be_iter_set_perm : forall s, be_iter_set s ≡ₚ elements s
}.
Arguments be_clear_contacts {W}.
Arguments be_add_contact {W}.
Arguments be_list_contacts {W}.
Arguments be_get_all_package_names {W}.
Arguments be_launch_app {W}.
Arguments be_set_root_if_needed {W}.
Arguments be_grant_permissions {W}.
Arguments be_press_home_button {W}.
Arguments be_execute_sql_command {W}.
Arguments be_clear_calendar_db {W}.
Arguments be_add_events {W}.
Arguments be_add_random_events {W}.
Arguments be_generate_simple_calendar_weekly_repeat_rule {W}.
Arguments be_get_rows_from_remote_device {W}.
Arguments be_iso_timestamp {W}.
Arguments be_fromtimestamp {W}.
Arguments be_adb_devices {W}.
Arguments be_load_and_setup_env {W}.
Arguments be_iter_set {W}.
Arguments be_iter_set_perm {W}.

(** ** modules/base_configurator.py *)

Module BaseConfigurator.

(** The attributes of an instance. *)
Record t : Type := mk {
  env : object;
  env_controller : object;
  config : pyval
}.

(** [BaseConfigurator.__init__(self, env, config)]. *)
Definition __init__ (env0 : object) (config0 : pyval) : t :=
  if hasattr_base_env env0 then
    {| env := env0; env_controller := attr_base_env env0; config := config0 |}
  else if hasattr_controller env0 then
    {| env := env0; env_controller := attr_controller env0; config := config0 |}
  else
    {| env := NoneObj; env_controller := env0; config := config0 |}.

(** [_ensure_environment(self)]. *)
Definition _ensure_environment (self : t) : res unit :=
  if negb (obj_truthy (env_controller self)) then Raise RuntimeError else Ok tt.

End BaseConfigurator.

(** ** modules/contacts_configurator.py *)

Module ContactsConfigurator.
Section WithBackend.
Context {W : Type} (B : Backend W).

Definition module_name : string := "Contacts".

(** The body of the loop of [_add_contacts]. *)
Definition add_one_contact (self : BaseConfigurator.t) (ui_delay : option pyval)
    (contact : pyval) : M W mod_event unit :=
  name ← lift_res (get contact "name" (PyStr ""));
  number ← lift_res (get contact "number" (PyStr ""));
  if truthy name && truthy number then
    try_except
      (external
         (add_contact name number (BaseConfigurator.env_controller self) ui_delay)
         (be_add_contact B name number (BaseConfigurator.env_controller self) ui_delay);;
       log Info "Added contact" [name; number])
      (fun e => log_exn Error "Failed to add contact" [name] e)
  else mret tt.

(** [_add_contacts(self)]. *)
Definition _add_contacts (self : BaseConfigurator.t) : M W mod_event unit :=
  contacts_to_add ← lift_res (get (BaseConfigurator.config self) "add_contacts" (PyList []));
  ui_delay ← lift_res (get_or_float_default (BaseConfigurator.config self) "ui_delay_sec");
  items ← lift_res (iter contacts_to_add);
  for_each items (add_one_contact self ui_delay).

(** [_verify_contacts(self)]. *)
Definition _verify_contacts (self : BaseConfigurator.t) : M W mod_event unit :=
  try_except
    (contacts_list ← external (list_contacts (BaseConfigurator.env_controller self))
                       (be_list_contacts B (BaseConfigurator.env_controller self));
     log Info "Verified contacts" [PyInt (Z.of_nat (length contacts_list))];;
     for_each contacts_list (fun c => log Info "  - contact" [fst c; snd c]))
    (fun e => log_exn Error "Failed to verify contacts" [] e).

(** [configure(self)]. *)
Definition configure (self : BaseConfigurator.t) : M W mod_event bool :=
  lift_res (BaseConfigurator._ensure_environment self);;
  log Info "Configuring contacts..." [];;
  try_except
    (clear ← lift_res (get (BaseConfigurator.config self) "clear_contacts" (PyBool false));
     (if truthy clear then
        external (clear_contacts (BaseConfigurator.env_controller self))
          (be_clear_contacts B (BaseConfigurator.env_controller self));;
        log Info "Cleared all contacts." []
      else mret tt);;
     _add_contacts self;;
     verify ← lift_res (get (BaseConfigurator.config self) "verify_contacts" (PyBool false));
     (if truthy verify then _verify_contacts self else mret tt);;
     mret true)
    (fun e => log_exn Error "Failed to configure contacts" [] e;; mret false).

End WithBackend.
End ContactsConfigurator.

(** ** modules/calendar_configurator.py *)

Module CalendarConfigurator.
Section WithBackend.
Context {W : Type} (B : Backend W).

Definition module_name : string := "Calendar".

Definition calendar_package : string := "com.simplemobiletools.calendar.pro".

(** [_setup_calendar_app(self)]. *)
Definition _setup_calendar_app (self : BaseConfigurator.t) : M W mod_event bool :=
  let ctl := BaseConfigurator.env_controller self in
  try_except
    (log Info "Ensure calendar app is running..." [PyStr calendar_package];;
     all_packages ← external (get_all_package_names ctl) (be_get_all_package_names B ctl);
     if negb (existsb (String.eqb calendar_package) all_packages) then
       log Error "Calendar app is not installed! Please install the app first."
         [PyStr calendar_package];;
       mret false
     else
       external (launch_app "simple calendar pro" ctl)
         (be_launch_app B "simple calendar pro" ctl);;
       emit (Called (sleep 2));;
       external (set_root_if_needed ctl) (be_set_root_if_needed B ctl);;
       external (grant_permissions calendar_package "android.permission.READ_CALENDAR" ctl)
         (be_grant_permissions B calendar_package "android.permission.READ_CALENDAR" ctl);;
       external (grant_permissions calendar_package "android.permission.WRITE_CALENDAR" ctl)
         (be_grant_permissions B calendar_package "android.permission.WRITE_CALENDAR" ctl);;
       external (press_home_button ctl) (be_press_home_button B ctl);;
       emit (Called (sleep 1));;
       mret true)
    (fun e =>
       log_exn Error "Error starting calendar app or setting permissions" [] e;;
       mret true).

(** [_clear_calendar_events(self)]. *)
Definition _clear_calendar_events (self : BaseConfigurator.t) : M W mod_event unit :=
  let ctl := BaseConfigurator.env_controller self in
  try_except
    (log Info "Attempting to clear calendar database" [];;
     external (clear_calendar_db ctl) (be_clear_calendar_db B ctl);;
     log Info "Successfully cleared all calendar events" [];;
     try_except
       (events ← external (get_rows_from_remote_device ctl)
                   (be_get_rows_from_remote_device B ctl);
        log Info "Remaining events after clearing" [PyInt (Z.of_nat (length events))])
       (fun e => log_exn Warning "Unable to verify clearing result" [] e))
    (fun e =>
       log_exn Error "Failed to clear calendar events" [] e;;
       try_except
         (external (execute_sql_command "DELETE FROM events;" ctl)
            (be_execute_sql_command B "DELETE FROM events;" ctl);;
          log Info "Cleared calendar events using direct SQL command" [])
         (fun e2 => log_exn Error "Alternative clearing method also failed" [] e2)).

(** Lines 134-147: the repeat settings of one event, as
    [(repeat_interval, repeat_rule)]. *)
Definition repeat_settings (repeat_interval0 day_of_week : pyval) : M W mod_event (Z * Z) :=
  weekly ← lift_res
    (if eq_str repeat_interval0 "weekly" then
       match int_le 1 day_of_week with
       | Ok true => le_int day_of_week 7
       | Ok false => Ok false
       | Raise e => Raise e
       end
     else Ok false);
  if weekly : bool then
    rule ← lift_res (be_generate_simple_calendar_weekly_repeat_rule B day_of_week);
    log Info "Set weekly repeat" [day_of_week; PyInt rule];;
    mret ((60 * 60 * 24 * 7)%Z, rule)
  else if eq_str repeat_interval0 "daily" then
    log Info "Set daily repeat" [];;
    mret ((60 * 60 * 24)%Z, 0%Z)
  else mret (0%Z, 0%Z).

(** Lines 152-159 and 163-169: a time given as an ISO string or as a Unix
    time stamp. *)
Definition to_timestamp (what : string) (i : nat) (title0 v : pyval) : M W mod_event pyval :=
  match v with
  | PyStr s =>
      ts ← lift_res (be_iso_timestamp B s);
      log Info what [PyInt (Z.of_nat (S i)); title0; v];;
      mret (PyInt ts)
  | _ =>
      log Info what [PyInt (Z.of_nat (S i)); title0; v];;
      mret v
  end.

(** Lines 151-183: from the start of the [try] to the event object. *)
Definition build_event (i : nat) (title0 description0 location0 start_time end_time
    duration_mins : pyval) (repeat : Z * Z) : M W mod_event CalendarEvent :=
  start ← to_timestamp "start time" i title0 start_time;
  end_ ← (if truthy end_time then to_timestamp "end time" i title0 end_time
          else
            secs ← lift_res (mul_int duration_mins 60);
            e ← lift_res (add start secs);
            log Info "duration, end timestamp" [PyInt (Z.of_nat (S i)); title0; duration_mins; e];;
            mret e);
  mret {| start_ts := start; end_ts := end_; title := title0;
          description := description0; location := location0;
          repeat_interval := fst repeat; repeat_rule := snd repeat |}.

(** The body of the first loop of [_add_specific_events]; it returns
    [calendar_events] as the iteration leaves it.  The [try] of lines 150-188
    is split where the event is appended: an exception before that point
    leaves the list as it was, one raised by the log line after it (line 186)
    finds the event already in the list; both reach the same handler. *)
Definition add_one_event (i : nat) (event0 : pyval) (calendar_events : list CalendarEvent)
  : M W mod_event (list CalendarEvent) :=
  title0 ← lift_res (get event0 "title" (PyStr ""));
  description0 ← lift_res (get event0 "description" (PyStr ""));
  location0 ← lift_res (get event0 "location" (PyStr ""));
  start_time ← lift_res (get event0 "start_time" PyNone);
  end_time ← lift_res (get event0 "end_time" PyNone);
  duration_mins ← lift_res (get event0 "duration_mins" (PyInt 30));
  repeat_interval0 ← lift_res (get event0 "repeat_interval" (PyInt 0));
  day_of_week ← lift_res (get event0 "day_of_week" (PyInt 0));
  repeat ← repeat_settings repeat_interval0 day_of_week;
  if truthy title0 && truthy start_time then
    built ← try_except
      (ev ← build_event i title0 description0 location0 start_time end_time
              duration_mins repeat;
       mret (Some ev))
      (fun e => log_exn Error "Failed to create calendar event" [title0] e;; mret None);
    match built with
    | Some ev =>
        try_except
          (lift_res (be_fromtimestamp B (start_ts ev));;
           log Info "Prepared calendar event" [PyInt (Z.of_nat (S i)); title0])
          (fun e => log_exn Error "Failed to create calendar event" [title0] e);;
        mret (calendar_events ++ [ev])
    | None => mret calendar_events
    end
  else mret calendar_events.

(** Lines 120-188: the first loop of [_add_specific_events]. *)
Fixpoint prepare_events (i : nat) (events : list pyval) (calendar_events : list CalendarEvent)
  : M W mod_event (list CalendarEvent) :=
  match events with
  | [] => mret calendar_events
  | event0 :: rest =>
      calendar_events' ← add_one_event i event0 calendar_events;
      prepare_events (S i) rest calendar_events'
  end.

(** Lines 197-212: reading the table back after the insertion. *)
Definition verify_addition (self : BaseConfigurator.t) : M W mod_event unit :=
  let ctl := BaseConfigurator.env_controller self in
  try_except
    (events ← external (get_rows_from_remote_device ctl)
                (be_get_rows_from_remote_device B ctl);
     log Info "Total events after addition" [PyInt (Z.of_nat (length events))];;
     for_enumerate 0 (take 5 events) (fun i ev =>
       lift_res (be_fromtimestamp B (start_ts ev));;
       log Info "  - Event" [PyInt (Z.of_nat (S i)); title ev]);;
     if (5 <? length events)%nat then
       log Info "more events..." [PyInt (Z.of_nat (length events - 5))]
     else mret tt)
    (fun e => log_exn Warning "Unable to verify addition result" [] e).

(** Lines 190-227: the insertion of the prepared events. *)
Definition insert_events (self : BaseConfigurator.t) (calendar_events : list CalendarEvent)
  : M W mod_event unit :=
  let ctl := BaseConfigurator.env_controller self in
  match calendar_events with
  | [] => mret tt
  | _ :: _ =>
      try_except
        (log Info "Attempting to add events to calendar database..."
           [PyInt (Z.of_nat (length calendar_events))];;
         external (add_events calendar_events ctl) (be_add_events B calendar_events ctl);;
         log Info "Successfully added events to calendar database"
           [PyInt (Z.of_nat (length calendar_events))];;
         verify_addition self)
        (fun e =>
           log_exn Error "Failed to add events to calendar database" [] e;;
           try_except
             (log Info "Attempting to add events one by one..." [];;
              for_enumerate 0 calendar_events (fun i ev =>
                try_except
                  (external (add_events [ev] ctl) (be_add_events B [ev] ctl);;
                   log Info "Successfully added event" [PyInt (Z.of_nat (S i)); title ev])
                  (fun e_inner =>
                     log_exn Error "Failed to add single event"
                       [PyInt (Z.of_nat (S i)); title ev] e_inner)))
             (fun e2 => log_exn Error "Adding events one by one also failed" [] e2))
  end.

(** [_add_specific_events(self, events_to_add)]. *)
Definition _add_specific_events (self : BaseConfigurator.t) (events_to_add : pyval)
  : M W mod_event unit :=
  items ← lift_res (iter events_to_add);
  calendar_events ← prepare_events 0 items [];
  insert_events self calendar_events.

(** [_add_random_events(self)]. *)
Definition _add_random_events (self : BaseConfigurator.t) : M W mod_event unit :=
  let ctl := BaseConfigurator.env_controller self in
  num_random_events ← lift_res (get (BaseConfigurator.config self) "random_event_count" (PyInt 10));
  positive ← lift_res (gt_int num_random_events 0);
  if positive : bool then
    try_except
      (log Info "Attempting to add random events to calendar..." [num_random_events];;
       external (add_random_events ctl num_random_events)
         (be_add_random_events B ctl num_random_events);;
       log Info "Successfully added random events to calendar" [num_random_events])
      (fun e => log_exn Error "Failed to add random events" [] e)
  else mret tt.

(** [_restart_calendar_app(self)]. *)
Definition _restart_calendar_app (self : BaseConfigurator.t) : M W mod_event unit :=
  let ctl := BaseConfigurator.env_controller self in
  try_except
    (external (launch_app "simple calendar pro" ctl)
       (be_launch_app B "simple calendar pro" ctl);;
     log Info "Restarted calendar app to refresh UI" [])
    (fun e => log_exn Warning "Failed to restart calendar app" [] e).

(** [configure(self)]. *)
Definition configure (self : BaseConfigurator.t) : M W mod_event bool :=
  lift_res (BaseConfigurator._ensure_environment self);;
  log Info "Configuring calendar events..." [];;
  try_except
    (ready ← _setup_calendar_app self;
     if negb ready then mret false
     else
       clear ← lift_res (get (BaseConfigurator.config self) "clear_events" (PyBool false));
       (if truthy clear then _clear_calendar_events self else mret tt);;
       events_to_add ← lift_res (get (BaseConfigurator.config self) "add_events" (PyList []));
       (if truthy events_to_add then _add_specific_events self events_to_add else mret tt);;
       random ← lift_res (get (BaseConfigurator.config self) "add_random_events" (PyBool false));
       (if truthy random then _add_random_events self else mret tt);;
       _restart_calendar_app self;;
       mret true)
    (fun e => log_exn Error "Failed to configure calendar" [] e;; mret false).

End WithBackend.
End CalendarConfigurator.

(** ** core.py *)

(** A configurator class, as [initialize] uses one: called with the environment
    and the module fragment it gives an instance, whose [configure()] answers
    with a boolean; either call may raise. *)
Record ConfiguratorClass (W : Type) : Type := mkClass {
  instance : Type;
  new : object -> pyval -> M W mod_event instance;
  configure : instance -> M W mod_event bool
}.
Arguments instance {W}.
Arguments new {W}.
Arguments configure {W}.

(** A subclass of [BaseConfigurator] that does not override [__init__]. *)
Definition subclass {W : Type} (configure0 : BaseConfigurator.t -> M W mod_event bool)
  : ConfiguratorClass W :=
  {| instance := BaseConfigurator.t;
     new := fun env0 config0 => mret (BaseConfigurator.__init__ env0 config0);
     configure := configure0 |}.

(** The fourteen configurator classes that [core.py] imports besides the two
    embedded above, each given by its [configure]: all of them derive from
    [BaseConfigurator] and none overrides [__init__]. *)
Record Classes (W : Type) : Type := mkClasses {
  DateTimeConfigurator : BaseConfigurator.t -> M W mod_event bool;
  SMSConfigurator : BaseConfigurator.t -> M W mod_event bool;
  SystemConfigurator : BaseConfigurator.t -> M W mod_event bool;
  RecipeConfigurator : BaseConfigurator.t -> M W mod_event bool;
  TasksConfigurator : BaseConfigurator.t -> M W mod_event bool;
  ExpenseConfigurator : BaseConfigurator.t -> M W mod_event bool;
  MusicConfigurator : BaseConfigurator.t -> M W mod_event bool;
  JoplinConfigurator : BaseConfigurator.t -> M W mod_event bool;
  OsmAndConfigurator : BaseConfigurator.t -> M W mod_event bool;
  AudioRecorderConfigurator : BaseConfigurator.t -> M W mod_event bool;
  MarkorConfigurator : BaseConfigurator.t -> M W mod_event bool;
  FilesConfigurator : BaseConfigurator.t -> M W mod_event bool;
  OpenTracksConfigurator : BaseConfigurator.t -> M W mod_event bool;
  GalleryConfigurator : BaseConfigurator.t -> M W mod_event bool
}.
Arguments DateTimeConfigurator {W}.
Arguments SMSConfigurator {W}.
Arguments SystemConfigurator {W}.
Arguments RecipeConfigurator {W}.
Arguments TasksConfigurator {W}.
Arguments ExpenseConfigurator {W}.
Arguments MusicConfigurator {W}.
Arguments JoplinConfigurator {W}.
Arguments OsmAndConfigurator {W}.
Arguments AudioRecorderConfigurator {W}.
Arguments MarkorConfigurator {W}.
Arguments FilesConfigurator {W}.
Arguments OpenTracksConfigurator {W}.
Arguments GalleryConfigurator {W}.

(** The two counters of [initialize]. *)
Record counts : Type := mkCounts {
  success_count : nat;
  total_count : nat
}.

Module EmulatorInitializer.

(** The attributes of an instance that [initialize] reads; [config] is the
    dict loaded from the configuration file. *)
Record t : Type := mk {
  config_path : string;
  console_port : Z;
  adb_path : string;
  grpc_port : Z;
  emulator_setup : bool;
  device_serial : option string;
  config : gmap string pyval
}.

(** [needle in hay] on strings. *)
Fixpoint contains (needle hay : string) : bool :=
  String.prefix needle hay ||
  match hay with
  | EmptyString => false
  | String _ hay' => contains needle hay'
  end.

Section WithBackend.
Context {W : Type} (B : Backend W) (C : Classes W).

(** A call of [initialize] on [subprocess] or [env_launcher]. *)
Definition external_call {A} (e : event) (f : W -> W * res A) : M W event A :=
  fun w => let '(w1, r) := f w in (w1, [e], r).

(** [try: c  except subprocess.CalledProcessError as e: h e]. *)
Definition try_except_called_process_error {A} (c : M W event A) (h : exn -> M W event A)
  : M W event A :=
  fun w =>
    match c w with
    | (w1, t1, Raise CalledProcessError) =>
        let '(w2, t2, r) := h CalledProcessError w1 in (w2, t1 ++ t2, r)
    | other => other
    end.

(** [setup_environment(self)]; the environment it stores in [self.env] is its
    result here. *)
Definition setup_environment (self : t) : M W event object :=
  emit (Line Info SettingUp);;
  try_except
    (try_except_called_process_error
       (devices ← external_call RunAdbDevices (be_adb_devices B (adb_path self));
        emit (Line Info (AvailableDevices devices));;
        if (match device_serial self with
            | None => true
            | Some serial => String.eqb serial "" || String.prefix "emulator-" serial
            end) && negb (contains "emulator" devices)
        then
          emit (Line Error NoEmulatorFound);;
          raise RuntimeError
        else mret tt)
       (fun e => emit (Line Error AdbDevicesFailed));;
     try_except
       (env0 ← external_call LoadAndSetupEnv
                 (be_load_and_setup_env B (console_port self) (emulator_setup self)
                    (adb_path self) (grpc_port self) (device_serial self));
        emit (Line Info EnvironmentReady);;
        mret env0)
       (fun e => emit (Line Error (ConnectFailed e));; raise e))
    (fun e => emit (Line Error (SetupError e));; raise e).

(** The list [configuration_order] of [initialize]. *)
Definition configuration_order : list (string * ConfiguratorClass W) :=
  [ ("datetime", subclass (DateTimeConfigurator C));
    ("contacts", subclass (ContactsConfigurator.configure B));
    ("sms", subclass (SMSConfigurator C));
    ("calendar", subclass (CalendarConfigurator.configure B));
    ("recipe", subclass (RecipeConfigurator C));
    ("tasks", subclass (TasksConfigurator C));
    ("expense", subclass (ExpenseConfigurator C));
    ("music", subclass (MusicConfigurator C));
    ("joplin", subclass (JoplinConfigurator C));
    ("osmand", subclass (OsmAndConfigurator C));
    ("audio_recorder", subclass (AudioRecorderConfigurator C));
    ("markor", subclass (MarkorConfigurator C));
    ("files", subclass (FilesConfigurator C));
    ("opentracks", subclass (OpenTracksConfigurator C));
    ("gallery", subclass (GalleryConfigurator C));
    ("system", subclass (SystemConfigurator C)) ].

(** Lines 158-170: the [try] around one configurator; it answers whether
    [success_count] is to be incremented. *)
Definition run_configurator (config_key : string) (configurator_class : ConfiguratorClass W)
    (env0 : object) (fragment : pyval) : M W event bool :=
  try_except
    (emit (Line Info (Configuring config_key));;
     emit (Instantiate config_key fragment);;
     configurator ← in_module config_key (new configurator_class env0 fragment);
     emit (Invoke config_key);;
     ok ← in_module config_key (configure configurator_class configurator);
     if ok : bool then
       emit (Line Info (ConfiguredOk config_key));;
       mret true
     else
       emit (Line Error (ConfigureFailed config_key));;
       mret false)
    (fun e => emit (Line Error (ConfigureError config_key e));; mret false).

(** Lines 155-170: the loop over [configuration_order]. *)
Fixpoint configure_in_order (order : list (string * ConfiguratorClass W)) (env0 : object)
    (cfg : gmap string pyval) (c : counts) : M W event counts :=
  match order with
  | [] => mret c
  | (config_key, configurator_class) :: rest =>
      match cfg !! config_key with
      | Some fragment =>
          ok ← run_configurator config_key configurator_class env0 fragment;
          configure_in_order rest env0 cfg
            {| success_count := if ok : bool then S (success_count c) else success_count c;
               total_count := S (total_count c) |}
      | None => configure_in_order rest env0 cfg c
      end
  end.

(** Line 173: the keys of the configuration that [configuration_order] does
    not name. *)
Definition remaining_configs (order : list (string * ConfiguratorClass W))
    (cfg : gmap string pyval) : gset string :=
  dom cfg ∖ list_to_set (order.*1).

(** Lines 174-177: the loop over [remaining_configs], in the order in which
    the set is visited. *)
Fixpoint count_remaining (keys : list string) (c : counts) : M W event counts :=
  match keys with
  | [] => mret c
  | config_key :: rest =>
      emit (Line Warning (NotInOrder config_key));;
      count_remaining rest
        {| success_count := S (success_count c); total_count := S (total_count c) |}
  end.

(** Lines 131-184: the body of the [try] of [initialize], with the two
    counters as they stand when it returns. *)
Definition initialize_body (self : t) : M W event (bool * counts) :=
  env0 ← setup_environment self;
  c1 ← configure_in_order configuration_order env0 (config self)
         {| success_count := 0; total_count := 0 |};
  c2 ← count_remaining (be_iter_set B (remaining_configs configuration_order (config self))) c1;
  if (success_count c2 =? total_count c2)%nat then
    emit (Line Info InitCompleted);;
    mret (true, c2)
  else
    emit (Line Warning (InitFailures (total_count c2 - success_count c2)));;
    mret (false, c2).

(** [initialize(self)], together with the final value of the counters;
    [None] when the handler of line 186 ran, which is before they are
    bound. *)
Definition initialize_report (self : t) : M W event (bool * option counts) :=
  emit (Line Info BeginInit);;
  try_except
    (r ← initialize_body self; mret (fst r, Some (snd r)))
    (fun e => emit (Line Error (CriticalError e));; mret (false, None)).

(** [initialize(self)]. *)
Definition initialize (self : t) : M W event bool :=
  r ← initialize_report self; mret (fst r).

(** Lines 190-285: the methods kept for backward compatibility, all of one
    shape.  [env0] is what [self.env] holds when the method is called: [None]
    until [setup_environment] has run. *)
Definition configure_module (config_key : string) (configurator_class : ConfiguratorClass W)
    (self : t) (env0 : object) : M W event unit :=
  match config self !! config_key with
  | Some fragment =>
      configurator ← in_module config_key (new configurator_class env0 fragment);
      in_module config_key (configure configurator_class configurator);;
      mret tt
  | None => mret tt
  end.

(** [configure_contacts(self)] and [configure_calendar(self)]. *)
Definition configure_contacts (self : t) (env0 : object) : M W event unit :=
  configure_module "contacts" (subclass (ContactsConfigurator.configure B)) self env0.

Definition configure_calendar (self : t) (env0 : object) : M W event unit :=
  configure_module "calendar" (subclass (CalendarConfigurator.configure B)) self env0.

End WithBackend.
End EmulatorInitializer.

(** ** Reading a trace *)

(** The keys for which a configurator class was called, in order. *)
Definition instantiated (t : list event) : list string :=
  omap (fun e => match e with Instantiate k _ => Some k | _ => None end) t.

(** The keys for which [configure()] was called, in order. *)
Definition invoked (t : list event) : list string :=
  omap (fun e => match e with Invoke k => Some k | _ => None end) t.

(** The keys reported as not in the configuration order, in order. *)
Definition unrecognized (t : list event) : list string :=
  omap (fun e => match e with Line _ (NotInOrder k) => Some k | _ => None end) t.

(** How [initialize] reports the end of a configurator. *)
Inductive outcome : Type :=
| ReturnedTrue
| ReturnedFalse
| Raised (e : exn).

Definition outcomes (t : list event) : list (string * outcome) :=
  omap (fun e => match e with
                 | Line _ (ConfiguredOk k) => Some (k, ReturnedTrue)
                 | Line _ (ConfigureFailed k) => Some (k, ReturnedFalse)
                 | Line _ (ConfigureError k x) => Some (k, Raised x)
                 | _ => None
                 end) t.

Definition is_true (o : string * outcome) : bool :=
  match snd o with ReturnedTrue => true | _ => false end.

(** The events of the configurators themselves. *)
Definition module_events (t : list event) : list (string * mod_event) :=
  omap (fun e => match e with InModule k m => Some (k, m) | _ => None end) t.

(** The calls in a configurator's trace, in order. *)
Definition calls (t : list mod_event) : list call :=
  omap (fun e => match e with Called c => Some c | _ => None end) t.

(** The log lines of a level in a configurator's trace. *)
Definition is_level (lv : level) (e : mod_event) : bool :=
  match e, lv with
  | Logged Info _ _ _, Info => true
  | Logged Warning _ _ _, Warning => true
  | Logged Error _ _ _, Error => true
  | _, _ => false
  end.

(** ** A simulated device

    A small device with a contacts table, a calendar table and a package list,
    on which the scenarios of the specification are run. *)

Module Sim.

Record device : Type := mkDevice {
  contacts : list (pyval * pyval);
  events : list CalendarEvent;
  packages : list string;
  adb_stdout : string;
  grpc_up : bool
}.

Definition set_contacts (l : list (pyval * pyval)) (d : device) : device :=
  {| contacts := l; events := events d; packages := packages d;
     adb_stdout := adb_stdout d; grpc_up := grpc_up d |}.

Definition set_events (l : list CalendarEvent) (d : device) : device :=
  {| contacts := contacts d; events := l; packages := packages d;
     adb_stdout := adb_stdout d; grpc_up := grpc_up d |}.

(** The environment [load_and_setup_env] hands out: an object with a
    [controller]. *)
Definition the_controller : object := Object 2 None None.
Definition the_env : object := Object 1 None (Some the_controller).

(** [1 << (day_of_week - 1)] for a day from 1 to 7. *)
Definition weekly_rule (v : pyval) : res Z :=
  match as_int v with
  | Some n => if ((1 <=? n) && (n <=? 7))%Z then Ok (Z.shiftl 1 (n - 1)) else Raise ValueError
  | None => Raise TypeError
  end.

(** The one date the scenarios use, read as UTC. *)
Definition iso_timestamp (s : string) : res Z :=
  if String.eqb s "2024-01-01T09:00:00" then Ok 1704099600%Z
  else if String.eqb s "2024-01-01T10:00:00" then Ok 1704103200%Z
  else Raise ValueError.

(** Years 1 to 9999 only. *)
Definition fromtimestamp (v : pyval) : res unit :=
  match v with
  | PyFloat x =>
      if PrimFloat.leb (-62135596800)%float x && PrimFloat.leb x 253402300799%float
      then Ok tt else Raise ValueError
  | _ =>
      match as_int v with
      | Some n =>
          if ((-62135596800 <=? n) && (n <=? 253402300799))%Z then Ok tt
          else Raise ValueError
      | None => Raise TypeError
      end
  end.

(** The contact named Mallory cannot be added, and no batch holding an event
    titled Broken can be inserted. *)
Definition backend : Backend device :=
  {| be_clear_contacts := fun _ d => (set_contacts [] d, Ok tt);
     be_add_contact := fun name number _ _ d =>
       if eq_str name "Mallory" then (d, Raise (OtherError 1))
       else (set_contacts (contacts d ++ [(name, number)]) d, Ok tt);
     be_list_contacts := fun _ d => (d, Ok (contacts d));
     be_get_all_package_names := fun _ d => (d, Ok (packages d));
     be_launch_app := fun _ _ d => (d, Ok tt);
     be_set_root_if_needed := fun _ d => (d, Ok tt);
     be_grant_permissions := fun _ _ _ d => (d, Ok tt);
     be_press_home_button := fun _ d => (d, Ok tt);
     be_execute_sql_command := fun _ _ d => (set_events [] d, Ok tt);
     be_clear_calendar_db := fun _ d => (set_events [] d, Ok tt);
     be_add_events := fun evs _ d =>
       if existsb (fun ev => eq_str (title ev) "Broken") evs then (d, Raise (OtherError 2))
       else (set_events (events d ++ evs) d, Ok tt);
     be_add_random_events := fun _ _ d => (d, Ok tt);
     be_generate_simple_calendar_weekly_repeat_rule := weekly_rule;
     be_get_rows_from_remote_device := fun _ d => (d, Ok (events d));
     be_iso_timestamp := iso_timestamp;
     be_fromtimestamp := fromtimestamp;
     be_adb_devices := fun _ d => (d, Ok (adb_stdout d));
     be_load_and_setup_env := fun _ _ _ _ _ d =>
       if grpc_up d then (d, Ok the_env) else (d, Raise (OtherError 3));
     be_iter_set := elements;
     be_iter_set_perm := fun s => Permutation_refl (elements s) |}.

(** A [configure()] that answers [b] and leaves the device alone, and one
    that raises. *)
Definition answering (b : bool) : BaseConfigurator.t -> M device mod_event bool :=
  fun _ => mret b.

Definition raising (e : exn) : BaseConfigurator.t -> M device mod_event bool :=
  fun _ => raise e.


Definition classes_with (datetime sms system : BaseConfigurator.t -> M device mod_event bool)
  : Classes device :=
  {| DateTimeConfigurator := datetime;
     SMSConfigurator := sms;
     SystemConfigurator := system;
     RecipeConfigurator := answering true;
     TasksConfigurator := answering true;
     ExpenseConfigurator := answering true;
     MusicConfigurator := answering true;
     JoplinConfigurator := answering true;
     OsmAndConfigurator := answering true;
     AudioRecorderConfigurator := answering true;
     MarkorConfigurator := answering true;
     FilesConfigurator := answering true;
     OpenTracksConfigurator := answering true;
     GalleryConfigurator := answering true |}.

Definition classes : Classes device :=
  classes_with (answering true) (answering true) (answering true).

(** An emulator that is up, with the calendar application installed. *)
Definition ready : device :=
  {| contacts := []; events := [];
     packages := ["com.android.contacts"; "com.simplemobiletools.calendar.pro"];
     adb_stdout := "List of devices attached emulator-5554 device";
     grpc_up := true |}.

(** The same emulator without the calendar application. *)
Definition no_calendar : device :=
  {| contacts := []; events := []; packages := ["com.android.contacts"];
     adb_stdout := "List of devices attached emulator-5554 device";
     grpc_up := true |}.

(** An emulator whose gRPC port cannot be reached. *)
Definition unreachable : device :=
  {| contacts := []; events := []; packages := [];
     adb_stdout := "List of devices attached emulator-5554 device";
     grpc_up := false |}.

Definition initializer (cfg : gmap string pyval) : EmulatorInitializer.t :=
  {| EmulatorInitializer.config_path := "config.json";
     EmulatorInitializer.console_port := 5554;
     EmulatorInitializer.adb_path := "adb";
     EmulatorInitializer.grpc_port := 8554;
     EmulatorInitializer.emulator_setup := false;
     EmulatorInitializer.device_serial := None;
     EmulatorInitializer.config := cfg |}.

(** Scenario E: one key, which the priority list does not name. *)
Definition config_unknown : gmap string pyval :=
  {[ "unknown_module" := PyDict [] ]}.

(** Three known modules, listed against the priority order, and one unknown
    one. *)
Definition config_mixed : gmap string pyval :=
  <["system" := PyDict []]>
    (<["unknown_module" := PyDict []]>
       (<["sms" := PyDict []]> {[ "datetime" := PyDict [] ]})).

(** Scenario C: a stand-up of fifteen minutes. *)
Definition standup : list (string * pyval) :=
  [("title", PyStr "Standup"); ("start_time", PyStr "2024-01-01T09:00:00");
   ("duration_mins", PyInt 15)].

(** A weekly event whose day is written as a word. *)
Definition weekly_on_mon : pyval :=
  PyDict [("title", PyStr "Review"); ("start_time", PyInt 1704099600);
          ("repeat_interval", PyStr "weekly"); ("day_of_week", PyStr "mon")].

(** The same without a title. *)
Definition untitled_weekly_on_mon : pyval :=
  PyDict [("start_time", PyInt 1704099600);
          ("repeat_interval", PyStr "weekly"); ("day_of_week", PyStr "mon")].

(** Events with an empty title, without a start time, with a start time that
    is not a date. *)
Definition untitled : pyval :=
  PyDict [("title", PyStr ""); ("start_time", PyStr "2024-01-01T09:00:00")].

Definition no_start : pyval := PyDict [("title", PyStr "Lunch")].

Definition bad_date : pyval :=
  PyDict [("title", PyStr "Dentist"); ("start_time", PyStr "tomorrow")].

(** Contacts: two that can be added, one that the device refuses, one without
    a name and one without a number. *)
Definition alice : pyval := PyDict [("name", PyStr "Alice"); ("number", PyStr "555-0100")].
Definition bob : pyval := PyDict [("name", PyStr "Bob"); ("number", PyStr "555-0101")].
Definition mallory : pyval := PyDict [("name", PyStr "Mallory"); ("number", PyStr "555-0102")].
Definition nameless : pyval := PyDict [("name", PyStr ""); ("number", PyStr "555-0103")].
Definition numberless : pyval := PyDict [("name", PyStr "Carol")].

(** The event built from the stand-up, and one that the device refuses. *)
Definition standup_event : CalendarEvent :=
  {| start_ts := PyInt 1704099600; end_ts := PyInt 1704100500; title := PyStr "Standup";
     description := PyStr ""; location := PyStr ""; repeat_interval := 0; repeat_rule := 0 |}.

Definition broken_event : CalendarEvent :=
  {| start_ts := PyInt 1704099600; end_ts := PyInt 1704101400; title := PyStr "Broken";
     description := PyStr ""; location := PyStr ""; repeat_interval := 0; repeat_rule := 0 |}.

(** Module fragments. *)
Definition three_contacts : pyval := PyDict [("add_contacts", PyList [alice; mallory; bob])].

Definition incomplete_contacts : pyval :=
  PyDict [("add_contacts", PyList [nameless; numberless])].

Definition weekly_then_standup : pyval :=
  PyDict [("add_events", PyList [weekly_on_mon; PyDict standup])].

Definition standup_only : pyval := PyDict [("add_events", PyList [PyDict standup])].

Definition bad_date_then_standup : pyval :=
  PyDict [("add_events", PyList [bad_date; PyDict standup; no_start])].

Definition incomplete_events : pyval := PyDict [("add_events", PyList [untitled; no_start])].

Definition untitled_weekly_only : pyval :=
  PyDict [("add_events", PyList [untitled_weekly_on_mon])].

Definition untitled_only : pyval := PyDict [("add_events", PyList [untitled])].

(** A configurator on the controller of the simulated device. *)
Definition configurator (fragment : pyval) : BaseConfigurator.t :=
  BaseConfigurator.__init__ the_env fragment.

End Sim.

(** The keys of [configuration_order], in its order. *)
Definition priority : list string :=
  [ "datetime"; "contacts"; "sms"; "calendar"; "recipe"; "tasks"; "expense"; "music";
    "joplin"; "osmand"; "audio_recorder"; "markor"; "files"; "opentracks"; "gallery";
    "system" ].

(** The keys among [keys] that the configuration holds, in the order of
    [keys]. *)
Definition present (cfg : gmap string pyval) (keys : list string) : list string :=
  filter (fun k => is_Some (cfg !! k)) keys.

(** The keys of the configuration outside the priority list. *)
Definition unknown_keys (cfg : gmap string pyval) : gset string :=
  dom cfg ∖ list_to_set priority.

(** The last log line of a run of [initialize] that reaches line 179. *)
Definition final_line (c : counts) : event :=
  if (success_count c =? total_count c)%nat then Line Info InitCompleted
  else Line Warning (InitFailures (total_count c - success_count c)).

(** The counters as a run reports them; nothing was counted when they were
    never bound. *)
Definition attempted (r : option counts) : nat :=
  match r with Some c => total_count c | None => 0 end.

Definition succeeded (r : option counts) : nat :=
  match r with Some c => success_count c | None => 0 end.

(** The counters at line 152. *)
Definition zero : counts := {| success_count := 0; total_count := 0 |}.

(** A class whose constructor always returns, without touching the device or
    the trace. *)
Definition constructs {W : Type} (cls : ConfiguratorClass W) : Prop :=
  forall env0 fragment w, exists i, new cls env0 fragment w = (w, [], Ok i).

(** The call of [cls] on [env0] and [fragment], or the [configure()] of the
    instance it gives, raises [e] from the device [w], leaving the device
    [w']. *)
Definition raises {W : Type} (cls : ConfiguratorClass W) (env0 : object) (fragment : pyval)
    (w : W) (e : exn) (w' : W) : Prop :=
  (exists t, new cls env0 fragment w = (w', t, Raise e)) \/
  (exists i w1 t1 t2, new cls env0 fragment w = (w1, t1, Ok i) /\
                      configure cls i w1 = (w', t2, Raise e)).

(** ** The walk of the specification *)

(** What a configurator does when its class is called on the environment and
    the module fragment and its [configure()] is then run, from the device
    [w]: the device it leaves, the events it wrote, and how it ended. *)
Definition conduct {W : Type} (cls : ConfiguratorClass W) (env0 : object) (fragment : pyval)
    (w : W) : W * list mod_event * outcome :=
  match new cls env0 fragment w with
  | (w1, t1, Raise e) => (w1, t1, Raised e)
  | (w1, t1, Ok i) =>
      match configure cls i w1 with
      | (w2, t2, Ok true) => (w2, t1 ++ t2, ReturnedTrue)
      | (w2, t2, Ok false) => (w2, t1 ++ t2, ReturnedFalse)
      | (w2, t2, Raise e) => (w2, t1 ++ t2, Raised e)
      end
  end.

(** The configurator type that goes with each key of the priority list. *)
Definition configurator_for {W : Type} (B : Backend W) (C : Classes W) (k : string)
  : option (ConfiguratorClass W) :=
  if String.eqb k "datetime" then Some (subclass (DateTimeConfigurator C))
  else if String.eqb k "contacts" then Some (subclass (ContactsConfigurator.configure B))
  else if String.eqb k "sms" then Some (subclass (SMSConfigurator C))
  else if String.eqb k "calendar" then Some (subclass (CalendarConfigurator.configure B))
  else if String.eqb k "recipe" then Some (subclass (RecipeConfigurator C))
  else if String.eqb k "tasks" then Some (subclass (TasksConfigurator C))
  else if String.eqb k "expense" then Some (subclass (ExpenseConfigurator C))
  else if String.eqb k "music" then Some (subclass (MusicConfigurator C))
  else if String.eqb k "joplin" then Some (subclass (JoplinConfigurator C))
  else if String.eqb k "osmand" then Some (subclass (OsmAndConfigurator C))
  else if String.eqb k "audio_recorder" then Some (subclass (AudioRecorderConfigurator C))
  else if String.eqb k "markor" then Some (subclass (MarkorConfigurator C))
  else if String.eqb k "files" then Some (subclass (FilesConfigurator C))
  else if String.eqb k "opentracks" then Some (subclass (OpenTracksConfigurator C))
  else if String.eqb k "gallery" then Some (subclass (GalleryConfigurator C))
  else if String.eqb k "system" then Some (subclass (SystemConfigurator C))
  else None.

(** The priority list with the configurator type of each key. *)
Definition expected_order {W : Type} (B : Backend W) (C : Classes W)
  : list (string * ConfiguratorClass W) :=
  omap (fun k => option_map (pair k) (configurator_for B C k)) priority.

(** The walk over a list of keys and configurator types: in the order of the
    list, for each key that the configuration holds, the configurator is run
    on the environment and the fragment of the key, from the device as the
    one before left it, whatever the one before did.  The result is the
    device at the end, the events of the configurators, each under its key,
    and how each ended. *)
Fixpoint walk {W : Type} (order : list (string * ConfiguratorClass W)) (env0 : object)
    (cfg : gmap string pyval) (w : W)
  : W * list (string * mod_event) * list (string * outcome) :=
  match order with
  | [] => (w, [], [])
  | (k, cls) :: rest =>
      match cfg !! k with
      | Some fragment =>
          let '(w1, tm, o) := conduct cls env0 fragment w in
          let '(w2, tms, os) := walk rest env0 cfg w1 in
          (w2, map (pair k) tm ++ tms, (k, o) :: os)
      | None => walk rest env0 cfg w
      end
  end.

(** ** Reading an item of a module fragment *)

Definition is_dict (v : pyval) : bool :=
  match v with PyDict _ => true | _ => false end.

(** [v.get(k, dflt)] for a value that is a dict. *)
Definition field (v : pyval) (k : string) (dflt : pyval) : pyval :=
  match v with
  | PyDict d => default dflt (dict_lookup k d)
  | _ => dflt
  end.

(** A contact with a name and a number (line 50), an event with a title and a
    start time (line 149). *)
Definition complete_contact (x : pyval) : bool :=
  truthy (field x "name" (PyStr "")) && truthy (field x "number" (PyStr "")).

Definition complete_event (x : pyval) : bool :=
  truthy (field x "title" (PyStr "")) && truthy (field x "start_time" PyNone).

(** The time stamp a start or end time stands for: an ISO string is parsed, an
    integer is taken as it is. *)
Definition resolves {W : Type} (B : Backend W) (v : pyval) (n : Z) : Prop :=
  match v with
  | PyStr s => be_iso_timestamp B s = Ok n
  | _ => as_int v = Some n
  end.



(** The repeat settings of an event can be read: lines 134-147 do not raise
    on it. *)
Definition repeat_readable {W : Type} (B : Backend W) (x : pyval) : Prop :=
  forall w : W, exists t rep,
    CalendarConfigurator.repeat_settings B (field x "repeat_interval" (PyInt 0))
      (field x "day_of_week" (PyInt 0)) w = (w, t, Ok rep).

(** A computation that returns from every device state, with a result that
    satisfies [P]. *)
Definition returns_with {W E A : Type} (P : A -> Prop) (c : M W E A) : Prop :=
  forall w, exists w' t a, c w = (w', t, Ok a) /\ P a.

Definition returns {W E A : Type} (c : M W E A) : Prop :=
  returns_with (fun _ => True) c.

(** The events that the first loop of [_add_specific_events] keeps, each item
    taken on its own: the event built from a complete item, nothing for an
    incomplete one or for one whose conversion raises. *)
Definition prepared_one {W : Type} (B : Backend W) (w : W) (i : nat) (x : pyval)
  : list CalendarEvent :=
  match CalendarConfigurator.repeat_settings B (field x "repeat_interval" (PyInt 0))
          (field x "day_of_week" (PyInt 0)) w with
  | (_, _, Ok rep) =>
      if complete_event x then
        match CalendarConfigurator.build_event B i (field x "title" (PyStr ""))
                (field x "description" (PyStr "")) (field x "location" (PyStr ""))
                (field x "start_time" PyNone) (field x "end_time" PyNone)
                (field x "duration_mins" (PyInt 30)) rep w with
        | (_, _, Ok ev) => [ev]
        | (_, _, Raise _) => []
        end
      else []
  | (_, _, Raise _) => []
  end.

Fixpoint prepared {W : Type} (B : Backend W) (w : W) (i : nat) (items : list pyval)
  : list CalendarEvent :=
  match items with
  | [] => []
  | x :: rest => prepared_one B w i x ++ prepared B w (S i) rest
  end.

(** The call that adds the contact [x]. *)
Definition add_contact_call (self : BaseConfigurator.t) (ui_delay : option pyval) (x : pyval)
  : call :=
  add_contact (field x "name" (PyStr "")) (field x "number" (PyStr ""))
    (BaseConfigurator.env_controller self) ui_delay.

(** A trace without a warning or an error. *)
Definition quiet (t : list mod_event) : Prop :=
  Forall (fun e => is_level Warning e = false /\ is_level Error e = false) t.

(** Unfolding the monad. *)
Ltac run :=
  unfold mbind, M_bind, mret, M_ret, emit, raise, lift_res, try_except, log, log_exn,
    external, in_module; simpl.

(** ** Python text *)

(** The text operations of [utils/helpers.py].  A text is a string of code
    points below 256. *)
Module Text.

(** [c.isspace()]: tab to carriage return, the four separators 28 to 31, the
    space, and in the upper half the next-line character and the no-break
    space. *)
Definition is_space (c : ascii) : bool :=
  let n := nat_of_ascii c in
  ((9 <=? n) && (n <=? 13)) || ((28 <=? n) && (n <=? 32)) || (n =? 133) || (n =? 160).

(** [s.lstrip()], [s.rstrip()] and [s.strip()]. *)
Fixpoint lstrip (s : string) : string :=
  match s with
  | EmptyString => EmptyString
  | String c s' => if is_space c then lstrip s' else s
  end.

Fixpoint rstrip (s : string) : string :=
  match s with
  | EmptyString => EmptyString
  | String c s' =>
      match rstrip s' with
      | EmptyString => if is_space c then EmptyString else String c EmptyString
      | r => String c r
      end
  end.

Definition strip (s : string) : string := rstrip (lstrip s).

(** [s.split(sep)] for a separator of one character: an empty text gives one
    empty piece. *)
Fixpoint split (sep : ascii) (s : string) : list string :=
  match s with
  | EmptyString => [EmptyString]
  | String c s' =>
      if Ascii.eqb c sep then EmptyString :: split sep s'
      else match split sep s' with
           | piece :: pieces => String c piece :: pieces
           | [] => [String c EmptyString]
           end
  end.

(** [s[n:]]. *)
Fixpoint drop (n : nat) (s : string) : string :=
  match n, s with
  | O, _ => s
  | S n', String _ s' => drop n' s'
  | S _, EmptyString => EmptyString
  end.

(** The new-line character. *)
Definition newline : ascii := ascii_of_nat 10.

(** [sep.join(pieces)] for a separator of one character. *)
Fixpoint join (sep : ascii) (pieces : list string) : string :=
  match pieces with
  | [] => EmptyString
  | [piece] => piece
  | piece :: rest => piece +:+ String sep (join sep rest)
  end.

(** A text without white space. *)
Fixpoint no_space (s : string) : bool :=
  match s with
  | EmptyString => true
  | String c s' => negb (is_space c) && no_space s'
  end.

(** A text of white space only. *)
Fixpoint blank (s : string) : bool :=
  match s with
  | EmptyString => true
  | String c s' => is_space c && blank s'
  end.

End Text.

(** ** utils/constants.py and utils/helpers.py *)

Module Helpers.

(** [APP_INFO]: for each application key, a dict of strings. *)
Definition APP_INFO : list (string * list (string * string)) :=
  [ ("datetime", [("package_name", "com.android.settings"); ("display_name", "Settings")]);
    ("contacts", [("package_name", "com.android.contacts"); ("display_name", "Contacts")]);
    ("sms", [("package_name", "com.android.messaging"); ("display_name", "Messages")]);
    ("calendar", [("package_name", "com.android.calendar"); ("display_name", "Calendar")]);
    ("recipe", [("package_name", "com.foodsquare.broccoli"); ("display_name", "Broccoli");
                ("db_path", "/data/data/com.foodsquare.broccoli/databases/broccoli.sqlite");
                ("table_name", "recipe")]);
    ("tasks", [("package_name", "org.tasks"); ("display_name", "Tasks");
               ("db_path", "/data/data/org.tasks/databases/database");
               ("table_name", "tasks")]);
    ("expense", [("package_name", "com.arduia.expense"); ("display_name", "Pro Expense");
                 ("db_path", "/data/data/com.arduia.expense/databases/accounting.db");
                 ("table_name", "expense")]);
    ("music", [("package_name", "code.name.monkey.retromusic");
               ("display_name", "Retro Music");
               ("playlist_db_path",
                "/data/data/code.name.monkey.retromusic/databases/playlist.db");
               ("playback_db_path",
                "/data/data/code.name.monkey.retromusic/databases/music_playback_state.db")]);
    ("joplin", [("package_name", "net.cozic.joplin"); ("display_name", "Joplin");
                ("db_path", "/data/data/net.cozic.joplin/databases/joplin.sqlite")]);
    ("osmand", [("package_name", "net.osmand.plus"); ("display_name", "OsmAnd");
                ("favorites_path", "/data/data/net.osmand.plus/files/favourites.gpx")]);
    ("audio_recorder",
     [("package_name", "com.dimowner.audiorecorder"); ("display_name", "Audio Recorder");
      ("data_path",
       "/storage/emulated/0/Android/data/com.dimowner.audiorecorder/files/Music/records")]);
    ("markor", [("package_name", "net.gsantner.markor"); ("display_name", "Markor");
                ("data_path", "/storage/emulated/0/Documents/Markor")]);
    ("opentracks", [("package_name", "de.dennisguse.opentracks");
                    ("display_name", "Activity Tracker");
                    ("db_path", "/data/data/de.dennisguse.opentracks/databases/database.db");
                    ("table_name", "tracks")]);
    ("gallery", [("data_path", "/storage/emulated/0/DCIM")]);
    ("files", [("base_path", "/storage/emulated/0")]) ].

(** [d.get(k)] on a dict with string keys: [None] when the key is missing. *)
Fixpoint dict_get {A : Type} (k : string) (d : list (string * A)) : option A :=
  match d with
  | [] => None
  | (k', v) :: d' => if String.eqb k k' then Some v else dict_get k d'
  end.

(** [bool(v)] for a string or [None]. *)
Definition given (v : option string) : bool :=
  match v with
  | Some s => negb (String.eqb s "")
  | None => false
  end.

(** The calls of the helpers on [adb_utils] and [time]. *)
Inductive adb_call : Type :=
| issue_generic_request (cmd : list string) (controller : object)
| launch_app (app : string) (controller : object)
| press_home_button (controller : object)
| sleep (secs : Z).

(** What a helper leaves in the trace: a line of the root logger, or a
    call. *)
Inductive helper_event : Type :=
| Noted (lv : level) (text : string) (args : list string) (e : option exn)
| Requested (c : adb_call).

(** The functions of [adb_utils] that the helpers do not replace;
    [issue_generic_request] answers with the decoded output of the command. *)
Record Adb (W : Type) : Type := mkAdb {
  adb_issue_generic_request : list string -> object -> W -> W * res string;
  adb_launch_app : string -> object -> W -> W * res unit;
  adb_press_home_button : object -> W -> W * res unit
}.
Arguments adb_issue_generic_request {W}.
Arguments adb_launch_app {W}.
Arguments adb_press_home_button {W}.

Section WithAdb.
Context {W : Type} (A : Adb W).

Definition requested {R : Type} (c : adb_call) (f : W -> W * res R) : M W helper_event R :=
  fun w => let '(w1, r) := f w in (w1, [Requested c], r).

(** Lines 32-36 of [get_all_package_names]: the names on the lines that start
    with [package:]. *)
Definition parse_packages (output : string) : list string :=
  map (fun line => Text.strip (Text.drop 8 line))
    (List.filter (String.prefix "package:") (Text.split Text.newline (Text.strip output))).

(** [get_all_package_names(env_controller)], which the module also installs
    as [adb_utils.get_all_package_names]. *)
Definition get_all_package_names (controller : object) : M W helper_event (list string) :=
  try_except
    (output ← requested (issue_generic_request ["shell"; "pm"; "list"; "packages"] controller)
                (adb_issue_generic_request A ["shell"; "pm"; "list"; "packages"] controller);
     mret (parse_packages output))
    (fun e => emit (Noted Error "Failed to get package names" [] (Some e));; mret []).

(** [set_root_if_needed(env_controller)], which the module also installs as
    [adb_utils.set_root_if_needed]. *)
Definition set_root_if_needed (controller : object) : M W helper_event unit :=
  try_except
    (requested (issue_generic_request ["root"] controller)
       (adb_issue_generic_request A ["root"] controller);;
     mret tt)
    (fun e => emit (Noted Warning "Failed to set root permissions" [] (Some e))).

(** [ensure_app_ready(app_key, env_controller)]. *)
Definition ensure_app_ready (app_key : string) (controller : object) : M W helper_event bool :=
  let app_info := default [] (dict_get app_key APP_INFO) in
  let package_name := dict_get "package_name" app_info in
  let app_name := dict_get "display_name" app_info in
  if negb (given package_name) then
    emit (Noted Error "Unknown app key" [app_key] None);;
    mret false
  else
    let package := default "" package_name in
    installed ← try_except
      (all_packages ← get_all_package_names controller;
       if negb (existsb (String.eqb package) all_packages) then
         emit (Noted Error "App is not installed! Please install it first." [package] None);;
         mret false
       else mret true)
      (fun e =>
         emit (Noted Error "Failed to check if app is installed" [package] (Some e));;
         mret false);
    if negb installed then mret false
    else
      rooted ← try_except
        (set_root_if_needed controller;; mret true)
        (fun e => emit (Noted Error "Failed to set root permissions" [] (Some e));; mret false);
      if negb rooted then mret false
      else
        (if given app_name then
           try_except
             (requested (launch_app (default "" app_name) controller)
                (adb_launch_app A (default "" app_name) controller);;
              emit (Requested (sleep 2));;
              requested (press_home_button controller) (adb_press_home_button A controller);;
              emit (Requested (sleep 1)))
             (fun e =>
                emit (Noted Warning "Failed to launch app" [default "" app_name] (Some e));;
                emit (Noted Warning "Continuing with configuration..." [] None))
         else mret tt);;
        mret true.

End WithAdb.

(** The package names of a trace of calls. *)
Definition requests (t : list helper_event) : list adb_call :=
  omap (fun e => match e with Requested c => Some c | _ => None end) t.

(** The listing that [pm list packages] prints for the packages [names]. *)
Definition listing (names : list string) : string :=
  Text.join Text.newline (map (fun name => "package:" +:+ name) names).

(** The package that [APP_INFO] gives for an application key, and the keys
    for which it gives one. *)
Definition package_of (app_key : string) : option string :=
  dict_get "package_name" (default [] (dict_get app_key APP_INFO)).

Definition packaged_keys : list string :=
  map fst (List.filter (fun kv => given (dict_get "package_name" (snd kv))) APP_INFO).

(** The command that lists the packages. *)
Definition pm_list_packages : list string := ["shell"; "pm"; "list"; "packages"].

End Helpers.

(** [adb_utils] once [utils/helpers.py] is imported, which every configurator
    does through [base_configurator.py]: lines 45 and 61 have replaced
    [get_all_package_names] and [set_root_if_needed] by the helpers of these
    names.  The lines the helpers write to the root logger are not part of a
    configurator's trace. *)
Definition patched {W : Type} (A : Helpers.Adb W) (B : Backend W) : Backend W :=
  {| be_clear_contacts := be_clear_contacts B;
     be_add_contact := be_add_contact B;
     be_list_contacts := be_list_contacts B;
     be_get_all_package_names := fun controller w =>
       let '(w1, _, r) := Helpers.get_all_package_names A controller w in (w1, r);
     be_launch_app := be_launch_app B;
     be_set_root_if_needed := fun controller w =>
       let '(w1, _, r) := Helpers.set_root_if_needed A controller w in (w1, r);
     be_grant_permissions := be_grant_permissions B;
     be_press_home_button := be_press_home_button B;
     be_execute_sql_command := be_execute_sql_command B;
     be_clear_calendar_db := be_clear_calendar_db B;
     be_add_events := be_add_events B;
     be_add_random_events := be_add_random_events B;
     be_generate_simple_calendar_weekly_repeat_rule :=
       be_generate_simple_calendar_weekly_repeat_rule B;
     be_get_rows_from_remote_device := be_get_rows_from_remote_device B;
     be_iso_timestamp := be_iso_timestamp B;
     be_fromtimestamp := be_fromtimestamp B;
     be_adb_devices := be_adb_devices B;
     be_load_and_setup_env := be_load_and_setup_env B;
     be_iter_set := be_iter_set B;
     be_iter_set_perm := be_iter_set_perm B |}.

(** [BaseConfigurator._ensure_app_ready(self, app_key)]. *)
Definition _ensure_app_ready {W : Type} (A : Helpers.Adb W) (self : BaseConfigurator.t)
    (app_key : string) : M W Helpers.helper_event bool :=
  Helpers.ensure_app_ready A app_key (BaseConfigurator.env_controller self).

(** ** Further readers and scenarios *)

(** Line 88, left conjunct: no serial, or the serial of an emulator. *)
Definition targets_emulator (self : EmulatorInitializer.t) : bool :=
  match EmulatorInitializer.device_serial self with
  | None => true
  | Some serial => String.eqb serial "" || String.prefix "emulator-" serial
  end.

Module Lab.

(** A telephone on USB: no emulator in the listing of [adb devices]. *)
Definition phone : Sim.device :=
  {| Sim.contacts := []; Sim.events := [];
     Sim.packages := ["com.android.contacts"; "com.simplemobiletools.calendar.pro"];
     Sim.adb_stdout := "List of devices attached R58M123ABC device";
     Sim.grpc_up := true |}.

Definition initializer_for (serial : option string) (cfg : gmap string pyval)
  : EmulatorInitializer.t :=
  {| EmulatorInitializer.config_path := "config.json";
     EmulatorInitializer.console_port := 5554;
     EmulatorInitializer.adb_path := "adb";
     EmulatorInitializer.grpc_port := 8554;
     EmulatorInitializer.emulator_setup := false;
     EmulatorInitializer.device_serial := serial;
     EmulatorInitializer.config := cfg |}.

(** A configuration with the two modules embedded here. *)
Definition config_both : gmap string pyval :=
  <["calendar" := Sim.standup_only]> {[ "contacts" := Sim.three_contacts ]}.

(** An event whose start is beyond the dates that can be printed, and what is
    built from it. *)
Definition far_future : list (string * pyval) :=
  [("title", PyStr "Heat death"); ("start_time", PyInt 999999999999)].

Definition far_future_event : CalendarEvent :=
  {| start_ts := PyInt 999999999999; end_ts := PyInt 1000000001799;
     title := PyStr "Heat death"; description := PyStr ""; location := PyStr "";
     repeat_interval := 0; repeat_rule := 0 |}.

(** The simulated device under another hash seed: a set is visited in the
    opposite order. *)
Definition reversed : Backend Sim.device :=
  {| be_clear_contacts := be_clear_contacts Sim.backend;
     be_add_contact := be_add_contact Sim.backend;
     be_list_contacts := be_list_contacts Sim.backend;
     be_get_all_package_names := be_get_all_package_names Sim.backend;
     be_launch_app := be_launch_app Sim.backend;
     be_set_root_if_needed := be_set_root_if_needed Sim.backend;
     be_grant_permissions := be_grant_permissions Sim.backend;
     be_press_home_button := be_press_home_button Sim.backend;
     be_execute_sql_command := be_execute_sql_command Sim.backend;
     be_clear_calendar_db := be_clear_calendar_db Sim.backend;
     be_add_events := be_add_events Sim.backend;
     be_add_random_events := be_add_random_events Sim.backend;
     be_generate_simple_calendar_weekly_repeat_rule :=
       be_generate_simple_calendar_weekly_repeat_rule Sim.backend;
     be_get_rows_from_remote_device := be_get_rows_from_remote_device Sim.backend;
     be_iso_timestamp := be_iso_timestamp Sim.backend;
     be_fromtimestamp := be_fromtimestamp Sim.backend;
     be_adb_devices := be_adb_devices Sim.backend;
     be_load_and_setup_env := be_load_and_setup_env Sim.backend;
     be_iter_set := fun s => reverse (elements s);
     be_iter_set_perm := fun s => reverse_Permutation (elements s) |}.

(** Two keys that the priority list does not name. *)
Definition config_two_unknown : gmap string pyval :=
  <["plugins" := PyDict []]> {[ "unknown_module" := PyDict [] ]}.


(** A fragment that clears the table, adds three contacts and lists them. *)
Definition clear_add_verify : list (string * pyval) :=
  [("clear_contacts", PyBool true);
   ("add_contacts", PyList [Sim.alice; Sim.mallory; Sim.bob]);
   ("verify_contacts", PyBool true)].

(** The [adb] of the simulated device: it lists the packages, closing the
    listing with a new line, and grants root; and one that answers no
    request. *)
Definition adb : Helpers.Adb Sim.device :=
  {| Helpers.adb_issue_generic_request := fun cmd _ d =>
       if decide (cmd = Helpers.pm_list_packages) then
         (d, Ok (Helpers.listing (Sim.packages d) +:+ String Text.newline ""))
       else if decide (cmd = ["root"]) then (d, Ok "")
       else (d, Raise (OtherError 4));
     Helpers.adb_launch_app := fun _ _ d => (d, Ok tt);
     Helpers.adb_press_home_button := fun _ d => (d, Ok tt) |}.

Definition offline_adb : Helpers.Adb Sim.device :=
  {| Helpers.adb_issue_generic_request := fun _ _ d => (d, Raise (OtherError 5));
     Helpers.adb_launch_app := fun _ _ d => (d, Raise (OtherError 5));
     Helpers.adb_press_home_button := fun _ d => (d, Raise (OtherError 5)) |}.

(** An environment whose controller was never attached, and a launcher that
    hands it out. *)
Definition hollow_env : object := Object 1 None (Some NoneObj).

Definition hollow_backend : Backend Sim.device :=
  {| be_clear_contacts := be_clear_contacts Sim.backend;
     be_add_contact := be_add_contact Sim.backend;
     be_list_contacts := be_list_contacts Sim.backend;
     be_get_all_package_names := be_get_all_package_names Sim.backend;
     be_launch_app := be_launch_app Sim.backend;
     be_set_root_if_needed := be_set_root_if_needed Sim.backend;
     be_grant_permissions := be_grant_permissions Sim.backend;
     be_press_home_button := be_press_home_button Sim.backend;
     be_execute_sql_command := be_execute_sql_command Sim.backend;
     be_clear_calendar_db := be_clear_calendar_db Sim.backend;
     be_add_events := be_add_events Sim.backend;
     be_add_random_events := be_add_random_events Sim.backend;
     be_generate_simple_calendar_weekly_repeat_rule :=
       be_generate_simple_calendar_weekly_repeat_rule Sim.backend;
     be_get_rows_from_remote_device := be_get_rows_from_remote_device Sim.backend;
     be_iso_timestamp := be_iso_timestamp Sim.backend;
     be_fromtimestamp := be_fromtimestamp Sim.backend;
     be_adb_devices := be_adb_devices Sim.backend;
     be_load_and_setup_env := fun _ _ _ _ _ d => (d, Ok hollow_env);
     be_iter_set := be_iter_set Sim.backend;
     be_iter_set_perm := be_iter_set_perm Sim.backend |}.

End Lab.

(** * Properties *)

(** ** Reading traces *)

Lemma instantiated_app (t1 t2 : list event) :
  instantiated (t1 ++ t2) = instantiated t1 ++ instantiated t2.
Proof. apply omap_app. Qed.

Lemma invoked_app (t1 t2 : list event) :
  invoked (t1 ++ t2) = invoked t1 ++ invoked t2.
Proof. apply omap_app. Qed.

Lemma unrecognized_app (t1 t2 : list event) :
  unrecognized (t1 ++ t2) = unrecognized t1 ++ unrecognized t2.
Proof. apply omap_app. Qed.

Lemma outcomes_app (t1 t2 : list event) :
  outcomes (t1 ++ t2) = outcomes t1 ++ outcomes t2.
Proof. apply omap_app. Qed.

Lemma module_events_app (t1 t2 : list event) :
  module_events (t1 ++ t2) = module_events t1 ++ module_events t2.
Proof. apply omap_app. Qed.

Lemma calls_app (t1 t2 : list mod_event) : calls (t1 ++ t2) = calls t1 ++ calls t2.
Proof. apply omap_app. Qed.

(** The events of a configurator are none of the orchestrator's. *)
Lemma omap_in_module {A} (f : event -> option A) (k : string) (t : list mod_event) :
  (forall m, f (InModule k m) = None) -> omap f (map (InModule k) t) = [].
Proof.
  intros Hf. induction t as [|m t IH]; simpl; [reflexivity|].
  rewrite Hf. exact IH.
Qed.

Lemma instantiated_in_module k t : instantiated (map (InModule k) t) = [].
Proof. apply omap_in_module. reflexivity. Qed.

Lemma invoked_in_module k t : invoked (map (InModule k) t) = [].
Proof. apply omap_in_module. reflexivity. Qed.

Lemma unrecognized_in_module k t : unrecognized (map (InModule k) t) = [].
Proof. apply omap_in_module. reflexivity. Qed.

Lemma outcomes_in_module k t : outcomes (map (InModule k) t) = [].
Proof. apply omap_in_module. reflexivity. Qed.

Create Rewrite HintDb trace.

#[local] Hint Rewrite instantiated_app invoked_app unrecognized_app outcomes_app
  module_events_app instantiated_in_module invoked_in_module unrecognized_in_module
  outcomes_in_module @app_nil_r : trace.

Ltac trace_simpl := repeat (progress (autorewrite with trace; simpl)).

Ltac steps_in H :=
  cbv beta iota zeta delta [mbind M_bind mret M_ret emit raise lift_res try_except log
                              log_exn external in_module fst snd] in H.

(** Unfolding the monad and nothing else. *)
Ltac steps :=
  cbv beta iota zeta delta [mbind M_bind mret M_ret emit raise lift_res try_except log
                              log_exn external in_module fst snd].

(** ** base_configurator.py *)

Section BaseConfiguratorFacts.
Context {W : Type} (B : Backend W).

Lemma ensure_environment_ok (self : BaseConfigurator.t) :
  BaseConfigurator.env_controller self <> NoneObj ->
  BaseConfigurator._ensure_environment self = Ok tt.
Proof.
  unfold BaseConfigurator._ensure_environment.
  destruct (BaseConfigurator.env_controller self); [congruence | reflexivity].
Qed.

Lemma ensure_environment_none (self : BaseConfigurator.t) :
  BaseConfigurator.env_controller self = NoneObj ->
  BaseConfigurator._ensure_environment self = Raise RuntimeError.
Proof.
  unfold BaseConfigurator._ensure_environment. intros ->. reflexivity.
Qed.

(** Without a controller [configure()] raises at once: nothing is logged,
    nothing is called, the device is as it was. *)
Lemma contacts_configure_none (self : BaseConfigurator.t) (w : W) :
  BaseConfigurator.env_controller self = NoneObj ->
  ContactsConfigurator.configure B self w = (w, [], Raise RuntimeError).
Proof.
  intros H. unfold ContactsConfigurator.configure.
  rewrite (ensure_environment_none _ H). reflexivity.
Qed.

Lemma calendar_configure_none (self : BaseConfigurator.t) (w : W) :
  BaseConfigurator.env_controller self = NoneObj ->
  CalendarConfigurator.configure B self w = (w, [], Raise RuntimeError).
Proof.
  intros H. unfold CalendarConfigurator.configure.
  rewrite (ensure_environment_none _ H). reflexivity.
Qed.
End BaseConfiguratorFacts.

(** C5: whatever the environment value, construction followed by the guard
    that opens every [configure()] either raises [RuntimeError] (the
    environment-not-ready error), and it does so exactly when no controller
    was extracted, or leaves a controller that is not [None]; for [None], for
    an object whose [base_env] is [None] and for an object whose [controller] is
    [None] it raises, and [configure()] of the contacts and of the calendar
    configurator then raises before logging or calling anything. *)
Theorem resolution_never_yields_null_controller :
  (forall (env0 : object) (fragment : pyval),
     match BaseConfigurator._ensure_environment (BaseConfigurator.__init__ env0 fragment) with
     | Ok _ =>
         BaseConfigurator.env_controller (BaseConfigurator.__init__ env0 fragment) <> NoneObj
     | Raise e =>
         e = RuntimeError /\
         BaseConfigurator.env_controller (BaseConfigurator.__init__ env0 fragment) = NoneObj
     end) /\
  (forall (fragment : pyval) (oid : nat) (other : option object),
     BaseConfigurator._ensure_environment (BaseConfigurator.__init__ NoneObj fragment)
       = Raise RuntimeError /\
     BaseConfigurator._ensure_environment
       (BaseConfigurator.__init__ (Object oid (Some NoneObj) other) fragment)
       = Raise RuntimeError /\
     BaseConfigurator._ensure_environment
       (BaseConfigurator.__init__ (Object oid None (Some NoneObj)) fragment)
       = Raise RuntimeError) /\
  (forall (W : Type) (B : Backend W) (fragment : pyval) (w : W),
     ContactsConfigurator.configure B (BaseConfigurator.__init__ NoneObj fragment) w
       = (w, [], Raise RuntimeError) /\
     CalendarConfigurator.configure B (BaseConfigurator.__init__ NoneObj fragment) w
       = (w, [], Raise RuntimeError)).
Proof.
  split; [|split].
  - intros env0 fragment.
    unfold BaseConfigurator._ensure_environment.
    destruct (BaseConfigurator.env_controller (BaseConfigurator.__init__ env0 fragment));
      simpl; [split; reflexivity | discriminate].
  - intros fragment oid other. repeat split; reflexivity.
  - intros W B fragment w. split.
    + apply contacts_configure_none. reflexivity.
    + apply calendar_configure_none. reflexivity.
Qed.

(** C6: the constructor looks for [base_env] first: an object that has it is
    kept as the handle and its [base_env] is the controller, whether or not it
    also has a [controller]; otherwise an object that has a [controller] is kept
    as the handle and that controller is extracted; otherwise (an object with
    neither attribute, or [None]) the value itself is the controller and there
    is no handle.  Of the three branch conditions exactly one holds for any
    value. *)
Theorem resolution_precedence :
  (forall (oid : nat) (b : object) (c : option object) (fragment : pyval),
     BaseConfigurator.__init__ (Object oid (Some b) c) fragment
       = {| BaseConfigurator.env := Object oid (Some b) c;
            BaseConfigurator.env_controller := b;
            BaseConfigurator.config := fragment |}) /\
  (forall (oid : nat) (c : object) (fragment : pyval),
     BaseConfigurator.__init__ (Object oid None (Some c)) fragment
       = {| BaseConfigurator.env := Object oid None (Some c);
            BaseConfigurator.env_controller := c;
            BaseConfigurator.config := fragment |}) /\
  (forall (oid : nat) (fragment : pyval),
     BaseConfigurator.__init__ (Object oid None None) fragment
       = {| BaseConfigurator.env := NoneObj;
            BaseConfigurator.env_controller := Object oid None None;
            BaseConfigurator.config := fragment |}) /\
  (forall fragment : pyval,
     BaseConfigurator.__init__ NoneObj fragment
       = {| BaseConfigurator.env := NoneObj;
            BaseConfigurator.env_controller := NoneObj;
            BaseConfigurator.config := fragment |}) /\
  (forall env0 : object,
     let first := hasattr_base_env env0 in
     let second := negb (hasattr_base_env env0) && hasattr_controller env0 in
     let third := negb (hasattr_base_env env0) && negb (hasattr_controller env0) in
     (first = true /\ second = false /\ third = false) \/
     (first = false /\ second = true /\ third = false) \/
     (first = false /\ second = false /\ third = true)).
Proof.
  repeat split.
  intros env0. simpl.
  destruct (hasattr_base_env env0); destruct (hasattr_controller env0); simpl; tauto.
Qed.

(** ** core.py: the loop over the configuration order *)

Section OrchestratorFacts.
Context {W : Type} (B : Backend W).

Lemma subclass_constructs (f : BaseConfigurator.t -> M W mod_event bool) :
  constructs (subclass f).
Proof. intros env0 fragment w. eexists. reflexivity. Qed.

(** One configurator: the [try] of lines 158-170 always returns, with one
    outcome in the trace, and answers true exactly when [configure()]
    returned true. *)
Lemma run_configurator_spec (k : string) (cls : ConfiguratorClass W) (env0 : object)
    (fragment : pyval) (w : W) :
  exists w' t o,
    EmulatorInitializer.run_configurator k cls env0 fragment w = (w', t, Ok (is_true (k, o))) /\
    instantiated t = [k] /\
    outcomes t = [(k, o)] /\
    unrecognized t = [] /\
    (constructs cls -> invoked t = [k]).
Proof.
  unfold EmulatorInitializer.run_configurator. run.
  destruct (new cls env0 fragment w) as [[w1 t1] [i|e]] eqn:Hnew.
  - destruct (configure cls i w1) as [[w2 t2] [[|]|e]] eqn:Hcfg; simpl;
      [eexists _, _, ReturnedTrue | eexists _, _, ReturnedFalse | eexists _, _, (Raised e)];
      (split; [reflexivity|]); trace_simpl; repeat split; reflexivity.
  - simpl. eexists _, _, (Raised e). split; [reflexivity|].
    trace_simpl. repeat split; try reflexivity.
    intros Hc. destruct (Hc env0 fragment w) as [i Hi]. congruence.
Qed.

(** When the call or [configure()] raises, the exception is caught: the
    [try] returns false and reports the exception. *)
Lemma run_configurator_raises (k : string) (cls : ConfiguratorClass W) (env0 : object)
    (fragment : pyval) (w : W) (e : exn) (w' : W) :
  raises cls env0 fragment w e w' ->
  exists t,
    EmulatorInitializer.run_configurator k cls env0 fragment w = (w', t, Ok false) /\
    instantiated t = [k] /\
    outcomes t = [(k, Raised e)].
Proof.
  unfold EmulatorInitializer.run_configurator.
  intros [[t Hnew] | (i & w1 & t1 & t2 & Hnew & Hcfg)]; run; rewrite Hnew; simpl.
  - eexists. split; [reflexivity|]. trace_simpl. split; reflexivity.
  - rewrite Hcfg. simpl. eexists. split; [reflexivity|].
    trace_simpl. split; reflexivity.
Qed.

(** The [try] of one configurator does what the configurator does, and
    reports how it ended. *)
Lemma module_events_in_module (k : string) (t : list mod_event) :
  module_events (map (InModule k) t) = map (pair k) t.
Proof.
  induction t as [|m t IH]; [reflexivity|].
  cbn [map]. unfold module_events in *. cbn [omap list_omap]. f_equal. exact IH.
Qed.

Lemma run_configurator_conduct (k : string) (cls : ConfiguratorClass W) (env0 : object)
    (fragment : pyval) (w w1 : W) (tm : list mod_event) (o : outcome) :
  conduct cls env0 fragment w = (w1, tm, o) ->
  exists t,
    EmulatorInitializer.run_configurator k cls env0 fragment w = (w1, t, Ok (is_true (k, o))) /\
    module_events t = map (pair k) tm /\
    outcomes t = [(k, o)].
Proof.
  unfold conduct, EmulatorInitializer.run_configurator. run.
  destruct (new cls env0 fragment w) as [[w2 t1] [i|e]] eqn:Hnew.
  - destruct (configure cls i w2) as [[w3 t2] [[|]|e]] eqn:Hcfg; simpl;
      intros H; inversion H; subst; (eexists; split; [reflexivity|]);
      repeat (progress (rewrite ?module_events_app, ?outcomes_app, ?module_events_in_module,
                          ?outcomes_in_module, ?app_nil_r; cbn [module_events outcomes omap
                          list_omap app]));
      rewrite ?map_app; split; reflexivity.
  - simpl. intros H; inversion H; subst. eexists. split; [reflexivity|].
    repeat (progress (rewrite ?module_events_app, ?outcomes_app, ?module_events_in_module,
                        ?outcomes_in_module, ?app_nil_r; cbn [module_events outcomes omap
                        list_omap app]));
    split; reflexivity.
Qed.

Lemma present_cons_Some (cfg : gmap string pyval) k keys v :
  cfg !! k = Some v -> present cfg (k :: keys) = k :: present cfg keys.
Proof.
  intros H. unfold present. rewrite filter_cons_True; [reflexivity | rewrite H; eauto].
Qed.

Lemma present_cons_None (cfg : gmap string pyval) k keys :
  cfg !! k = None -> present cfg (k :: keys) = present cfg keys.
Proof.
  intros H. unfold present. rewrite filter_cons_False; [reflexivity|].
  rewrite H. intros [? ?]; discriminate.
Qed.

Lemma present_app (cfg : gmap string pyval) l1 l2 :
  present cfg (l1 ++ l2) = present cfg l1 ++ present cfg l2.
Proof. apply filter_app. Qed.

(** The loop of lines 155-170 always returns; it calls the class of every
    key of [order] that the configuration holds, in the order of [order],
    whatever the earlier configurators did; it reports one outcome for each
    of them; [total_count] grows by their number and [success_count] by the
    number of those whose [configure()] returned true. *)
Lemma configure_in_order_spec (order : list (string * ConfiguratorClass W)) (env0 : object)
    (cfg : gmap string pyval) (c : counts) (w : W) :
  exists w' t c',
    EmulatorInitializer.configure_in_order order env0 cfg c w = (w', t, Ok c') /\
    instantiated t = present cfg (order.*1) /\
    (outcomes t).*1 = present cfg (order.*1) /\
    unrecognized t = [] /\
    (Forall (fun kc => constructs (snd kc)) order -> invoked t = present cfg (order.*1)) /\
    total_count c' = total_count c + length (present cfg (order.*1)) /\
    success_count c' = success_count c + length (filter is_true (outcomes t)).
Proof.
  revert c w. induction order as [|[k cls] rest IH]; intros c w.
  - exists w, [], c. simpl. repeat split; try reflexivity; lia.
  - cbn [EmulatorInitializer.configure_in_order fmap list_fmap fst].
    destruct (cfg !! k) as [fragment|] eqn:Hk.
    + destruct (run_configurator_spec k cls env0 fragment w)
        as (w1 & t1 & o & Hrun & Hi1 & Ho1 & Hu1 & Hv1).
      run. rewrite Hrun.
      match goal with
      | |- context [EmulatorInitializer.configure_in_order rest env0 cfg ?c1 w1] =>
          destruct (IH c1 w1) as (w2 & t2 & c2 & Hrest & Hi2 & Ho2 & Hu2 & Hv2 & Htot & Hsuc)
      end.
      rewrite Hrest. exists w2, (t1 ++ t2), c2.
      autorewrite with trace. rewrite Hi1, Ho1, Hu1, Hi2, Hu2.
      rewrite (present_cons_Some _ _ _ _ Hk).
      rewrite fmap_app, Ho2. simpl in Htot, Hsuc |- *.
      repeat split; try reflexivity.
      * intros HF. inversion HF; subst. rewrite (Hv1 ltac:(assumption)), (Hv2 ltac:(assumption)).
        reflexivity.
      * lia.
      * rewrite filter_cons, Hsuc.
        destruct o; unfold is_true; simpl; lia.
    + destruct (IH c w) as (w2 & t2 & c2 & Hrest & Hi2 & Ho2 & Hu2 & Hv2 & Htot & Hsuc).
      exists w2, t2, c2. rewrite (present_cons_None _ _ _ Hk).
      repeat split; try assumption.
      intros HF. inversion HF; subst. auto.
Qed.

(** The loop of lines 155-170 is the walk over its list: same device at the
    end, same events of the configurators, and the outcomes it reports are
    how the configurators ended; [success_count] grows by the number of those
    that returned true. *)
Lemma configure_in_order_walk (order : list (string * ConfiguratorClass W)) (env0 : object)
    (cfg : gmap string pyval) (c : counts) (w w' : W) (t : list event) (c' : counts) :
  EmulatorInitializer.configure_in_order order env0 cfg c w = (w', t, Ok c') ->
  (w', module_events t, outcomes t) = walk order env0 cfg w.
Proof.
  revert c w w' t c'. induction order as [|[k cls] rest IH]; intros c w w' t c' Hrun.
  - inversion Hrun; subst. reflexivity.
  - cbn [EmulatorInitializer.configure_in_order] in Hrun. cbn [walk].
    destruct (cfg !! k) as [fragment|]; [|exact (IH _ _ _ _ _ Hrun)].
    destruct (conduct cls env0 fragment w) as [[w1 tm] o] eqn:Hc.
    destruct (run_configurator_conduct k cls env0 fragment w w1 tm o Hc)
      as (t1 & Hrun1 & Hm1 & Ho1).
    steps_in Hrun. rewrite Hrun1 in Hrun.
    match type of Hrun with
    | context [EmulatorInitializer.configure_in_order rest env0 cfg ?c1 w1] =>
        destruct (EmulatorInitializer.configure_in_order rest env0 cfg c1 w1)
          as [[w2 t2] [c2|e]] eqn:Hrest; [|discriminate Hrun]
    end.
    inversion Hrun; subst. rewrite <- (IH _ _ _ _ _ Hrest).
    rewrite module_events_app, outcomes_app, Hm1, Ho1. reflexivity.
Qed.

(** The loop of lines 174-177. *)
Lemma count_remaining_spec (keys : list string) (c : counts) (w : W) :
  EmulatorInitializer.count_remaining (W:=W) keys c w
    = (w, map (fun k => Line Warning (NotInOrder k)) keys,
       Ok {| success_count := success_count c + length keys;
             total_count := total_count c + length keys |}).
Proof.
  revert c. induction keys as [|k keys IH]; intros c.
  - simpl. run. destruct c as [s t]. simpl. rewrite !Nat.add_0_r. reflexivity.
  - cbn [EmulatorInitializer.count_remaining]. run. rewrite IH. simpl.
    do 3 f_equal; lia.
Qed.

Lemma trace_of_warnings (keys : list string) :
  let t := map (fun k => Line Warning (NotInOrder k)) keys in
  instantiated t = [] /\ invoked t = [] /\ outcomes t = [] /\ unrecognized t = keys /\
  module_events t = [].
Proof.
  induction keys as [|k keys IH]; simpl; [repeat split; reflexivity|].
  destruct IH as (? & ? & ? & Hu & ?). simpl in *.
  repeat split; try assumption. unfold unrecognized in *. simpl. f_equal. exact Hu.
Qed.
End OrchestratorFacts.

(** ** core.py: [setup_environment] and [initialize] *)

Section InitializeFacts.
Context {W : Type} (B : Backend W) (C : Classes W).

Lemma configuration_order_keys :
  (EmulatorInitializer.configuration_order B C).*1 = priority.
Proof. reflexivity. Qed.

Lemma configuration_order_constructs :
  Forall (fun kc => constructs (snd kc)) (EmulatorInitializer.configuration_order B C).
Proof.
  unfold EmulatorInitializer.configuration_order.
  repeat (apply Forall_cons; split; [apply subclass_constructs|]).
  apply Forall_nil. exact I.
Qed.

Lemma expected_order_is_the_order :
  expected_order B C = EmulatorInitializer.configuration_order B C.
Proof. reflexivity. Qed.

(** The order in which the unknown keys are visited has each of them once. *)
Lemma iter_set_length (s : gset string) : length (be_iter_set B s) = size s.
Proof. rewrite (Permutation_length (be_iter_set_perm B s)). reflexivity. Qed.

Lemma iter_set_singleton (k : string) : be_iter_set B {[ k ]} = [k].
Proof.
  apply Permutation_singleton_r. rewrite <- (elements_singleton (C:=gset string) k).
  apply be_iter_set_perm.
Qed.

Lemma remaining_configs_unknown (cfg : gmap string pyval) :
  EmulatorInitializer.remaining_configs (EmulatorInitializer.configuration_order B C) cfg
    = unknown_keys cfg.
Proof. reflexivity. Qed.

(** [setup_environment] calls no configurator and counts nothing. *)
Lemma setup_environment_quiet (self : EmulatorInitializer.t) (w w0 : W) (t0 : list event)
    (r : res object) :
  EmulatorInitializer.setup_environment B self w = (w0, t0, r) ->
  instantiated t0 = [] /\ invoked t0 = [] /\ outcomes t0 = [] /\ unrecognized t0 = [] /\
  module_events t0 = [].
Proof.
  unfold EmulatorInitializer.setup_environment,
    EmulatorInitializer.try_except_called_process_error,
    EmulatorInitializer.external_call.
  run. intros H.
  destruct (be_adb_devices B (EmulatorInitializer.adb_path self) w) as [w1 [devices|e1]];
    simpl in H; [|destruct e1; simpl in H].
  all: repeat match type of H with
              | context [if ?c then _ else _] => destruct c; simpl in H
              end.
  all: repeat match type of H with
              | context [be_load_and_setup_env ?a ?b ?c ?d ?e ?f ?g] =>
                  destruct (be_load_and_setup_env a b c d e f g) as [? [?|?]]; simpl in H
              end.
  all: inversion H; subst; repeat split; reflexivity.
Qed.

(** With no key of [order] in the configuration the loop does nothing. *)
Lemma configure_in_order_absent (order : list (string * ConfiguratorClass W))
    (env0 : object) (cfg : gmap string pyval) (c : counts) (w : W) :
  present cfg (order.*1) = [] ->
  EmulatorInitializer.configure_in_order order env0 cfg c w = (w, [], Ok c).
Proof.
  induction order as [|[k cls] rest IH]; intros Hp; [reflexivity|].
  cbn [EmulatorInitializer.configure_in_order]. cbn [fmap list_fmap fst] in Hp.
  destruct (cfg !! k) as [v|] eqn:Hk.
  - rewrite (present_cons_Some _ _ _ _ Hk) in Hp. discriminate.
  - rewrite (present_cons_None _ _ _ Hk) in Hp. auto.
Qed.

(** A run of [initialize] whose environment came up: the trace is that of
    [setup_environment], then that of the loop over the priority list, then
    one warning for each unknown key, then the verdict. *)
Lemma initialize_report_spec (self : EmulatorInitializer.t) (w w0 : W) (t0 : list event)
    (env0 : object) :
  EmulatorInitializer.setup_environment B self w = (w0, t0, Ok env0) ->
  let cfg := EmulatorInitializer.config self in
  let keys := be_iter_set B (unknown_keys cfg) in
  exists w' tm c1 c,
    EmulatorInitializer.configure_in_order (EmulatorInitializer.configuration_order B C)
      env0 cfg zero w0 = (w', tm, Ok c1) /\
    EmulatorInitializer.initialize_report B C self w
      = (w', Line Info BeginInit :: (t0 ++ tm)
               ++ (map (fun k => Line Warning (NotInOrder k)) keys ++ [final_line c]),
         Ok ((success_count c =? total_count c)%nat, Some c)) /\
    instantiated tm = present cfg priority /\
    invoked tm = present cfg priority /\
    (outcomes tm).*1 = present cfg priority /\
    unrecognized tm = [] /\
    total_count c = length (present cfg priority) + length keys /\
    success_count c = length (filter is_true (outcomes tm)) + length keys.
Proof.
  intros Hsetup cfg keys.
  destruct (configure_in_order_spec (EmulatorInitializer.configuration_order B C) env0 cfg
              zero w0) as (w' & tm & c1 & Hloop & Hi & Ho & Hu & Hv & Htot & Hsuc).
  rewrite configuration_order_keys in *.
  specialize (Hv configuration_order_constructs).
  exists w', tm, c1,
    {| success_count := success_count c1 + length keys;
       total_count := total_count c1 + length keys |}.
  split; [exact Hloop|].
  split.
  - unfold EmulatorInitializer.initialize_report, EmulatorInitializer.initialize_body.
    steps. rewrite Hsetup. steps. fold cfg. unfold zero in Hloop. rewrite Hloop. steps.
    rewrite remaining_configs_unknown. fold keys.
    rewrite count_remaining_spec. steps. unfold final_line.
    clearbody keys. clear Hloop Hsetup. simpl.
    destruct (success_count c1 + length keys =? total_count c1 + length keys)%nat;
      steps; simpl; rewrite ?app_nil_r, <- ?app_assoc; reflexivity.
  - simpl in Htot, Hsuc |- *. repeat split; try assumption; lia.
Qed.

(** A run of [initialize] whose environment did not come up. *)
Lemma initialize_report_fatal (self : EmulatorInitializer.t) (w w0 : W) (t0 : list event)
    (e : exn) :
  EmulatorInitializer.setup_environment B self w = (w0, t0, Raise e) ->
  EmulatorInitializer.initialize_report B C self w
    = (w0, Line Info BeginInit :: t0 ++ [Line Error (CriticalError e)], Ok (false, None)).
Proof.
  intros Hsetup.
  unfold EmulatorInitializer.initialize_report, EmulatorInitializer.initialize_body.
  steps. rewrite Hsetup. steps. simpl. reflexivity.
Qed.

Lemma initialize_of_report (self : EmulatorInitializer.t) (w w' : W) (t : list event)
    (b : bool) (r : option counts) :
  EmulatorInitializer.initialize_report B C self w = (w', t, Ok (b, r)) ->
  EmulatorInitializer.initialize B C self w = (w', t, Ok b).
Proof.
  intros H. unfold EmulatorInitializer.initialize. steps. rewrite H. steps.
  rewrite app_nil_r. reflexivity.
Qed.

(** [initialize] returns a boolean on every device and every configuration:
    no exception leaves it. *)
Lemma initialize_total (self : EmulatorInitializer.t) (w : W) :
  exists w' t b, EmulatorInitializer.initialize B C self w = (w', t, Ok b).
Proof.
  destruct (EmulatorInitializer.setup_environment B self w) as [[w0 t0] [env0|e]] eqn:Hs.
  - destruct (initialize_report_spec self w w0 t0 env0 Hs)
      as (w' & tm & c1 & c & _ & Hr & _).
    eexists _, _, _. apply (initialize_of_report _ _ _ _ _ _ Hr).
  - eexists _, _, _. apply (initialize_of_report _ _ _ _ _ _ (initialize_report_fatal _ _ _ _ _ Hs)).
Qed.
End InitializeFacts.

Section InitializeSummary.
Context {W : Type} (B : Backend W) (C : Classes W).

Lemma final_line_quiet (c : counts) :
  instantiated [final_line c] = [] /\ invoked [final_line c] = [] /\
  outcomes [final_line c] = [] /\ unrecognized [final_line c] = [] /\
  module_events [final_line c] = [].
Proof.
  unfold final_line. destruct (success_count c =? total_count c)%nat;
    repeat split; reflexivity.
Qed.

(** The whole trace of a run whose environment came up. *)
Lemma initialize_report_summary (self : EmulatorInitializer.t) (w w0 : W)
    (t0 : list event) (env0 : object) :
  EmulatorInitializer.setup_environment B self w = (w0, t0, Ok env0) ->
  let cfg := EmulatorInitializer.config self in
  exists w' t c,
    EmulatorInitializer.initialize_report B C self w
      = (w', t, Ok ((success_count c =? total_count c)%nat, Some c)) /\
    instantiated t = present cfg priority /\
    invoked t = present cfg priority /\
    (outcomes t).*1 = present cfg priority /\
    unrecognized t = be_iter_set B (unknown_keys cfg) /\
    total_count c = length (present cfg priority) + size (unknown_keys cfg) /\
    success_count c = length (filter is_true (outcomes t)) + size (unknown_keys cfg) /\
    (exists ta tb, t = ta ++ tb /\
       instantiated ta = present cfg priority /\ invoked ta = present cfg priority /\
       unrecognized ta = [] /\
       instantiated tb = [] /\ invoked tb = [] /\ outcomes tb = [] /\
       unrecognized tb = be_iter_set B (unknown_keys cfg) /\
       module_events tb = []) /\
    (present cfg priority = [] ->
       w' = w0 /\
       t = Line Info BeginInit :: t0
             ++ map (fun k => Line Warning (NotInOrder k)) (be_iter_set B (unknown_keys cfg))
             ++ [final_line c]).
Proof.
  intros Hsetup cfg.
  destruct (initialize_report_spec B C self w w0 t0 env0 Hsetup)
    as (w' & tm & c1 & c & Hloop & Hr & Hi & Hv & Ho & Hu & Htot & Hsuc).
  fold cfg in Hloop, Hr, Hi, Hv, Ho, Hu, Htot, Hsuc.
  rewrite iter_set_length in Htot, Hsuc.
  destruct (setup_environment_quiet B self w w0 t0 _ Hsetup) as (Si & Sv & So & Su & Sm).
  destruct (trace_of_warnings (be_iter_set B (unknown_keys cfg))) as (Wi & Wv & Wo & Wu & Wm).
  destruct (final_line_quiet c) as (Fi & Fv & Fo & Fu & Fm).
  simpl in Wi, Wv, Wo, Wu, Wm.
  eexists w', _, c. split; [exact Hr|].
  assert (Hi' : instantiated (Line Info BeginInit :: (t0 ++ tm)) = present cfg priority).
  { change (instantiated (t0 ++ tm) = present cfg priority).
    rewrite instantiated_app, Si, Hi. reflexivity. }
  assert (Hv' : invoked (Line Info BeginInit :: (t0 ++ tm)) = present cfg priority).
  { change (invoked (t0 ++ tm) = present cfg priority).
    rewrite invoked_app, Sv, Hv. reflexivity. }
  assert (Ho' : outcomes (Line Info BeginInit :: (t0 ++ tm)) = outcomes tm).
  { change (outcomes (t0 ++ tm) = outcomes tm).
    rewrite outcomes_app, So. reflexivity. }
  assert (Hu' : unrecognized (Line Info BeginInit :: (t0 ++ tm)) = []).
  { change (unrecognized (t0 ++ tm) = []).
    rewrite unrecognized_app, Su, Hu. reflexivity. }
  change (Line Info BeginInit :: (t0 ++ tm)
            ++ (map (fun k => Line Warning (NotInOrder k)) (be_iter_set B (unknown_keys cfg))
                  ++ [final_line c]))
    with ((Line Info BeginInit :: (t0 ++ tm))
            ++ (map (fun k => Line Warning (NotInOrder k)) (be_iter_set B (unknown_keys cfg))
                  ++ [final_line c])).
  rewrite !instantiated_app, !invoked_app, !outcomes_app, !unrecognized_app.
  rewrite Hi', Hv', Ho', Hu', Wi, Wv, Wo, Wu, Fi, Fv, Fo, Fu.
  rewrite !app_nil_r. simpl.
  do 6 (split; [first [reflexivity | assumption]|]).
  split.
  - exists (Line Info BeginInit :: (t0 ++ tm)),
      (map (fun k => Line Warning (NotInOrder k)) (be_iter_set B (unknown_keys cfg))
         ++ [final_line c]).
    split; [reflexivity|].
    rewrite !instantiated_app, !invoked_app, !outcomes_app, !unrecognized_app,
      !module_events_app.
    rewrite Hi', Hv', Hu', Wi, Wv, Wo, Wu, Wm, Fi, Fv, Fo, Fu, Fm. rewrite !app_nil_r.
    repeat split; reflexivity.
  - intros Hnone.
    pose proof (configure_in_order_absent
                  (EmulatorInitializer.configuration_order B C) env0 cfg zero w0) as Habs.
    rewrite configuration_order_keys in Habs. rewrite (Habs Hnone) in Hloop.
    inversion Hloop; subst. rewrite app_nil_r. split; reflexivity.
Qed.

(** The same run, as the walk of the specification: the device at the end,
    the events of the configurators and the outcomes reported are those of
    the walk over the priority list, with the configurator type of each key,
    from the device as [setup_environment] left it. *)
Lemma initialize_report_walk (self : EmulatorInitializer.t) (w w0 w' : W)
    (t0 t : list event) (env0 : object) (r : bool * option counts) :
  EmulatorInitializer.setup_environment B self w = (w0, t0, Ok env0) ->
  EmulatorInitializer.initialize_report B C self w = (w', t, Ok r) ->
  (w', module_events t, outcomes t)
  = walk (expected_order B C) env0 (EmulatorInitializer.config self) w0.
Proof.
  intros Hsetup Hrun.
  destruct (initialize_report_spec B C self w w0 t0 env0 Hsetup)
    as (w1 & tm & c1 & c & Hloop & Hr & _).
  rewrite Hr in Hrun. clear Hr.
  rewrite expected_order_is_the_order.
  rewrite <- (configure_in_order_walk _ _ _ _ _ _ _ _ Hloop). clear Hloop.
  destruct (setup_environment_quiet B self w w0 t0 _ Hsetup) as (_ & _ & So & _ & Sm).
  destruct (trace_of_warnings
              (be_iter_set B (unknown_keys (EmulatorInitializer.config self))))
    as (_ & _ & Wo & _ & Wm).
  destruct (final_line_quiet c) as (_ & _ & Fo & _ & Fm).
  simpl in Wo, Wm.
  inversion Hrun; subst.
  change (Line Info BeginInit :: (t0 ++ tm)
            ++ (map (fun k => Line Warning (NotInOrder k))
                  (be_iter_set B (unknown_keys (EmulatorInitializer.config self)))
                  ++ [final_line c]))
    with ([Line Info BeginInit] ++ (t0 ++ tm)
            ++ (map (fun k => Line Warning (NotInOrder k))
                  (be_iter_set B (unknown_keys (EmulatorInitializer.config self)))
                  ++ [final_line c])).
  rewrite !module_events_app, !outcomes_app, So, Sm, Wo, Wm, Fo, Fm.
  simpl. rewrite !app_nil_r. reflexivity.
Qed.
End InitializeSummary.

(** ** The run of [initialize] *)

Lemma unknown_not_present (cfg : gmap string pyval) (k : string) :
  k ∈ unknown_keys cfg -> k ∉ present cfg priority.
Proof.
  unfold unknown_keys, present. intros Hk Hin.
  apply elem_of_difference in Hk as [_ Hk]. apply Hk.
  apply elem_of_list_to_set. apply list_elem_of_filter in Hin as [_ Hin]. exact Hin.
Qed.

Lemma unknown_keys_singleton (v : pyval) :
  unknown_keys {[ "unknown_module" := v ]} = {[ "unknown_module" ]}.
Proof.
  unfold unknown_keys. rewrite dom_singleton_L.
  apply set_eq. intros x. rewrite elem_of_difference, elem_of_singleton.
  split; [tauto|]. intros ->. split; [reflexivity|].
  rewrite elem_of_list_to_set. unfold priority. intros Hin.
  repeat (apply elem_of_cons in Hin as [Hin|Hin]; [discriminate|]).
  inversion Hin.
Qed.

(** The walk reports one outcome for each key of its list that the
    configuration holds, in order, and no event under any other key. *)
Lemma walk_keys {W : Type} (order : list (string * ConfiguratorClass W)) (env0 : object)
    (cfg : gmap string pyval) (w : W) :
  (snd (walk order env0 cfg w)).*1 = present cfg (order.*1) /\
  (forall k, k ∈ (snd (fst (walk order env0 cfg w))).*1 -> k ∈ present cfg (order.*1)).
Proof.
  revert w. induction order as [|[k cls] rest IH]; intros w.
  - split; [reflexivity|]. intros k Hk. inversion Hk.
  - cbn [walk fmap list_fmap fst].
    destruct (cfg !! k) as [fragment|] eqn:Hk.
    + rewrite (present_cons_Some _ _ _ _ Hk).
      destruct (conduct cls env0 fragment w) as [[w1 tm] o].
      destruct (IH w1) as [Ho Hm].
      destruct (walk rest env0 cfg w1) as [[w2 tms] os]. cbn [fst snd] in *.
      split; [cbn [fmap list_fmap fst]; f_equal; exact Ho|].
      intros k' Hin. rewrite fmap_app in Hin. apply elem_of_app in Hin as [Hin|Hin].
      * rewrite <- list_fmap_compose in Hin. apply list_elem_of_fmap in Hin as (m & -> & _).
        left.
      * right. apply Hm. exact Hin.
    + rewrite (present_cons_None _ _ _ Hk). apply IH.
Qed.

Lemma present_singleton_unknown (v : pyval) :
  present {[ "unknown_module" := v ]} priority = [].
Proof.
  unfold present, priority.
  repeat (rewrite filter_cons_False;
          [|rewrite lookup_singleton_ne by discriminate; intros [? ?]; discriminate]).
  reflexivity.
Qed.

(** C1: in a run whose environment came up, a warning is logged for each key
    of the configuration that the priority list does not name, once, in the
    order in which the interpreter visits the set of these keys; each such key
    adds one to [total_count] and one to [success_count] (the two counters are
    the number of configurators run, respectively of those that returned true,
    plus the number of such keys), and no configurator is called or configured
    for it: the device at the end, the events of the configurators and their
    outcomes are those of the walk over the priority list alone, and an
    unknown key has no configurator type, no event and no outcome.  With the
    single key "unknown_module" the run returns true with both counters at
    one; the device is as [setup_environment] left it and the trace holds the
    warning and the verdict only. *)
Theorem unknown_keys_counted_not_run {W : Type} (B : Backend W) (C : Classes W)
    (self : EmulatorInitializer.t) (w w0 : W) (t0 : list event) (env0 : object) :
  EmulatorInitializer.setup_environment B self w = (w0, t0, Ok env0) ->
  exists w' t b c,
    EmulatorInitializer.initialize_report B C self w = (w', t, Ok (b, Some c)) /\
    EmulatorInitializer.initialize B C self w = (w', t, Ok b) /\
    unrecognized t ≡ₚ elements (unknown_keys (EmulatorInitializer.config self)) /\
    total_count c = length (present (EmulatorInitializer.config self) priority)
                    + size (unknown_keys (EmulatorInitializer.config self)) /\
    success_count c = length (filter is_true (outcomes t))
                      + size (unknown_keys (EmulatorInitializer.config self)) /\
    (w', module_events t, outcomes t)
    = walk (expected_order B C) env0 (EmulatorInitializer.config self) w0 /\
    (forall k, (k ∈ unknown_keys (EmulatorInitializer.config self)) ->
               configurator_for B C k = None /\
               (k ∉ instantiated t) /\ (k ∉ invoked t) /\
               (k ∉ (module_events t).*1) /\ (k ∉ (outcomes t).*1)) /\
    (forall v, EmulatorInitializer.config self = {[ "unknown_module" := v ]} ->
               b = true /\ c = {| success_count := 1; total_count := 1 |} /\ w' = w0 /\
               t = Line Info BeginInit :: t0
                     ++ [Line Warning (NotInOrder "unknown_module"); Line Info InitCompleted]).
Proof.
  intros Hsetup.
  destruct (initialize_report_summary B C self w w0 t0 env0 Hsetup)
    as (w' & t & c & Hr & Hi & Hv & Ho & Hu & Htot & Hsuc & _ & Hnone).
  pose proof (initialize_report_walk B C self w w0 w' t0 t env0 _ Hsetup Hr) as Hwalk.
  exists w', t, (success_count c =? total_count c)%nat, c.
  split; [exact Hr|]. split; [exact (initialize_of_report B C _ _ _ _ _ _ Hr)|].
  split; [rewrite Hu; apply be_iter_set_perm|].
  split; [exact Htot|]. split; [exact Hsuc|]. split; [exact Hwalk|]. split.
  - intros k Hk.
    pose proof (unknown_not_present _ _ Hk) as Hnot.
    destruct (walk_keys (expected_order B C) env0 (EmulatorInitializer.config self) w0)
      as [_ Hm].
    rewrite <- Hwalk in Hm. cbn [fst snd] in Hm.
    split; [|rewrite Hi, Hv, Ho; repeat split; try exact Hnot].
    + unfold unknown_keys in Hk. apply elem_of_difference in Hk as [_ Hk].
      rewrite elem_of_list_to_set in Hk. unfold configurator_for.
      repeat match goal with
             | |- context [String.eqb k ?key] =>
                 destruct (String.eqb k key) eqn:?He;
                 [ apply String.eqb_eq in He; subst k; exfalso; apply Hk;
                   apply (bool_decide_unpack _); vm_compute; reflexivity
                 | clear He ]
             end.
      reflexivity.
    + intros Hin. apply Hnot. apply Hm in Hin.
      rewrite expected_order_is_the_order, configuration_order_keys in Hin. exact Hin.
  - intros v Hcfg. clear Hr Hsetup Hwalk. rewrite Hcfg in *.
    pose proof (present_singleton_unknown v) as Hp.
    destruct (Hnone Hp) as [-> Ht]. clear Hnone.
    rewrite Hp in Htot, Hi, Ho.
    assert (Hout : outcomes t = []).
    { destruct (outcomes t) as [|x l]; [reflexivity | discriminate Ho]. }
    rewrite Hout in Hsuc.
    rewrite unknown_keys_singleton in Htot, Hsuc, Ht.
    rewrite size_singleton in Htot, Hsuc. rewrite iter_set_singleton in Ht.
    destruct c as [sc tc].
    cbn [success_count total_count length filter Nat.add] in Htot, Hsuc. subst sc tc.
    split; [reflexivity|]. split; [reflexivity|]. split; [reflexivity|]. exact Ht.
Qed.

(** Scenario E on the simulated device; and two unknown keys under two hash
    seeds: the warnings come in either order, the counters and the verdict are
    the same. *)
Lemma unknown_keys_counted_not_run_witness :
  EmulatorInitializer.setup_environment Sim.backend (Sim.initializer Sim.config_unknown)
    Sim.ready
  = (Sim.ready,
     [Line Info SettingUp; RunAdbDevices;
      Line Info (AvailableDevices "List of devices attached emulator-5554 device");
      LoadAndSetupEnv; Line Info EnvironmentReady],
     Ok Sim.the_env) /\
  (exists t,
     EmulatorInitializer.initialize_report Sim.backend Sim.classes
       (Sim.initializer Sim.config_unknown) Sim.ready
     = (Sim.ready, t, Ok (true, Some {| success_count := 1; total_count := 1 |}))) /\
  (exists t t',
     EmulatorInitializer.initialize_report Sim.backend Sim.classes
       (Sim.initializer Lab.config_two_unknown) Sim.ready
     = (Sim.ready, t, Ok (true, Some {| success_count := 2; total_count := 2 |})) /\
     EmulatorInitializer.initialize_report Lab.reversed Sim.classes
       (Sim.initializer Lab.config_two_unknown) Sim.ready
     = (Sim.ready, t', Ok (true, Some {| success_count := 2; total_count := 2 |})) /\
     unrecognized t' = reverse (unrecognized t) /\
     unrecognized t' <> unrecognized t).
Proof.
  assert (H : EmulatorInitializer.setup_environment Sim.backend
                (Sim.initializer Sim.config_unknown) Sim.ready
              = (Sim.ready,
                 [Line Info SettingUp; RunAdbDevices;
                  Line Info (AvailableDevices "List of devices attached emulator-5554 device");
                  LoadAndSetupEnv; Line Info EnvironmentReady],
                 Ok Sim.the_env)) by (vm_compute; reflexivity).
  split; [exact H|]. split.
  - destruct (unknown_keys_counted_not_run Sim.backend Sim.classes _ _ _ _ _ H)
      as (w' & t & b & c & Hr & _ & _ & _ & _ & _ & _ & Hone).
    destruct (Hone (PyDict []) eq_refl) as (-> & -> & -> & _).
    exists t. exact Hr.
  - eexists _, _. split; [vm_compute; reflexivity|]. split; [vm_compute; reflexivity|].
    split; [vm_compute; reflexivity|]. vm_compute. discriminate.
Defined.

(** C2: when [setup_environment] raises, [initialize] returns false; the
    trace ends with the critical error, no configurator class was called, no
    [configure()] invoked, no module event recorded, nothing counted: the
    counters were never bound, and the device is as [setup_environment] left
    it. *)
Theorem setup_failure_is_fatal {W : Type} (B : Backend W) (C : Classes W)
    (self : EmulatorInitializer.t) (w w0 : W) (t0 : list event) (e : exn) :
  EmulatorInitializer.setup_environment B self w = (w0, t0, Raise e) ->
  exists t r,
    EmulatorInitializer.initialize_report B C self w = (w0, t, Ok (false, r)) /\
    EmulatorInitializer.initialize B C self w = (w0, t, Ok false) /\
    t = Line Info BeginInit :: t0 ++ [Line Error (CriticalError e)] /\
    instantiated t = [] /\ invoked t = [] /\ module_events t = [] /\
    outcomes t = [] /\ unrecognized t = [] /\
    r = None /\ attempted r = 0 /\ succeeded r = 0.
Proof.
  intros Hsetup.
  pose proof (initialize_report_fatal B C self w w0 t0 e Hsetup) as Hr.
  destruct (setup_environment_quiet B self w w0 t0 _ Hsetup) as (Si & Sv & So & Su & Sm).
  eexists _, None. split; [exact Hr|].
  split; [exact (initialize_of_report B C _ _ _ _ _ _ Hr)|].
  split; [reflexivity|].
  change (Line Info BeginInit :: t0 ++ [Line Error (CriticalError e)])
    with ([Line Info BeginInit] ++ t0 ++ [Line Error (CriticalError e)]).
  rewrite !instantiated_app, !invoked_app, !module_events_app, !outcomes_app,
    !unrecognized_app, Si, Sv, So, Su, Sm.
  repeat split; reflexivity.
Qed.

(** Scenario D on the simulated device: the gRPC port is not reachable. *)
Lemma setup_failure_is_fatal_witness :
  EmulatorInitializer.setup_environment Sim.backend (Sim.initializer Sim.config_mixed)
    Sim.unreachable
  = (Sim.unreachable,
     [Line Info SettingUp; RunAdbDevices;
      Line Info (AvailableDevices "List of devices attached emulator-5554 device");
      LoadAndSetupEnv; Line Error (ConnectFailed (OtherError 3));
      Line Error (SetupError (OtherError 3))],
     Raise (OtherError 3)) /\
  exists t,
    EmulatorInitializer.initialize Sim.backend Sim.classes (Sim.initializer Sim.config_mixed)
      Sim.unreachable = (Sim.unreachable, t, Ok false) /\
    instantiated t = [].
Proof.
  assert (H : EmulatorInitializer.setup_environment Sim.backend
                (Sim.initializer Sim.config_mixed) Sim.unreachable
              = (Sim.unreachable,
                 [Line Info SettingUp; RunAdbDevices;
                  Line Info (AvailableDevices "List of devices attached emulator-5554 device");
                  LoadAndSetupEnv; Line Error (ConnectFailed (OtherError 3));
                  Line Error (SetupError (OtherError 3))],
                 Raise (OtherError 3))) by (vm_compute; reflexivity).
  split; [exact H|].
  destruct (setup_failure_is_fatal Sim.backend Sim.classes _ _ _ _ _ H)
    as (t & r & _ & Hi & _ & Hn & _).
  exists t. split; [exact Hi | exact Hn].
Defined.

Lemma filter_all_true (l : list (string * outcome)) :
  (forall x, x ∈ l -> is_true x = true) -> filter is_true l = l.
Proof.
  induction l as [|x l IH]; intros H; [reflexivity|].
  rewrite filter_cons_True.
  - f_equal. apply IH. intros y Hy. apply H. right. exact Hy.
  - rewrite (H x); [exact I | left].
Qed.

Lemma present_system_last (cfg : gmap string pyval) :
  is_Some (cfg !! "system") -> last (present cfg priority) = Some "system".
Proof.
  intros [v Hv].
  change priority with
    ([ "datetime"; "contacts"; "sms"; "calendar"; "recipe"; "tasks"; "expense"; "music";
       "joplin"; "osmand"; "audio_recorder"; "markor"; "files"; "opentracks"; "gallery" ]
       ++ ["system"]).
  rewrite present_app, (present_cons_Some _ _ _ _ Hv). apply last_snoc.
Qed.



(** C4: in a run whose environment came up, [initialize] returns true exactly
    when [success_count] equals [total_count] at the end.  The two counters
    follow what the configurators did: [total_count] is the number of
    configurators run plus the number of unknown keys, [success_count] the
    number of those whose [configure()] returned true plus the number of
    unknown keys; so the run returns true whenever the [configure()] of every
    configurator run for a key of the priority list returned true. *)
Theorem verdict_iff_counts_agree {W : Type} (B : Backend W) (C : Classes W)
    (self : EmulatorInitializer.t) (w w0 : W) (t0 : list event) (env0 : object) :
  EmulatorInitializer.setup_environment B self w = (w0, t0, Ok env0) ->
  let ended := snd (walk (expected_order B C) env0 (EmulatorInitializer.config self) w0) in
  exists w' t b c,
    EmulatorInitializer.initialize_report B C self w = (w', t, Ok (b, Some c)) /\
    EmulatorInitializer.initialize B C self w = (w', t, Ok b) /\
    (b = true <-> success_count c = total_count c) /\
    total_count c = length ended + size (unknown_keys (EmulatorInitializer.config self)) /\
    success_count c = length (filter is_true ended)
                      + size (unknown_keys (EmulatorInitializer.config self)) /\
    ((forall k o, (k, o) ∈ ended -> o = ReturnedTrue) -> b = true).
Proof.
  intros Hsetup ended.
  destruct (initialize_report_summary B C self w w0 t0 env0 Hsetup)
    as (w' & t & c & Hr & Hi & Hv & Ho & Hu & Htot & Hsuc & _ & _).
  pose proof (initialize_report_walk B C self w w0 w' t0 t env0 _ Hsetup Hr) as Hwalk.
  assert (Hended : outcomes t = ended).
  { unfold ended. rewrite <- Hwalk. reflexivity. }
  rewrite Hended in Ho, Hsuc. clear Hwalk Hended.
  assert (Hlen : length ended
                 = length (present (EmulatorInitializer.config self) priority)).
  { rewrite <- Ho. rewrite length_fmap. reflexivity. }
  exists w', t, (success_count c =? total_count c)%nat, c.
  split; [exact Hr|]. split; [exact (initialize_of_report B C _ _ _ _ _ _ Hr)|].
  split; [apply Nat.eqb_eq|]. clear Hr Hsetup.
  split; [lia|]. split; [exact Hsuc|].
  intros Hall. apply Nat.eqb_eq.
  rewrite filter_all_true in Hsuc; [lia|].
  intros [k o] Hin. rewrite (Hall k o Hin). reflexivity.
Qed.

(** On the simulated device the [configure()] of every configurator returns
    true. *)
Lemma verdict_iff_counts_agree_witness :
  EmulatorInitializer.setup_environment Sim.backend (Sim.initializer Sim.config_mixed)
    Sim.ready
  = (Sim.ready,
     [Line Info SettingUp; RunAdbDevices;
      Line Info (AvailableDevices "List of devices attached emulator-5554 device");
      LoadAndSetupEnv; Line Info EnvironmentReady],
     Ok Sim.the_env) /\
  snd (walk (expected_order Sim.backend Sim.classes) Sim.the_env Sim.config_mixed Sim.ready)
  = [("datetime", ReturnedTrue); ("sms", ReturnedTrue); ("system", ReturnedTrue)] /\
  exists w' t c,
    EmulatorInitializer.initialize_report Sim.backend Sim.classes
      (Sim.initializer Sim.config_mixed) Sim.ready = (w', t, Ok (true, Some c)) /\
    success_count c = total_count c.
Proof.
  assert (H : EmulatorInitializer.setup_environment Sim.backend
                (Sim.initializer Sim.config_mixed) Sim.ready
              = (Sim.ready,
                 [Line Info SettingUp; RunAdbDevices;
                  Line Info (AvailableDevices "List of devices attached emulator-5554 device");
                  LoadAndSetupEnv; Line Info EnvironmentReady],
                 Ok Sim.the_env)) by (vm_compute; reflexivity).
  assert (E : snd (walk (expected_order Sim.backend Sim.classes) Sim.the_env
                     Sim.config_mixed Sim.ready)
              = [("datetime", ReturnedTrue); ("sms", ReturnedTrue); ("system", ReturnedTrue)])
    by (vm_compute; reflexivity).
  split; [exact H|]. split; [exact E|].
  destruct (verdict_iff_counts_agree Sim.backend Sim.classes _ _ _ _ _ H)
    as (w' & t & b & c & Hr & _ & Hiff & _ & _ & Hall).
  assert (Hb : b = true).
  { apply Hall. intros k o Hin.
    change (EmulatorInitializer.config (Sim.initializer Sim.config_mixed))
      with Sim.config_mixed in Hin.
    rewrite E in Hin.
    repeat (apply elem_of_cons in Hin as [Hin|Hin]; [inversion Hin; reflexivity|]).
    inversion Hin. }
  subst b. exists w', t, c. split; [exact Hr|]. apply Hiff. reflexivity.
Defined.

(** C7: in a run whose environment came up, the configurators run are those
    of the keys that the configuration holds, taken from the priority list
    datetime, contacts, sms, calendar, recipe, tasks, expense, music, joplin,
    osmand, audio_recorder, markor, files, opentracks, gallery, system, in that
    order, each with the configurator type of its key: the device at the end,
    the events of the configurators and their outcomes are those of the walk
    over this list, in which each configurator is called on the environment
    and the fragment of its key and then configured, from the device as the
    one before left it.  When the configuration holds "system" it is the last
    of them.  And the trace splits in two: a first part with everything the
    configurators did and no warning about an unknown key, a second part with
    the warnings for the unknown keys, each once, and nothing of a
    configurator. *)
Theorem configurators_run_in_priority_order {W : Type} (B : Backend W) (C : Classes W)
    (self : EmulatorInitializer.t) (w w0 : W) (t0 : list event) (env0 : object) :
  EmulatorInitializer.setup_environment B self w = (w0, t0, Ok env0) ->
  (EmulatorInitializer.configuration_order B C).*1
    = [ "datetime"; "contacts"; "sms"; "calendar"; "recipe"; "tasks"; "expense"; "music";
        "joplin"; "osmand"; "audio_recorder"; "markor"; "files"; "opentracks"; "gallery";
        "system" ] /\
  exists w' t r,
    EmulatorInitializer.initialize_report B C self w = (w', t, Ok r) /\
    (w', module_events t, outcomes t)
    = walk (expected_order B C) env0 (EmulatorInitializer.config self) w0 /\
    (outcomes t).*1
      = filter (fun k => is_Some (EmulatorInitializer.config self !! k))
          [ "datetime"; "contacts"; "sms"; "calendar"; "recipe"; "tasks"; "expense";
            "music"; "joplin"; "osmand"; "audio_recorder"; "markor"; "files"; "opentracks";
            "gallery"; "system" ] /\
    instantiated t = (outcomes t).*1 /\
    invoked t = (outcomes t).*1 /\
    (is_Some (EmulatorInitializer.config self !! "system") ->
     last ((outcomes t).*1) = Some "system") /\
    exists ta tb,
      t = ta ++ tb /\
      module_events ta = module_events t /\ outcomes ta = outcomes t /\
      instantiated ta = instantiated t /\ invoked ta = invoked t /\ unrecognized ta = [] /\
      module_events tb = [] /\ outcomes tb = [] /\
      instantiated tb = [] /\ invoked tb = [] /\
      unrecognized tb ≡ₚ elements (unknown_keys (EmulatorInitializer.config self)).
Proof.
  intros Hsetup. split; [reflexivity|].
  destruct (initialize_report_summary B C self w w0 t0 env0 Hsetup)
    as (w' & t & c & Hr & Hi & Hv & Ho & Hu & Htot & Hsuc & Hsplit & _).
  pose proof (initialize_report_walk B C self w w0 w' t0 t env0 _ Hsetup Hr) as Hwalk.
  exists w', t, ((success_count c =? total_count c)%nat, Some c).
  split; [exact Hr|]. split; [exact Hwalk|].
  split; [exact Ho|].
  split; [congruence|]. split; [congruence|].
  split; [rewrite Ho; apply present_system_last|].
  destruct Hsplit as (ta & tb & Ht & Hia & Hva & Hua & Hib & Hvb & Hob & Hub & Hmb).
  exists ta, tb.
  assert (Hm : module_events ta = module_events t).
  { rewrite Ht, module_events_app, Hmb, app_nil_r. reflexivity. }
  assert (Hoa : outcomes ta = outcomes t).
  { rewrite Ht, outcomes_app, Hob, app_nil_r. reflexivity. }
  rewrite Hi, Hv, Hub.
  do 10 (split; [first [assumption | reflexivity]|]).
  apply be_iter_set_perm.
Qed.

(** On the simulated device, with the contacts and the calendar configurator:
    the contacts are added before the event, and both are on the device at the
    end. *)
Lemma configurators_run_in_priority_order_witness :
  EmulatorInitializer.setup_environment Sim.backend (Sim.initializer Lab.config_both)
    Sim.ready
  = (Sim.ready,
     [Line Info SettingUp; RunAdbDevices;
      Line Info (AvailableDevices "List of devices attached emulator-5554 device");
      LoadAndSetupEnv; Line Info EnvironmentReady],
     Ok Sim.the_env) /\
  exists w' t r,
    EmulatorInitializer.initialize_report Sim.backend Sim.classes
      (Sim.initializer Lab.config_both) Sim.ready = (w', t, Ok r) /\
    outcomes t = [("contacts", ReturnedTrue); ("calendar", ReturnedTrue)] /\
    Sim.contacts w' = [(PyStr "Alice", PyStr "555-0100"); (PyStr "Bob", PyStr "555-0101")] /\
    Sim.events w' = [Sim.standup_event].
Proof.
  assert (H : EmulatorInitializer.setup_environment Sim.backend
                (Sim.initializer Lab.config_both) Sim.ready
              = (Sim.ready,
                 [Line Info SettingUp; RunAdbDevices;
                  Line Info (AvailableDevices "List of devices attached emulator-5554 device");
                  LoadAndSetupEnv; Line Info EnvironmentReady],
                 Ok Sim.the_env)) by (vm_compute; reflexivity).
  split; [exact H|].
  destruct (configurators_run_in_priority_order Sim.backend Sim.classes _ _ _ _ _ H)
    as (_ & w' & t & r & Hr & Hwalk & _).
  exists w', t, r. split; [exact Hr|].
  assert (Ho : outcomes t = snd (w', module_events t, outcomes t)) by reflexivity.
  assert (Hw : w' = fst (fst (w', module_events t, outcomes t))) by reflexivity.
  rewrite Hwalk in Ho, Hw. rewrite Ho, Hw.
  repeat split; vm_compute; reflexivity.
Defined.

(** ** calendar_configurator.py: one event *)

Section CalendarEventFacts.
Context {W : Type} (B : Backend W).

(** One iteration of the first loop on a dict, stage by stage: the repeat
    settings, the test of line 149, the conversion, and the log line that
    closes it. *)
Lemma add_one_event_dict (i : nat) (d : list (string * pyval)) (acc : list CalendarEvent)
    (w : W) :
  CalendarConfigurator.add_one_event B i (PyDict d) acc w =
  match CalendarConfigurator.repeat_settings B (field (PyDict d) "repeat_interval" (PyInt 0))
          (field (PyDict d) "day_of_week" (PyInt 0)) w with
  | (w1, tr, Raise e) => (w1, tr, Raise e)
  | (w1, tr, Ok rep) =>
      if complete_event (PyDict d) then
        match CalendarConfigurator.build_event B i
                (field (PyDict d) "title" (PyStr "")) (field (PyDict d) "description" (PyStr ""))
                (field (PyDict d) "location" (PyStr "")) (field (PyDict d) "start_time" PyNone)
                (field (PyDict d) "end_time" PyNone)
                (field (PyDict d) "duration_mins" (PyInt 30)) rep w1 with
        | (w2, tb, Ok ev) =>
            (w2,
             tr ++ tb ++
               [match be_fromtimestamp B (start_ts ev) with
                | Ok _ => Logged Info "Prepared calendar event"
                            [PyInt (Z.of_nat (S i)); field (PyDict d) "title" (PyStr "")] None
                | Raise e => Logged Error "Failed to create calendar event"
                               [field (PyDict d) "title" (PyStr "")] (Some e)
                end],
             Ok (acc ++ [ev]))
        | (w2, tb, Raise e) =>
            (w2,
             tr ++ tb ++ [Logged Error "Failed to create calendar event"
                            [field (PyDict d) "title" (PyStr "")] (Some e)],
             Ok acc)
        end
      else (w1, tr, Ok acc)
  end.
Proof.
  unfold CalendarConfigurator.add_one_event, complete_event, field, get. steps.
  destruct (CalendarConfigurator.repeat_settings B _ _ w) as [[w1 tr] [rep|e]];
    [|reflexivity].
  destruct (truthy (default (PyStr "") (dict_lookup "title" d))
            && truthy (default PyNone (dict_lookup "start_time" d))); steps.
  - destruct (CalendarConfigurator.build_event B i _ _ _ _ _ _ rep w1) as [[w2 tb] [ev|e]];
      steps.
    + destruct (be_fromtimestamp B (start_ts ev)) as [[]|e]; steps;
        rewrite ?app_nil_r, ?app_nil_l; reflexivity.
    + rewrite ?app_nil_r. reflexivity.
  - rewrite ?app_nil_r. reflexivity.
Qed.
End CalendarEventFacts.

Section CalendarEndTimestamp.
Context {W : Type} (B : Backend W).

Lemma to_timestamp_resolved (what : string) (i : nat) (title0 v : pyval) (n : Z) (w : W) :
  resolves B v n ->
  exists s,
    CalendarConfigurator.to_timestamp B what i title0 v w
      = (w, [Logged Info what [PyInt (Z.of_nat (S i)); title0; v] None], Ok s) /\
    as_int s = Some n.
Proof.
  unfold resolves, CalendarConfigurator.to_timestamp. intros H.
  destruct v; steps; try (eexists; split; [reflexivity | exact H]).
  rewrite H. steps. eexists. split; reflexivity.
Qed.

Lemma mul_int_as_int (v : pyval) (m k : Z) :
  as_int v = Some m -> mul_int v k = Ok (PyInt (m * k)).
Proof.
  destruct v; simpl; intros H; inversion H; reflexivity.
Qed.

Lemma add_as_int (a b : pyval) (x y : Z) :
  as_int a = Some x -> as_int b = Some y -> add a b = Ok (PyInt (x + y)).
Proof.
  unfold add. intros -> ->. reflexivity.
Qed.

(** Without an end time, an event that is built carries Python's
    [start_ts + duration_mins * 60]. *)
Lemma build_event_formula (i : nat) (title0 description0 location0 start_time end_time
    duration_mins : pyval) (rep : Z * Z) (w w' : W) (t : list mod_event)
    (ev : CalendarEvent) :
  truthy end_time = false ->
  CalendarConfigurator.build_event B i title0 description0 location0 start_time end_time
    duration_mins rep w = (w', t, Ok ev) ->
  exists secs, mul_int duration_mins 60 = Ok secs /\ add (start_ts ev) secs = Ok (end_ts ev).
Proof.
  intros Hend. unfold CalendarConfigurator.build_event. rewrite Hend. steps.
  destruct (CalendarConfigurator.to_timestamp B "start time" i title0 start_time w)
    as [[w1 t1] [s|e]]; [|discriminate].
  destruct (mul_int duration_mins 60) as [secs|e]; [|discriminate].
  destruct (add s secs) as [e|x] eqn:Hadd; [|discriminate].
  intros H. inversion H; subst. exists secs. split; [reflexivity | exact Hadd].
Qed.

Lemma build_event_integers (i : nat) (title0 description0 location0 start_time end_time
    duration_mins : pyval) (rep : Z * Z) (w : W) (n m : Z) :
  truthy end_time = false ->
  resolves B start_time n ->
  as_int duration_mins = Some m ->
  exists t s,
    CalendarConfigurator.build_event B i title0 description0 location0 start_time end_time
      duration_mins rep w
    = (w, t,
       Ok {| start_ts := s; end_ts := PyInt (n + m * 60); title := title0;
             description := description0; location := location0;
             repeat_interval := fst rep; repeat_rule := snd rep |}) /\
    as_int s = Some n /\ quiet t.
Proof.
  intros Hend Hstart Hdur. unfold CalendarConfigurator.build_event. rewrite Hend.
  destruct (to_timestamp_resolved "start time" i title0 start_time n w Hstart)
    as (s & Hs & Hn).
  steps. rewrite Hs. steps.
  rewrite (mul_int_as_int _ _ _ Hdur). steps.
  rewrite (add_as_int s (PyInt (m * 60)) n (m * 60) Hn eq_refl). steps.
  eexists _, s. split; [reflexivity|]. split; [exact Hn|].
  repeat constructor.
Qed.
End CalendarEndTimestamp.

(** ** Computations that cannot raise *)

Section Returns.
Context {W E : Type}.

Lemma returns_with_mret {A} (P : A -> Prop) (a : A) :
  P a -> returns_with (W:=W) (E:=E) P (mret a).
Proof. intros H w. exists w, [], a. split; [reflexivity | exact H]. Qed.

Lemma returns_emit (e : E) : returns (W:=W) (emit e).
Proof. intros w. exists w, [e], tt. split; [reflexivity | exact I]. Qed.

Lemma returns_with_bind {A A'} (P : A' -> Prop) (c : M W E A) (f : A -> M W E A') :
  returns c -> (forall a, returns_with P (f a)) -> returns_with P (c ≫= f).
Proof.
  intros Hc Hf w. destruct (Hc w) as (w1 & t1 & a & Hca & _).
  destruct (Hf a w1) as (w2 & t2 & b & Hfb & Hp).
  exists w2, (t1 ++ t2), b. split; [|exact Hp].
  steps. rewrite Hca, Hfb. reflexivity.
Qed.

Lemma returns_with_weaken {A} (P Q : A -> Prop) (c : M W E A) :
  (forall a, P a -> Q a) -> returns_with P c -> returns_with Q c.
Proof.
  intros HPQ Hc w. destruct (Hc w) as (w1 & t1 & a & Hca & Hp).
  exists w1, t1, a. split; [exact Hca | apply HPQ; exact Hp].
Qed.

(** A [try] whose handler cannot raise. *)
Lemma returns_try_except {A} (c : M W E A) (h : exn -> M W E A) :
  (forall e, returns (h e)) -> returns (try_except c h).
Proof.
  intros Hh w. unfold try_except.
  destruct (c w) as [[w1 t1] [a|e]].
  - exists w1, t1, a. split; [reflexivity | exact I].
  - destruct (Hh e w1) as (w2 & t2 & b & Hb & _). rewrite Hb.
    exists w2, (t1 ++ t2), b. split; [reflexivity | exact I].
Qed.

(** A [try] whose body cannot raise. *)
Lemma returns_with_try_body {A} (P : A -> Prop) (c : M W E A) (h : exn -> M W E A) :
  returns_with P c -> returns_with P (try_except c h).
Proof.
  intros Hc w. destruct (Hc w) as (w1 & t1 & a & Hca & Hp).
  exists w1, t1, a. unfold try_except. rewrite Hca. split; [reflexivity | exact Hp].
Qed.

Lemma returns_for_each {A} (l : list A) (body : A -> M W E unit) :
  (forall x, x ∈ l -> returns (body x)) -> returns (for_each l body).
Proof.
  induction l as [|x l IH]; intros H.
  - apply returns_with_mret. exact I.
  - cbn [for_each]. apply returns_with_bind.
    + apply H. left.
    + intros _. apply IH. intros y Hy. apply H. right. exact Hy.
Qed.

Lemma returns_for_enumerate {A} (l : list A) (i : nat) (body : nat -> A -> M W E unit) :
  (forall j x, returns (body j x)) -> returns (for_enumerate i l body).
Proof.
  intros H. revert i. induction l as [|x l IH]; intros i.
  - apply returns_with_mret. exact I.
  - cbn [for_enumerate]. apply returns_with_bind; [apply H | intros _; apply IH].
Qed.
End Returns.

Lemma returns_log {W : Type} (lv : level) (text : string) (args : list pyval) :
  returns (W:=W) (log lv text args).
Proof. apply returns_emit. Qed.

Lemma returns_log_exn {W : Type} (lv : level) (text : string) (args : list pyval) (e : exn) :
  returns (W:=W) (log_exn lv text args e).
Proof. apply returns_emit. Qed.

(** ** contacts_configurator.py *)

Section ContactsFacts.
Context {W : Type} (B : Backend W) (self : BaseConfigurator.t).

(** One contact that is a dict: skipped without a word when it lacks a name
    or a number; otherwise [add_contact] is called, and its exception, if any,
    is logged. *)
Lemma add_one_contact_dict (ui : option pyval) (d : list (string * pyval)) (w : W) :
  ContactsConfigurator.add_one_contact B self ui (PyDict d) w =
  if complete_contact (PyDict d) then
    match be_add_contact B (field (PyDict d) "name" (PyStr ""))
            (field (PyDict d) "number" (PyStr "")) (BaseConfigurator.env_controller self) ui w
    with
    | (w1, Ok _) =>
        (w1, [Called (add_contact_call self ui (PyDict d));
              Logged Info "Added contact"
                [field (PyDict d) "name" (PyStr ""); field (PyDict d) "number" (PyStr "")] None],
         Ok tt)
    | (w1, Raise e) =>
        (w1, [Called (add_contact_call self ui (PyDict d));
              Logged Error "Failed to add contact" [field (PyDict d) "name" (PyStr "")]
                (Some e)],
         Ok tt)
    end
  else (w, [], Ok tt).
Proof.
  unfold ContactsConfigurator.add_one_contact, complete_contact, add_contact_call, field, get.
  steps.
  destruct (truthy (default (PyStr "") (dict_lookup "name" d))
            && truthy (default (PyStr "") (dict_lookup "number" d))); steps; [|reflexivity].
  destruct (be_add_contact B _ _ _ ui w) as [w1 [[]|e]]; reflexivity.
Qed.

(** The loop of [_add_contacts] over dicts returns, and calls [add_contact]
    for every item that has a name and a number, in order, whatever the
    earlier calls did. *)
Lemma add_contacts_loop (ui : option pyval) (items : list pyval) (w : W) :
  Forall (fun x => is_dict x = true) items ->
  exists w' t,
    for_each items (ContactsConfigurator.add_one_contact B self ui) w = (w', t, Ok tt) /\
    calls t = map (add_contact_call self ui) (filter complete_contact items).
Proof.
  intros Hd. revert w. induction Hd as [|x items Hx _ IH]; intros w.
  - exists w, []. split; reflexivity.
  - destruct x as [| | | | |d|]; try discriminate Hx.
    cbn [for_each]. steps. rewrite add_one_contact_dict.
    destruct (complete_contact (PyDict d)) eqn:Hc.
    + rewrite filter_cons_True by (rewrite Hc; exact I).
      destruct (be_add_contact B _ _ _ ui w) as [w1 [[]|e]];
        destruct (IH w1) as (w2 & t2 & Hrun & Hcalls); rewrite Hrun;
        eexists _, _; (split; [reflexivity|]);
        rewrite calls_app, Hcalls; reflexivity.
    + rewrite filter_cons_False by (rewrite Hc; exact id).
      destruct (IH w) as (w2 & t2 & Hrun & Hcalls). rewrite Hrun.
      eexists _, _. split; [reflexivity | exact Hcalls].
Qed.

(** Over items that lack a name or a number the loop does nothing at all. *)
Lemma add_contacts_loop_incomplete (ui : option pyval) (items : list pyval) (w : W) :
  Forall (fun x => is_dict x = true /\ complete_contact x = false) items ->
  for_each items (ContactsConfigurator.add_one_contact B self ui) w = (w, [], Ok tt).
Proof.
  intros Hd. induction Hd as [|x items [Hx Hc] _ IH]; [reflexivity|].
  destruct x as [| | | | |d|]; try discriminate Hx.
  cbn [for_each]. steps. rewrite add_one_contact_dict, Hc, IH. reflexivity.
Qed.

Lemma verify_contacts_returns : returns (ContactsConfigurator._verify_contacts B self).
Proof.
  apply returns_try_except. intros e. apply returns_log_exn.
Qed.

(** [configure()] on a fragment whose contacts are dicts and that does not
    ask to clear the table: true, however many contacts the device refused. *)
Lemma contacts_configure_true (d : list (string * pyval)) (items : list pyval) (w : W) :
  BaseConfigurator.env_controller self <> NoneObj ->
  BaseConfigurator.config self = PyDict d ->
  truthy (field (PyDict d) "clear_contacts" (PyBool false)) = false ->
  iter (field (PyDict d) "add_contacts" (PyList [])) = Ok items ->
  Forall (fun x => is_dict x = true) items ->
  exists w' t, ContactsConfigurator.configure B self w = (w', t, Ok true).
Proof.
  intros Hctl Hcfg Hclear Hiter Hitems.
  unfold ContactsConfigurator.configure, ContactsConfigurator._add_contacts.
  rewrite (ensure_environment_ok self Hctl), Hcfg.
  unfold field in Hclear, Hiter. unfold get, get_or_float_default. steps.
  rewrite Hclear. steps. rewrite Hiter. steps.
  destruct (add_contacts_loop (dict_lookup "ui_delay_sec" d) items w Hitems)
    as (w1 & t1 & Hrun & _).
  rewrite Hrun. steps.
  destruct (truthy (default (PyBool false) (dict_lookup "verify_contacts" d))); steps.
  - destruct (verify_contacts_returns w1) as (w2 & t2 & [] & Hv & _). rewrite Hv.
    eexists _, _. reflexivity.
  - eexists _, _. reflexivity.
Qed.
End ContactsFacts.

(** ** calendar_configurator.py: the loops *)

Section CalendarFacts.
Context {W : Type} (B : Backend W) (self : BaseConfigurator.t).

(** Reading the repeat settings logs at level info at most and leaves the
    device alone. *)
Lemma repeat_settings_trace (ri dow : pyval) (w w' : W) (t : list mod_event)
    (r : res (Z * Z)) :
  CalendarConfigurator.repeat_settings B ri dow w = (w', t, r) ->
  w' = w /\ calls t = [] /\ quiet t.
Proof.
  unfold CalendarConfigurator.repeat_settings. steps.
  destruct (if eq_str ri "weekly" then _ else _) as [[|]|e]; steps.
  - destruct (be_generate_simple_calendar_weekly_repeat_rule B dow) as [rule|e]; steps;
      intros H; inversion H; subst; repeat split; repeat constructor.
  - destruct (eq_str ri "daily"); steps;
      intros H; inversion H; subst; repeat split; repeat constructor.
  - intros H; inversion H; subst; repeat split; repeat constructor.
Qed.

Lemma to_timestamp_world (what : string) (i : nat) (title0 v : pyval) (w w' : W)
    (t : list mod_event) (r : res pyval) :
  CalendarConfigurator.to_timestamp B what i title0 v w = (w', t, r) -> w' = w.
Proof.
  unfold CalendarConfigurator.to_timestamp.
  destruct v; steps; try (intros H; inversion H; reflexivity).
  destruct (be_iso_timestamp B s); steps; intros H; inversion H; reflexivity.
Qed.

(** Building an event leaves the device alone. *)
Lemma build_event_world (i : nat) (title0 description0 location0 start_time end_time
    duration_mins : pyval) (rep : Z * Z) (w w' : W) (t : list mod_event)
    (r : res CalendarEvent) :
  CalendarConfigurator.build_event B i title0 description0 location0 start_time end_time
    duration_mins rep w = (w', t, r) -> w' = w.
Proof.
  unfold CalendarConfigurator.build_event. steps.
  destruct (CalendarConfigurator.to_timestamp B "start time" i title0 start_time w)
    as [[w1 t1] [s|e]] eqn:Hs; [|intros H; inversion H; subst;
                                  exact (to_timestamp_world _ _ _ _ _ _ _ _ Hs)].
  apply to_timestamp_world in Hs. subst w1.
  destruct (truthy end_time).
  - destruct (CalendarConfigurator.to_timestamp B "end time" i title0 end_time w)
      as [[w2 t2] [s2|e]] eqn:He; apply to_timestamp_world in He; subst w2;
      intros H; inversion H; reflexivity.
  - steps. destruct (mul_int duration_mins 60) as [secs|e]; steps;
      [|intros H; inversion H; reflexivity].
    destruct (add s secs) as [x|e]; steps; intros H; inversion H; reflexivity.
Qed.

(** One event that is a dict with readable repeat settings: the iteration
    returns on the same device, and what it adds to the list is what it builds
    from this item alone. *)
Lemma add_one_event_readable (i : nat) (x : pyval) (acc : list CalendarEvent) (w : W) :
  is_dict x = true -> repeat_readable B x ->
  exists t,
    CalendarConfigurator.add_one_event B i x acc w = (w, t, Ok (acc ++ prepared_one B w i x)).
Proof.
  intros Hx Hr. destruct x as [| | | | |d|]; try discriminate Hx.
  rewrite add_one_event_dict. unfold prepared_one.
  destruct (Hr w) as (tr & rep & Hrep). rewrite Hrep.
  destruct (complete_event (PyDict d)).
  - destruct (CalendarConfigurator.build_event B i _ _ _ _ _ _ rep w)
      as [[w2 tb] [ev|e]] eqn:Hb; apply build_event_world in Hb; subst w2;
      eexists; rewrite ?app_nil_r; reflexivity.
  - eexists. rewrite app_nil_r. reflexivity.
Qed.

(** The first loop of [_add_specific_events] over such items returns, and
    keeps what is built from each item on its own, in order. *)
Lemma prepare_events_readable (i : nat) (items : list pyval) (acc : list CalendarEvent)
    (w : W) :
  Forall (fun x => is_dict x = true /\ repeat_readable B x) items ->
  exists t,
    CalendarConfigurator.prepare_events B i items acc w
      = (w, t, Ok (acc ++ prepared B w i items)).
Proof.
  intros H. revert i acc. induction H as [|x items [Hx Hr] _ IH]; intros i acc.
  - exists []. cbn [CalendarConfigurator.prepare_events prepared]. steps.
    rewrite app_nil_r. reflexivity.
  - cbn [CalendarConfigurator.prepare_events prepared]. steps.
    destruct (add_one_event_readable i x acc w Hx Hr) as (t1 & H1). rewrite H1.
    destruct (IH (S i) (acc ++ prepared_one B w i x)) as (t2 & H2). rewrite H2.
    eexists. rewrite app_assoc. reflexivity.
Qed.

(** An incomplete event is passed over: nothing is added, nothing is called,
    no warning and no error is logged. *)
Lemma add_one_event_incomplete (i : nat) (x : pyval) (acc : list CalendarEvent) (w : W) :
  is_dict x = true -> repeat_readable B x -> complete_event x = false ->
  exists t,
    CalendarConfigurator.add_one_event B i x acc w = (w, t, Ok acc) /\
    calls t = [] /\ quiet t.
Proof.
  intros Hx Hr Hc. destruct x as [| | | | |d|]; try discriminate Hx.
  rewrite add_one_event_dict, Hc.
  destruct (Hr w) as (tr & rep & Hrep). rewrite Hrep.
  destruct (repeat_settings_trace _ _ _ _ _ _ Hrep) as (_ & Hcalls & Hq).
  exists tr. repeat split; assumption.
Qed.

Lemma prepare_events_incomplete (i : nat) (items : list pyval) (acc : list CalendarEvent)
    (w : W) :
  Forall (fun x => is_dict x = true /\ repeat_readable B x /\ complete_event x = false)
    items ->
  exists t,
    CalendarConfigurator.prepare_events B i items acc w = (w, t, Ok acc) /\
    calls t = [] /\ quiet t.
Proof.
  intros H. revert i. induction H as [|x items (Hx & Hr & Hc) _ IH]; intros i.
  - exists []. split; [reflexivity|]. split; [reflexivity | constructor].
  - cbn [CalendarConfigurator.prepare_events]. steps.
    destruct (add_one_event_incomplete i x acc w Hx Hr Hc) as (t1 & H1 & Hc1 & Hq1).
    rewrite H1. destruct (IH (S i)) as (t2 & H2 & Hc2 & Hq2). rewrite H2.
    exists (t1 ++ t2). split; [reflexivity|]. split.
    + rewrite calls_app, Hc1, Hc2. reflexivity.
    + apply Forall_app. split; assumption.
Qed.

(** The retry of lines 220-225: every event is tried on its own, whatever
    the others did. *)
Lemma retry_loop (i : nat) (evs : list CalendarEvent) (w : W) :
  exists w' t,
    for_enumerate i evs (fun i ev =>
      try_except
        (external (add_events [ev] (BaseConfigurator.env_controller self))
           (be_add_events B [ev] (BaseConfigurator.env_controller self));;
         log Info "Successfully added event" [PyInt (Z.of_nat (S i)); title ev])
        (fun e_inner =>
           log_exn Error "Failed to add single event" [PyInt (Z.of_nat (S i)); title ev]
             e_inner)) w
    = (w', t, Ok tt) /\
    calls t = map (fun ev => add_events [ev] (BaseConfigurator.env_controller self)) evs.
Proof.
  steps. revert i w. induction evs as [|ev evs IH]; intros i w.
  - exists w, []. split; reflexivity.
  - cbn [for_enumerate]. steps.
    destruct (be_add_events B [ev] (BaseConfigurator.env_controller self) w)
      as [w1 [[]|e]]; steps;
      destruct (IH (S i) w1) as (w2 & t2 & Hrun & Hcalls); rewrite Hrun;
      eexists _, _; (split; [reflexivity|]); simpl; f_equal; exact Hcalls.
Qed.

Lemma verify_addition_returns : returns (CalendarConfigurator.verify_addition B self).
Proof. apply returns_try_except. intros e. apply returns_log_exn. Qed.

(** The insertion of the prepared events returns; when the insertion of the
    batch raises, every event is then inserted on its own. *)
Lemma insert_events_returns (evs : list CalendarEvent) (w : W) :
  exists w' t,
    CalendarConfigurator.insert_events B self evs w = (w', t, Ok tt) /\
    (evs = [] -> w' = w /\ t = []) /\
    (forall w1 e,
       evs <> [] ->
       be_add_events B evs (BaseConfigurator.env_controller self) w = (w1, Raise e) ->
       calls t = add_events evs (BaseConfigurator.env_controller self)
                 :: map (fun ev => add_events [ev] (BaseConfigurator.env_controller self)) evs).
Proof.
  destruct evs as [|ev0 evs'].
  - exists w, []. repeat split; try reflexivity. intros w1 e Hne. congruence.
  - unfold CalendarConfigurator.insert_events. steps.
    set (evs := ev0 :: evs').
    destruct (be_add_events B evs (BaseConfigurator.env_controller self) w)
      as [w1 [[]|e]] eqn:Hadd; steps.
    + destruct (verify_addition_returns w1) as (w2 & t2 & [] & Hv & _). rewrite Hv.
      eexists _, _. split; [reflexivity|]. split; [intros H; discriminate H|].
      intros w1' e' _ H. discriminate H.
    + destruct (retry_loop 0 evs w1) as (w2 & t2 & Hrun & Hcalls).
      steps_in Hrun. rewrite Hrun.
      eexists _, _. split; [reflexivity|]. split; [intros H; discriminate H|].
      intros w1' e' _ _. rewrite !calls_app. simpl. rewrite Hcalls. reflexivity.
Qed.

Lemma clear_calendar_events_returns :
  returns (CalendarConfigurator._clear_calendar_events B self).
Proof.
  apply returns_try_except. intros e. apply returns_with_bind.
  - apply returns_log_exn.
  - intros _. apply returns_try_except. intros e2. apply returns_log_exn.
Qed.

Lemma restart_calendar_app_returns :
  returns (CalendarConfigurator._restart_calendar_app B self).
Proof. apply returns_try_except. intros e. apply returns_log_exn. Qed.

(** [_add_specific_events] on a list of dicts whose repeat settings can be
    read returns. *)
Lemma add_specific_events_returns (items : list pyval) (w : W) :
  Forall (fun x => is_dict x = true /\ repeat_readable B x) items ->
  exists w' t,
    CalendarConfigurator._add_specific_events B self (PyList items) w = (w', t, Ok tt).
Proof.
  intros H. unfold CalendarConfigurator._add_specific_events. simpl iter. steps.
  destruct (prepare_events_readable 0 items [] w H) as (t1 & H1). rewrite H1.
  destruct (insert_events_returns ([] ++ prepared B w 0 items) w) as (w2 & t2 & H2 & _).
  rewrite H2. eexists _, _. reflexivity.
Qed.

(** [configure()] on a device where the application is ready, for a fragment
    whose events are dicts with readable repeat settings and that asks for no
    random events: true, whatever conversions and insertions failed. *)
Lemma calendar_configure_true (d : list (string * pyval)) (items : list pyval) (w w1 : W)
    (t1 : list mod_event) :
  BaseConfigurator.env_controller self <> NoneObj ->
  BaseConfigurator.config self = PyDict d ->
  CalendarConfigurator._setup_calendar_app B self w = (w1, t1, Ok true) ->
  field (PyDict d) "add_events" (PyList []) = PyList items ->
  Forall (fun x => is_dict x = true /\ repeat_readable B x) items ->
  truthy (field (PyDict d) "add_random_events" (PyBool false)) = false ->
  exists w' t, CalendarConfigurator.configure B self w = (w', t, Ok true).
Proof.
  intros Hctl Hcfg Hsetup Hitems Hall Hrandom.
  unfold CalendarConfigurator.configure.
  rewrite (ensure_environment_ok self Hctl), Hcfg.
  unfold field in Hitems, Hrandom. unfold get. steps.
  rewrite Hsetup. steps. cbn [negb]. steps. rewrite Hitems, Hrandom.
  assert (Hclear : exists w2 t2,
             (if truthy (default (PyBool false) (dict_lookup "clear_events" d))
              then CalendarConfigurator._clear_calendar_events B self
              else fun w0 : W => (w0, [], Ok tt)) w1 = (w2, t2, Ok tt)).
  { destruct (truthy (default (PyBool false) (dict_lookup "clear_events" d))).
    - destruct (clear_calendar_events_returns w1) as (w2 & t2 & [] & H & _).
      exists w2, t2. exact H.
    - exists w1, []. reflexivity. }
  destruct Hclear as (w2 & t2 & Hclear). rewrite Hclear. steps.
  assert (Hadd : exists w3 t3,
             (if truthy (PyList items)
              then CalendarConfigurator._add_specific_events B self (PyList items)
              else fun w0 : W => (w0, [], Ok tt)) w2 = (w3, t3, Ok tt)).
  { destruct (truthy (PyList items)).
    - apply add_specific_events_returns. exact Hall.
    - exists w2, []. reflexivity. }
  destruct Hadd as (w3 & t3 & Hadd). rewrite Hadd. steps.
  destruct (restart_calendar_app_returns w3) as (w4 & t4 & [] & Hre & _). rewrite Hre.
  eexists _, _. reflexivity.
Qed.
End CalendarFacts.

(** ** The items of a fragment *)

(** What the two configurators do guarantee about the items of a list: over
    items that are dicts (and, for calendar events, whose repeat settings can
    be read), each item is processed on its own.  Contacts: the loop returns
    and calls [add_contact] for every item with a name and a number, in order;
    when the call raises, the exception is logged and the loop goes on;
    [configure()] returns true.  Calendar: the first loop returns and keeps
    what is built from each item alone; when the conversion of an item raises,
    the exception is logged and nothing is added for it; the insertion
    returns, and when the insertion of the batch raises, every event is
    inserted on its own; [configure()] returns true when the application is
    ready and no random events are asked for. *)
Theorem item_failures_are_isolated {W : Type} (B : Backend W) (self : BaseConfigurator.t) :
  (forall ui items w,
     Forall (fun x => is_dict x = true) items ->
     exists w' t,
       for_each items (ContactsConfigurator.add_one_contact B self ui) w = (w', t, Ok tt) /\
       calls t = map (add_contact_call self ui) (filter complete_contact items)) /\
  (forall ui d w w1 e,
     complete_contact (PyDict d) = true ->
     be_add_contact B (field (PyDict d) "name" (PyStr "")) (field (PyDict d) "number" (PyStr ""))
       (BaseConfigurator.env_controller self) ui w = (w1, Raise e) ->
     ContactsConfigurator.add_one_contact B self ui (PyDict d) w
     = (w1, [Called (add_contact_call self ui (PyDict d));
             Logged Error "Failed to add contact" [field (PyDict d) "name" (PyStr "")]
               (Some e)], Ok tt)) /\
  (forall d items w,
     BaseConfigurator.env_controller self <> NoneObj ->
     BaseConfigurator.config self = PyDict d ->
     truthy (field (PyDict d) "clear_contacts" (PyBool false)) = false ->
     iter (field (PyDict d) "add_contacts" (PyList [])) = Ok items ->
     Forall (fun x => is_dict x = true) items ->
     exists w' t, ContactsConfigurator.configure B self w = (w', t, Ok true)) /\
  (forall i items acc w,
     Forall (fun x => is_dict x = true /\ repeat_readable B x) items ->
     exists t,
       CalendarConfigurator.prepare_events B i items acc w
         = (w, t, Ok (acc ++ prepared B w i items))) /\
  (forall i d acc w tr rep tb e,
     complete_event (PyDict d) = true ->
     CalendarConfigurator.repeat_settings B (field (PyDict d) "repeat_interval" (PyInt 0))
       (field (PyDict d) "day_of_week" (PyInt 0)) w = (w, tr, Ok rep) ->
     CalendarConfigurator.build_event B i
       (field (PyDict d) "title" (PyStr "")) (field (PyDict d) "description" (PyStr ""))
       (field (PyDict d) "location" (PyStr "")) (field (PyDict d) "start_time" PyNone)
       (field (PyDict d) "end_time" PyNone) (field (PyDict d) "duration_mins" (PyInt 30))
       rep w = (w, tb, Raise e) ->
     CalendarConfigurator.add_one_event B i (PyDict d) acc w
     = (w, tr ++ tb ++ [Logged Error "Failed to create calendar event"
                          [field (PyDict d) "title" (PyStr "")] (Some e)], Ok acc)) /\
  (forall evs w,
     exists w' t,
       CalendarConfigurator.insert_events B self evs w = (w', t, Ok tt) /\
       forall w1 e,
         evs <> [] ->
         be_add_events B evs (BaseConfigurator.env_controller self) w = (w1, Raise e) ->
         calls t = add_events evs (BaseConfigurator.env_controller self)
                   :: map (fun ev => add_events [ev] (BaseConfigurator.env_controller self))
                        evs) /\
  (forall d items w w1 t1,
     BaseConfigurator.env_controller self <> NoneObj ->
     BaseConfigurator.config self = PyDict d ->
     CalendarConfigurator._setup_calendar_app B self w = (w1, t1, Ok true) ->
     field (PyDict d) "add_events" (PyList []) = PyList items ->
     Forall (fun x => is_dict x = true /\ repeat_readable B x) items ->
     truthy (field (PyDict d) "add_random_events" (PyBool false)) = false ->
     exists w' t, CalendarConfigurator.configure B self w = (w', t, Ok true)).
Proof.
  split; [|split; [|split; [|split; [|split; [|split]]]]].
  - intros ui items w H. exact (add_contacts_loop B self ui items w H).
  - intros ui d w w1 e Hc Hadd. rewrite add_one_contact_dict, Hc, Hadd. reflexivity.
  - intros d items w. exact (contacts_configure_true B self d items w).
  - intros i items acc w H. exact (prepare_events_readable B i items acc w H).
  - intros i d acc w tr rep tb e Hc Hrep Hb.
    rewrite add_one_event_dict, Hrep, Hc, Hb. reflexivity.
  - intros evs w. destruct (insert_events_returns B self evs w) as (w' & t & Hrun & _ & Hc).
    exists w', t. split; [exact Hrun | exact Hc].
  - intros d items w w1 t1. exact (calendar_configure_true B self d items w w1 t1).
Qed.

(** What the two configurators do guarantee about incomplete items: a
    contact that is a dict without a name or without a number is passed over
    without a call and without a log line, and [configure()] on a fragment made
    of such contacts only logs its first line and returns true.  An event that
    is a dict without a title or without a start time, and whose repeat
    settings can be read, is passed over: nothing is prepared, nothing is
    called, no warning and no error is logged, and [configure()] on a fragment
    made of such events returns true when the application is ready. *)
Theorem incomplete_items_are_skipped {W : Type} (B : Backend W) (self : BaseConfigurator.t) :
  (forall ui items w,
     Forall (fun x => is_dict x = true /\ complete_contact x = false) items ->
     for_each items (ContactsConfigurator.add_one_contact B self ui) w = (w, [], Ok tt)) /\
  (forall items w,
     BaseConfigurator.env_controller self <> NoneObj ->
     BaseConfigurator.config self = PyDict [("add_contacts", PyList items)] ->
     Forall (fun x => is_dict x = true /\ complete_contact x = false) items ->
     ContactsConfigurator.configure B self w
     = (w, [Logged Info "Configuring contacts..." [] None], Ok true)) /\
  (forall items w,
     Forall (fun x => is_dict x = true /\ repeat_readable B x /\ complete_event x = false)
       items ->
     exists t,
       CalendarConfigurator._add_specific_events B self (PyList items) w = (w, t, Ok tt) /\
       calls t = [] /\ quiet t) /\
  (forall items w w1 t1,
     BaseConfigurator.env_controller self <> NoneObj ->
     BaseConfigurator.config self = PyDict [("add_events", PyList items)] ->
     CalendarConfigurator._setup_calendar_app B self w = (w1, t1, Ok true) ->
     Forall (fun x => is_dict x = true /\ repeat_readable B x /\ complete_event x = false)
       items ->
     exists w' t, CalendarConfigurator.configure B self w = (w', t, Ok true)).
Proof.
  split; [|split; [|split]].
  - intros ui items w H. exact (add_contacts_loop_incomplete B self ui items w H).
  - intros items w Hctl Hcfg H.
    unfold ContactsConfigurator.configure, ContactsConfigurator._add_contacts.
    rewrite (ensure_environment_ok self Hctl), Hcfg.
    unfold get, get_or_float_default. steps. simpl. steps.
    rewrite (add_contacts_loop_incomplete B self None items w H). reflexivity.
  - intros items w H.
    unfold CalendarConfigurator._add_specific_events. simpl iter. steps.
    destruct (prepare_events_incomplete B 0 items [] w H) as (t & Hrun & Hc & Hq).
    rewrite Hrun. unfold CalendarConfigurator.insert_events. steps.
    exists t. rewrite ?app_nil_r.
    split; [reflexivity|]. split; assumption.
  - intros items w w1 t1 Hctl Hcfg Hsetup H.
    apply (calendar_configure_true B self [("add_events", PyList items)] items w w1 t1
             Hctl Hcfg Hsetup eq_refl); [|reflexivity].
    eapply Forall_impl; [exact H|]. intros x (Hx & Hr & _). split; assumption.
Qed.

(** C9: the items of a list are not processed independently when one of
    them is a weekly event whose day is a word.  The comparison of line 139
    raises [TypeError] before the [try] of the item is entered, the loop is
    left, the stand-up that follows is never prepared, nothing is inserted and
    [configure()] returns false; alone, the stand-up is inserted and
    [configure()] returns true. *)
Theorem weekly_day_as_word_aborts_the_list :
  is_dict Sim.weekly_on_mon = true /\
  complete_event Sim.weekly_on_mon = true /\
  CalendarConfigurator._add_specific_events Sim.backend
    (Sim.configurator Sim.weekly_then_standup)
    (PyList [Sim.weekly_on_mon; PyDict Sim.standup]) Sim.ready
  = (Sim.ready, [], Raise TypeError) /\
  snd (CalendarConfigurator.configure Sim.backend (Sim.configurator Sim.weekly_then_standup)
         Sim.ready) = Ok false /\
  Sim.events (fst (fst (CalendarConfigurator.configure Sim.backend
                          (Sim.configurator Sim.weekly_then_standup) Sim.ready))) = [] /\
  snd (CalendarConfigurator.configure Sim.backend (Sim.configurator Sim.standup_only)
         Sim.ready) = Ok true /\
  Sim.events (fst (fst (CalendarConfigurator.configure Sim.backend
                          (Sim.configurator Sim.standup_only) Sim.ready)))
  = [Sim.standup_event].
Proof.
  repeat split; vm_compute; reflexivity.
Qed.

(** C10: an event without a title is not passed over when its weekly day is
    a word.  The repeat settings are read before the title is looked at, the
    comparison of line 139 raises [TypeError] and [configure()] returns false
    on the fragment that holds this event alone; on the same device an event
    with an empty title and no repeat settings is passed over and
    [configure()] returns true. *)
Theorem untitled_event_can_fail_the_module :
  is_dict Sim.untitled_weekly_on_mon = true /\
  complete_event Sim.untitled_weekly_on_mon = false /\
  CalendarConfigurator.add_one_event Sim.backend 0 Sim.untitled_weekly_on_mon [] Sim.ready
  = (Sim.ready, [], Raise TypeError) /\
  snd (CalendarConfigurator.configure Sim.backend (Sim.configurator Sim.untitled_weekly_only)
         Sim.ready) = Ok false /\
  complete_event Sim.untitled = false /\
  snd (CalendarConfigurator.configure Sim.backend (Sim.configurator Sim.untitled_only)
         Sim.ready) = Ok true.
Proof.
  repeat split; vm_compute; reflexivity.
Qed.

(** The precondition of the calendar configurator: without the application
    [configure()] logs an error, returns false and touches nothing. *)
Lemma calendar_precondition_not_met :
  CalendarConfigurator.configure Sim.backend (Sim.configurator Sim.standup_only)
    Sim.no_calendar
  = (Sim.no_calendar,
     [Logged Info "Configuring calendar events..." [] None;
      Logged Info "Ensure calendar app is running..."
        [PyStr "com.simplemobiletools.calendar.pro"] None;
      Called (get_all_package_names Sim.the_controller);
      Logged Error "Calendar app is not installed! Please install the app first."
        [PyStr "com.simplemobiletools.calendar.pro"] None],
     Ok false).
Proof. vm_compute. reflexivity. Qed.

Lemma sim_repeat_readable (d : list (string * pyval)) :
  dict_lookup "repeat_interval" d = None -> repeat_readable Sim.backend (PyDict d).
Proof.
  intros H w. unfold field. rewrite H. eexists _, _. reflexivity.
Qed.

(** On the simulated device: Mallory is refused and Bob is still added; a
    date that does not parse is left out and the stand-up is still prepared; a
    refused batch is retried event by event. *)
Lemma item_failures_are_isolated_witness :
  (Forall (fun x => is_dict x = true) [Sim.alice; Sim.mallory; Sim.bob] /\
   exists w' t,
     for_each [Sim.alice; Sim.mallory; Sim.bob]
       (ContactsConfigurator.add_one_contact Sim.backend (Sim.configurator Sim.three_contacts)
          None) Sim.ready = (w', t, Ok tt) /\
     calls t = [add_contact (PyStr "Alice") (PyStr "555-0100") Sim.the_controller None;
                add_contact (PyStr "Mallory") (PyStr "555-0102") Sim.the_controller None;
                add_contact (PyStr "Bob") (PyStr "555-0101") Sim.the_controller None]) /\
  (complete_contact Sim.mallory = true /\
   ContactsConfigurator.add_one_contact Sim.backend (Sim.configurator Sim.three_contacts) None
     Sim.mallory Sim.ready
   = (Sim.ready,
      [Called (add_contact (PyStr "Mallory") (PyStr "555-0102") Sim.the_controller None);
       Logged Error "Failed to add contact" [PyStr "Mallory"] (Some (OtherError 1))],
      Ok tt)) /\
  (exists w' t,
     ContactsConfigurator.configure Sim.backend (Sim.configurator Sim.three_contacts) Sim.ready
     = (w', t, Ok true)) /\
  (Forall (fun x => is_dict x = true /\ repeat_readable Sim.backend x)
     [Sim.bad_date; PyDict Sim.standup; Sim.no_start] /\
   exists t,
     CalendarConfigurator.prepare_events Sim.backend 0
       [Sim.bad_date; PyDict Sim.standup; Sim.no_start] [] Sim.ready
     = (Sim.ready, t, Ok [Sim.standup_event])) /\
  (complete_event Sim.bad_date = true /\
   CalendarConfigurator.add_one_event Sim.backend 0 Sim.bad_date [] Sim.ready
   = (Sim.ready,
      [Logged Error "Failed to create calendar event" [PyStr "Dentist"] (Some ValueError)],
      Ok [])) /\
  (be_add_events Sim.backend [Sim.broken_event; Sim.standup_event] Sim.the_controller Sim.ready
   = (Sim.ready, Raise (OtherError 2)) /\
   exists w' t,
     CalendarConfigurator.insert_events Sim.backend (Sim.configurator Sim.bad_date_then_standup)
       [Sim.broken_event; Sim.standup_event] Sim.ready = (w', t, Ok tt) /\
     calls t = [add_events [Sim.broken_event; Sim.standup_event] Sim.the_controller;
                add_events [Sim.broken_event] Sim.the_controller;
                add_events [Sim.standup_event] Sim.the_controller]) /\
  (exists w' t,
     CalendarConfigurator.configure Sim.backend (Sim.configurator Sim.bad_date_then_standup)
       Sim.ready = (w', t, Ok true)).
Proof.
  destruct (item_failures_are_isolated Sim.backend (Sim.configurator Sim.three_contacts))
    as (C1 & C2 & C3 & _).
  destruct (item_failures_are_isolated Sim.backend
              (Sim.configurator Sim.bad_date_then_standup))
    as (_ & _ & _ & E1 & E2 & E3 & E4).
  assert (Hd : Forall (fun x => is_dict x = true) [Sim.alice; Sim.mallory; Sim.bob])
    by (repeat constructor).
  assert (Hr : Forall (fun x => is_dict x = true /\ repeat_readable Sim.backend x)
                 [Sim.bad_date; PyDict Sim.standup; Sim.no_start]).
  { repeat (apply Forall_cons; split;
            [split; [reflexivity | apply sim_repeat_readable; reflexivity]|]).
    apply Forall_nil. exact I. }
  split; [|split; [|split; [|split; [|split; [|split]]]]].
  - split; [exact Hd|]. exact (C1 None _ Sim.ready Hd).
  - split; [reflexivity|].
    exact (C2 None [("name", PyStr "Mallory"); ("number", PyStr "555-0102")] Sim.ready
             Sim.ready (OtherError 1) eq_refl eq_refl).
  - refine (C3 [("add_contacts", PyList [Sim.alice; Sim.mallory; Sim.bob])]
              [Sim.alice; Sim.mallory; Sim.bob] Sim.ready _ eq_refl eq_refl eq_refl Hd).
    discriminate.
  - split; [exact Hr|]. exact (E1 0 _ [] Sim.ready Hr).
  - split; [reflexivity|].
    exact (E2 0 [("title", PyStr "Dentist"); ("start_time", PyStr "tomorrow")] [] Sim.ready
             [] (0%Z, 0%Z) [] ValueError eq_refl eq_refl eq_refl).
  - split; [reflexivity|].
    destruct (E3 [Sim.broken_event; Sim.standup_event] Sim.ready) as (w' & t & Hrun & Hc).
    exists w', t. split; [exact Hrun|].
    refine (Hc Sim.ready (OtherError 2) _ eq_refl). discriminate.
  - refine (E4 [("add_events", PyList [Sim.bad_date; PyDict Sim.standup; Sim.no_start])]
              [Sim.bad_date; PyDict Sim.standup; Sim.no_start] Sim.ready Sim.ready _
              _ eq_refl _ eq_refl Hr eq_refl).
    + discriminate.
    + vm_compute. reflexivity.
Defined.

(** On the simulated device: contacts without a name or a number, events
    without a title or a start time. *)
Lemma incomplete_items_are_skipped_witness :
  (Forall (fun x => is_dict x = true /\ complete_contact x = false)
     [Sim.nameless; Sim.numberless] /\
   ContactsConfigurator.configure Sim.backend (Sim.configurator Sim.incomplete_contacts)
     Sim.ready
   = (Sim.ready, [Logged Info "Configuring contacts..." [] None], Ok true)) /\
  (Forall (fun x => is_dict x = true /\ repeat_readable Sim.backend x
                    /\ complete_event x = false) [Sim.untitled; Sim.no_start] /\
   (exists t,
      CalendarConfigurator._add_specific_events Sim.backend
        (Sim.configurator Sim.incomplete_events) (PyList [Sim.untitled; Sim.no_start])
        Sim.ready = (Sim.ready, t, Ok tt) /\ calls t = []) /\
   exists w' t,
     CalendarConfigurator.configure Sim.backend (Sim.configurator Sim.incomplete_events)
       Sim.ready = (w', t, Ok true)).
Proof.
  destruct (incomplete_items_are_skipped Sim.backend (Sim.configurator Sim.incomplete_contacts))
    as (_ & C2 & _).
  destruct (incomplete_items_are_skipped Sim.backend (Sim.configurator Sim.incomplete_events))
    as (_ & _ & E1 & E2).
  assert (Hc : Forall (fun x => is_dict x = true /\ complete_contact x = false)
                 [Sim.nameless; Sim.numberless]).
  { repeat (apply Forall_cons; split; [split; reflexivity|]). apply Forall_nil. exact I. }
  assert (He : Forall (fun x => is_dict x = true /\ repeat_readable Sim.backend x
                                /\ complete_event x = false) [Sim.untitled; Sim.no_start]).
  { repeat (apply Forall_cons; split;
            [split; [reflexivity
                    | split; [apply sim_repeat_readable; reflexivity | reflexivity]]|]).
    apply Forall_nil. exact I. }
  split.
  - split; [exact Hc|].
    refine (C2 [Sim.nameless; Sim.numberless] Sim.ready _ eq_refl Hc). discriminate.
  - split; [exact He|]. split.
    + destruct (E1 [Sim.untitled; Sim.no_start] Sim.ready He) as (t & Hrun & Hcalls & _).
      exists t. split; [exact Hrun | exact Hcalls].
    + refine (E2 [Sim.untitled; Sim.no_start] Sim.ready Sim.ready _ _ eq_refl _ He).
      * discriminate.
      * vm_compute. reflexivity.
Defined.

(** * Further properties *)

(** ** core.py: counting *)

Lemma priority_NoDup : NoDup priority.
Proof. apply (bool_decide_unpack _). vm_compute. reflexivity. Qed.

(** Every key of the configuration is either one of the priority list or an
    unknown one, never both. *)
Lemma present_and_unknown_partition (cfg : gmap string pyval) :
  length (present cfg priority) + size (unknown_keys cfg) = size cfg.
Proof.
  assert (Hnd : NoDup (present cfg priority)).
  { unfold present. apply NoDup_filter. exact priority_NoDup. }
  rewrite <- (size_list_to_set (C:=gset string) _ Hnd).
  rewrite <- size_dom.
  assert (Hset : list_to_set (present cfg priority) = dom cfg ∩ list_to_set priority).
  { apply set_eq. intros k. unfold present.
    rewrite elem_of_list_to_set, list_elem_of_filter, elem_of_intersection,
      elem_of_dom, elem_of_list_to_set. reflexivity. }
  rewrite Hset. unfold unknown_keys.
  rewrite <- size_union.
  2:{ intros k. rewrite elem_of_intersection, elem_of_difference. tauto. }
  f_equal. apply set_eq. intros k.
  rewrite elem_of_union, elem_of_intersection, elem_of_difference.
  destruct (decide (k ∈ (list_to_set priority : gset string))); tauto.
Qed.

Lemma filter_not_true_length (l : list (string * outcome)) :
  length (filter is_true l) + length (filter (fun o => is_true o = false) l) = length l.
Proof.
  induction l as [|x l IH]; [reflexivity|].
  rewrite !filter_cons. destruct (is_true x) eqn:Hx; simpl.
  - destruct (decide (true = false)) as [H|_]; [discriminate H|]. simpl. lia.
  - destruct (decide (false = false)) as [_|H]; [|congruence]. simpl. lia.
Qed.

(** In a run of [initialize] whose environment came up, [total_count] ends as
    the number of top-level keys of the configuration, whatever the keys are
    and whatever the configurators did; [success_count] never exceeds it, and
    the difference is the number of configurators that did not return true. *)
Theorem attempted_is_the_number_of_keys {W : Type} (B : Backend W) (C : Classes W)
    (self : EmulatorInitializer.t) (w w0 : W) (t0 : list event) (env0 : object) :
  EmulatorInitializer.setup_environment B self w = (w0, t0, Ok env0) ->
  exists w' t b c,
    EmulatorInitializer.initialize_report B C self w = (w', t, Ok (b, Some c)) /\
    total_count c = size (EmulatorInitializer.config self) /\
    success_count c <= total_count c /\
    total_count c - success_count c
    = length (filter (fun o => is_true o = false) (outcomes t)).
Proof.
  intros Hsetup.
  destruct (initialize_report_summary B C self w w0 t0 env0 Hsetup)
    as (w' & t & c & Hr & Hi & Hv & Ho & Hu & Htot & Hsuc & _ & _).
  exists w', t, (success_count c =? total_count c)%nat, c.
  split; [exact Hr|]. clear Hr Hsetup.
  pose proof (present_and_unknown_partition (EmulatorInitializer.config self)) as Hpart.
  pose proof (filter_not_true_length (outcomes t)) as Hf.
  assert (Hlen : length (outcomes t)
                 = length (present (EmulatorInitializer.config self) priority)).
  { rewrite <- Ho. rewrite length_fmap. reflexivity. }
  repeat split; lia.
Qed.

(** On the simulated device: four keys, one configurator raising. *)
Lemma attempted_is_the_number_of_keys_witness :
  EmulatorInitializer.setup_environment Sim.backend (Sim.initializer Sim.config_mixed)
    Sim.ready
  = (Sim.ready,
     [Line Info SettingUp; RunAdbDevices;
      Line Info (AvailableDevices "List of devices attached emulator-5554 device");
      LoadAndSetupEnv; Line Info EnvironmentReady],
     Ok Sim.the_env) /\
  exists w' t b c,
    EmulatorInitializer.initialize_report Sim.backend
      (Sim.classes_with (Sim.raising TypeError) (Sim.answering true) (Sim.answering true))
      (Sim.initializer Sim.config_mixed) Sim.ready = (w', t, Ok (b, Some c)) /\
    total_count c = size Sim.config_mixed.
Proof.
  assert (H : EmulatorInitializer.setup_environment Sim.backend
                (Sim.initializer Sim.config_mixed) Sim.ready
              = (Sim.ready,
                 [Line Info SettingUp; RunAdbDevices;
                  Line Info (AvailableDevices "List of devices attached emulator-5554 device");
                  LoadAndSetupEnv; Line Info EnvironmentReady],
                 Ok Sim.the_env)) by (vm_compute; reflexivity).
  split; [exact H|].
  destruct (attempted_is_the_number_of_keys Sim.backend
              (Sim.classes_with (Sim.raising TypeError) (Sim.answering true)
                 (Sim.answering true)) _ _ _ _ _ H) as (w' & t & b & c & Hr & Htot & _).
  exists w', t, b, c. split; [exact Hr | exact Htot].
Defined.

(** In a run of [initialize] whose environment came up, the verdict is true
    exactly when the [configure()] of every configurator that ran returned
    true: one whose class or whose [configure()] raised, or whose
    [configure()] returned false, makes it false, and the keys outside the
    priority list never do.  How each configurator ended is read off the walk
    over the priority list, that is off what the class and its [configure()]
    did, not off the log. *)
Theorem verdict_iff_every_configurator_succeeded {W : Type} (B : Backend W) (C : Classes W)
    (self : EmulatorInitializer.t) (w w0 : W) (t0 : list event) (env0 : object) :
  EmulatorInitializer.setup_environment B self w = (w0, t0, Ok env0) ->
  exists w' t b,
    EmulatorInitializer.initialize B C self w = (w', t, Ok b) /\
    (b = true <->
     forall k o,
       (k, o) ∈ snd (walk (expected_order B C) env0 (EmulatorInitializer.config self) w0) ->
       o = ReturnedTrue).
Proof.
  intros Hsetup.
  destruct (initialize_report_summary B C self w w0 t0 env0 Hsetup)
    as (w' & t & c & Hr & Hi & Hv & Ho & Hu & Htot & Hsuc & _ & _).
  pose proof (initialize_report_walk B C self w w0 w' t0 t env0 _ Hsetup Hr) as Hwalk.
  exists w', t, (success_count c =? total_count c)%nat.
  split; [exact (initialize_of_report B C _ _ _ _ _ _ Hr)|]. clear Hr Hsetup.
  rewrite <- Hwalk. cbn [snd]. clear Hwalk.
  assert (Hlen : length (outcomes t)
                 = length (present (EmulatorInitializer.config self) priority)).
  { rewrite <- Ho. rewrite length_fmap. reflexivity. }
  rewrite Nat.eqb_eq. split.
  - intros Heq k o Hin.
    destruct o as [| |e]; [reflexivity| |];
      exfalso;
      match goal with
      | H : (k, ?o) ∈ outcomes t |- _ =>
          pose proof (length_filter_lt is_true (outcomes t) (k, o) H
                        ltac:(simpl; auto)) as Hlt
      end; lia.
  - intros Hall. rewrite filter_all_true in Hsuc; [lia|].
    intros [k o] Hin. rewrite (Hall k o Hin). reflexivity.
Qed.

(** On the simulated device: the date-time configurator raises, and the
    verdict is false. *)
Lemma verdict_iff_every_configurator_succeeded_witness :
  EmulatorInitializer.setup_environment Sim.backend (Sim.initializer Sim.config_mixed)
    Sim.ready
  = (Sim.ready,
     [Line Info SettingUp; RunAdbDevices;
      Line Info (AvailableDevices "List of devices attached emulator-5554 device");
      LoadAndSetupEnv; Line Info EnvironmentReady],
     Ok Sim.the_env) /\
  exists w' t,
    EmulatorInitializer.initialize Sim.backend
      (Sim.classes_with (Sim.raising TypeError) (Sim.answering true) (Sim.answering true))
      (Sim.initializer Sim.config_mixed) Sim.ready = (w', t, Ok false).
Proof.
  assert (H : EmulatorInitializer.setup_environment Sim.backend
                (Sim.initializer Sim.config_mixed) Sim.ready
              = (Sim.ready,
                 [Line Info SettingUp; RunAdbDevices;
                  Line Info (AvailableDevices "List of devices attached emulator-5554 device");
                  LoadAndSetupEnv; Line Info EnvironmentReady],
                 Ok Sim.the_env)) by (vm_compute; reflexivity).
  split; [exact H|].
  destruct (verdict_iff_every_configurator_succeeded Sim.backend
              (Sim.classes_with (Sim.raising TypeError) (Sim.answering true)
                 (Sim.answering true)) _ _ _ _ _ H) as (w' & t & b & Hrun & Hiff).
  exists w', t. destruct b; [|exact Hrun].
  destruct Hiff as [Hall _]. specialize (Hall eq_refl "datetime" (Raised TypeError)).
  exfalso. assert (Hd : Raised TypeError = ReturnedTrue); [|discriminate Hd].
  apply Hall. vm_compute. left.
Defined.

(** ** core.py: [setup_environment] *)

(** [setup_environment] gives up before it tries to connect in two cases: the
    listing of [adb devices] names no emulator while no serial of a physical
    device was given, which raises [RuntimeError]; or [adb devices] could not
    be run at all for a reason other than its exit status, whose exception is
    raised again.  In both the device is as [adb devices] left it and
    [load_and_setup_env] is not called. *)
Theorem setup_gives_up_before_connecting {W : Type} (B : Backend W)
    (self : EmulatorInitializer.t) (w w1 : W) (r : res string) :
  be_adb_devices B (EmulatorInitializer.adb_path self) w = (w1, r) ->
  match r with
  | Ok devices =>
      targets_emulator self = true /\ EmulatorInitializer.contains "emulator" devices = false
  | Raise e => e <> CalledProcessError
  end ->
  exists t,
    EmulatorInitializer.setup_environment B self w
    = (w1, t, Raise (match r with Ok _ => RuntimeError | Raise e => e end)) /\
    LoadAndSetupEnv ∉ t.
Proof.
  intros Hadb Hr.
  unfold EmulatorInitializer.setup_environment,
    EmulatorInitializer.try_except_called_process_error,
    EmulatorInitializer.external_call.
  run. rewrite Hadb. destruct r as [devices|e].
  - destruct Hr as [Hemu Hno]. unfold targets_emulator in Hemu.
    simpl. rewrite Hemu, Hno. simpl.
    eexists. split; [reflexivity|].
    intros Hin. repeat (apply elem_of_cons in Hin as [Hin|Hin]; [discriminate Hin|]).
    inversion Hin.
  - destruct e; try (exfalso; apply Hr; reflexivity); simpl;
      (eexists; split; [reflexivity|]);
      intros Hin; repeat (apply elem_of_cons in Hin as [Hin|Hin]; [discriminate Hin|]);
      inversion Hin.
Qed.

(** A telephone is attached and no serial is given. *)
Lemma setup_gives_up_before_connecting_witness :
  exists t,
    EmulatorInitializer.setup_environment Sim.backend
      (Lab.initializer_for None Lab.config_both) Lab.phone
    = (Lab.phone, t, Raise RuntimeError) /\
    LoadAndSetupEnv ∉ t.
Proof.
  apply (setup_gives_up_before_connecting Sim.backend
           (Lab.initializer_for None Lab.config_both) Lab.phone Lab.phone
           (Ok "List of devices attached R58M123ABC device")).
  - reflexivity.
  - split; vm_compute; reflexivity.
Defined.

(** In every other case [setup_environment] goes on to [load_and_setup_env]
    and ends as that call ends, with its environment or with its exception:
    when the listing names an emulator, when the serial of a physical device
    was given (whatever the listing says), and when [adb devices] exited with
    an error status, which is only logged. *)
Theorem setup_ends_as_the_connection_does {W : Type} (B : Backend W)
    (self : EmulatorInitializer.t) (w w1 w2 : W) (r : res string) (r2 : res object) :
  be_adb_devices B (EmulatorInitializer.adb_path self) w = (w1, r) ->
  match r with
  | Ok devices =>
      targets_emulator self = false \/ EmulatorInitializer.contains "emulator" devices = true
  | Raise e => e = CalledProcessError
  end ->
  be_load_and_setup_env B (EmulatorInitializer.console_port self)
    (EmulatorInitializer.emulator_setup self) (EmulatorInitializer.adb_path self)
    (EmulatorInitializer.grpc_port self) (EmulatorInitializer.device_serial self) w1
  = (w2, r2) ->
  exists t,
    EmulatorInitializer.setup_environment B self w = (w2, t, r2) /\
    LoadAndSetupEnv ∈ t.
Proof.
  intros Hadb Hr Hload.
  unfold EmulatorInitializer.setup_environment,
    EmulatorInitializer.try_except_called_process_error,
    EmulatorInitializer.external_call.
  run. rewrite Hadb.
  assert (Hin : forall pre post : list event, LoadAndSetupEnv ∈ pre ++ LoadAndSetupEnv :: post).
  { intros pre post. apply elem_of_app. right. apply elem_of_cons. left. reflexivity. }
  destruct r as [devices|e].
  - assert (Hc : (match EmulatorInitializer.device_serial self with
                  | None => true
                  | Some serial => String.eqb serial "" || String.prefix "emulator-" serial
                  end) && negb (EmulatorInitializer.contains "emulator" devices) = false).
    { unfold targets_emulator in Hr. destruct Hr as [Hr|Hr]; rewrite Hr; simpl;
        [reflexivity | apply andb_false_r]. }
    simpl. rewrite Hc. simpl. rewrite Hload.
    destruct r2 as [env0|e2]; simpl; eexists; (split; [reflexivity|]).
    + apply (Hin [_; _; _] [_]).
    + apply (Hin [_; _; _] [_; _]).
  - subst e. simpl. rewrite Hload.
    destruct r2 as [env0|e2]; simpl; eexists; (split; [reflexivity|]).
    + apply (Hin [_; _; _] [_]).
    + apply (Hin [_; _; _] [_; _]).
Qed.

(** The same telephone, now named by its serial. *)
Lemma setup_ends_as_the_connection_does_witness :
  exists t,
    EmulatorInitializer.setup_environment Sim.backend
      (Lab.initializer_for (Some "R58M123ABC") Lab.config_both) Lab.phone
    = (Lab.phone, t, Ok Sim.the_env) /\
    LoadAndSetupEnv ∈ t.
Proof.
  apply (setup_ends_as_the_connection_does Sim.backend
           (Lab.initializer_for (Some "R58M123ABC") Lab.config_both) Lab.phone Lab.phone
           Lab.phone (Ok "List of devices attached R58M123ABC device") (Ok Sim.the_env)).
  - reflexivity.
  - left. vm_compute. reflexivity.
  - reflexivity.
Defined.

(** ** core.py: the methods kept for backward compatibility *)

(** [configure_contacts] and [configure_calendar], unlike [initialize], catch
    nothing and do not set the environment up: called on an initializer whose
    [env] is still [None], each raises [RuntimeError] without logging or
    calling anything when the configuration holds its key, and each does
    nothing at all when the configuration lacks it. *)
Theorem legacy_methods_need_the_environment {W : Type} (B : Backend W)
    (self : EmulatorInitializer.t) (w : W) :
  (is_Some (EmulatorInitializer.config self !! "contacts") ->
   EmulatorInitializer.configure_contacts B self NoneObj w = (w, [], Raise RuntimeError)) /\
  (EmulatorInitializer.config self !! "contacts" = None ->
   EmulatorInitializer.configure_contacts B self NoneObj w = (w, [], Ok tt)) /\
  (is_Some (EmulatorInitializer.config self !! "calendar") ->
   EmulatorInitializer.configure_calendar B self NoneObj w = (w, [], Raise RuntimeError)) /\
  (EmulatorInitializer.config self !! "calendar" = None ->
   EmulatorInitializer.configure_calendar B self NoneObj w = (w, [], Ok tt)).
Proof.
  unfold EmulatorInitializer.configure_contacts, EmulatorInitializer.configure_calendar,
    EmulatorInitializer.configure_module.
  repeat split.
  - intros [fragment Hk]. rewrite Hk. cbn [subclass new configure]. steps.
    rewrite contacts_configure_none; reflexivity.
  - intros Hk. rewrite Hk. reflexivity.
  - intros [fragment Hk]. rewrite Hk. cbn [subclass new configure]. steps.
    rewrite calendar_configure_none; reflexivity.
  - intros Hk. rewrite Hk. reflexivity.
Qed.

(** A configuration with both keys, on an initializer that was never set up. *)
Lemma legacy_methods_need_the_environment_witness :
  EmulatorInitializer.configure_contacts Sim.backend
    (Sim.initializer Lab.config_both) NoneObj Sim.ready
  = (Sim.ready, [], Raise RuntimeError) /\
  EmulatorInitializer.configure_calendar Sim.backend
    (Sim.initializer Lab.config_both) NoneObj Sim.ready
  = (Sim.ready, [], Raise RuntimeError) /\
  EmulatorInitializer.configure_contacts Sim.backend
    (Sim.initializer Sim.config_unknown) NoneObj Sim.ready
  = (Sim.ready, [], Ok tt).
Proof.
  destruct (legacy_methods_need_the_environment Sim.backend
              (Sim.initializer Lab.config_both) Sim.ready) as (Hc & _ & Hk & _).
  destruct (legacy_methods_need_the_environment Sim.backend
              (Sim.initializer Sim.config_unknown) Sim.ready) as (_ & Hn & _ & _).
  split; [|split].
  - apply Hc. vm_compute. eauto.
  - apply Hk. vm_compute. eauto.
  - apply Hn. vm_compute. reflexivity.
Defined.

(** ** core.py and base_configurator.py together *)

(** A class of [order] that raises from every device state is reported as
    having raised, wherever it stands in [order]. *)
Lemma configure_in_order_raised {W : Type} (order : list (string * ConfiguratorClass W))
    (env0 : object) (cfg : gmap string pyval) (k : string) (cls : ConfiguratorClass W)
    (fragment : pyval) (e : exn) :
  (k, cls) ∈ order ->
  cfg !! k = Some fragment ->
  (forall w1, raises cls env0 fragment w1 e w1) ->
  forall c w w' t c',
    EmulatorInitializer.configure_in_order order env0 cfg c w = (w', t, Ok c') ->
    (k, Raised e) ∈ outcomes t.
Proof.
  intros Hin Hk Hraise.
  induction order as [|[k0 cls0] rest IH]; intros c w w' t c' Hrun; [inversion Hin|].
  cbn [EmulatorInitializer.configure_in_order] in Hrun.
  apply elem_of_cons in Hin as [Heq|Hin].
  - inversion Heq; subst k0 cls0. rewrite Hk in Hrun.
    destruct (run_configurator_raises k cls env0 fragment w e w (Hraise w))
      as (t1 & Hrun1 & _ & Ho1).
    steps_in Hrun. rewrite Hrun1 in Hrun.
    match type of Hrun with
    | context [EmulatorInitializer.configure_in_order rest env0 cfg ?c1 w] =>
        destruct (EmulatorInitializer.configure_in_order rest env0 cfg c1 w)
          as [[w2 t2] r2]
    end.
    inversion Hrun; subst. rewrite outcomes_app, Ho1.
    apply elem_of_app. left. apply elem_of_cons. left. reflexivity.
  - destruct (cfg !! k0) as [fragment0|].
    + destruct (run_configurator_spec k0 cls0 env0 fragment0 w)
        as (w1 & t1 & o & Hrun1 & _).
      steps_in Hrun. rewrite Hrun1 in Hrun.
      match type of Hrun with
      | context [EmulatorInitializer.configure_in_order rest env0 cfg ?c1 w1] =>
          destruct (EmulatorInitializer.configure_in_order rest env0 cfg c1 w1)
            as [[w2 t2] r2] eqn:Hrest
      end.
      inversion Hrun; subst. rewrite outcomes_app. apply elem_of_app. right.
      exact (IH Hin _ _ _ _ _ Hrest).
    + exact (IH Hin _ _ _ _ _ Hrun).
Qed.

(** When [load_and_setup_env] hands out an environment from which no controller
    can be had ([None], or an object whose [base_env] or [controller] is
    [None]), [initialize] still returns: each of the contacts and the calendar
    module that the configuration holds is reported as having raised
    [RuntimeError], and the verdict is false. *)
Theorem null_environment_fails_the_module {W : Type} (B : Backend W) (C : Classes W)
    (self : EmulatorInitializer.t) (w w0 : W) (t0 : list event) (env0 : object) (k : string) :
  EmulatorInitializer.setup_environment B self w = (w0, t0, Ok env0) ->
  BaseConfigurator.env_controller (BaseConfigurator.__init__ env0 PyNone) = NoneObj ->
  k = "contacts" \/ k = "calendar" ->
  is_Some (EmulatorInitializer.config self !! k) ->
  exists w' t,
    EmulatorInitializer.initialize B C self w = (w', t, Ok false) /\
    (k, Raised RuntimeError) ∈ outcomes t.
Proof.
  intros Hsetup Hnull Hkey [fragment Hk].
  destruct (initialize_report_spec B C self w w0 t0 env0 Hsetup)
    as (w' & tm & c1 & c & Hloop & Hr & _ & _ & Ho & _ & Htot & Hsuc).
  assert (Hctl : forall fragment0,
             BaseConfigurator.env_controller (BaseConfigurator.__init__ env0 fragment0)
             = NoneObj).
  { intros fragment0. revert Hnull. unfold BaseConfigurator.__init__.
    destruct (hasattr_base_env env0); [|destruct (hasattr_controller env0)]; exact id. }
  assert (Hin : (k, Raised RuntimeError) ∈ outcomes tm).
  { destruct Hkey as [-> | ->].
    - apply (configure_in_order_raised (EmulatorInitializer.configuration_order B C) env0
               (EmulatorInitializer.config self) "contacts"
               (subclass (ContactsConfigurator.configure B)) fragment RuntimeError)
        with (c := zero) (w := w0) (w' := w') (c' := c1); [| exact Hk | | exact Hloop].
      + unfold EmulatorInitializer.configuration_order.
        apply elem_of_cons. right. apply elem_of_cons. left. reflexivity.
      + intros w1. right. exists (BaseConfigurator.__init__ env0 fragment), w1, [], [].
        split; [reflexivity|]. apply contacts_configure_none. apply Hctl.
    - apply (configure_in_order_raised (EmulatorInitializer.configuration_order B C) env0
               (EmulatorInitializer.config self) "calendar"
               (subclass (CalendarConfigurator.configure B)) fragment RuntimeError)
        with (c := zero) (w := w0) (w' := w') (c' := c1); [| exact Hk | | exact Hloop].
      + unfold EmulatorInitializer.configuration_order.
        do 3 (apply elem_of_cons; right). apply elem_of_cons. left. reflexivity.
      + intros w1. right. exists (BaseConfigurator.__init__ env0 fragment), w1, [], [].
        split; [reflexivity|]. apply calendar_configure_none. apply Hctl. }
  clear Hloop.
  pose proof (length_filter_lt is_true (outcomes tm) (k, Raised RuntimeError) Hin
                ltac:(simpl; auto)) as Hlt.
  assert (Hlen : length (outcomes tm)
                 = length (present (EmulatorInitializer.config self) priority)).
  { rewrite <- Ho. rewrite length_fmap. reflexivity. }
  assert (Hb : (success_count c =? total_count c)%nat = false).
  { apply Nat.eqb_neq. lia. }
  rewrite Hb in Hr.
  eexists w', _. split; [exact (initialize_of_report B C _ _ _ _ _ _ Hr)|].
  destruct (setup_environment_quiet B self w w0 t0 _ Hsetup) as (_ & _ & So & _ & _).
  change (Line Info BeginInit :: (t0 ++ tm)
            ++ (map (fun k => Line Warning (NotInOrder k))
                  (be_iter_set B (unknown_keys (EmulatorInitializer.config self)))
                  ++ [final_line c]))
    with ([Line Info BeginInit] ++ (t0 ++ tm)
            ++ (map (fun k => Line Warning (NotInOrder k))
                  (be_iter_set B (unknown_keys (EmulatorInitializer.config self)))
                  ++ [final_line c])).
  rewrite !outcomes_app. rewrite So.
  apply elem_of_app. right. apply elem_of_app. left. exact Hin.
Qed.

(** The launcher hands out an environment without a controller; the
    configuration asks for contacts and calendar events. *)
Lemma null_environment_fails_the_module_witness :
  exists w' t,
    EmulatorInitializer.initialize Lab.hollow_backend Sim.classes
      (Sim.initializer Lab.config_both) Sim.ready = (w', t, Ok false) /\
    ("calendar", Raised RuntimeError) ∈ outcomes t.
Proof.
  apply (null_environment_fails_the_module Lab.hollow_backend Sim.classes
           (Sim.initializer Lab.config_both) Sim.ready Sim.ready
           [Line Info SettingUp; RunAdbDevices;
            Line Info (AvailableDevices "List of devices attached emulator-5554 device");
            LoadAndSetupEnv; Line Info EnvironmentReady]
           Lab.hollow_env "calendar").
  - vm_compute. reflexivity.
  - reflexivity.
  - right. reflexivity.
  - vm_compute. eauto.
Defined.

(** ** calendar_configurator.py: the application and the table *)

Lemma existsb_eqb_elem_of (p : string) (l : list string) :
  existsb (String.eqb p) l = true <-> p ∈ l.
Proof.
  rewrite existsb_exists. split.
  - intros (x & Hin & Heq). apply String.eqb_eq in Heq. subst x.
    apply list_elem_of_In. exact Hin.
  - intros Hin. exists p. split; [apply list_elem_of_In; exact Hin | apply String.eqb_refl].
Qed.

Lemma existsb_eqb_not_elem_of (p : string) (l : list string) :
  existsb (String.eqb p) l = false <-> p ∉ l.
Proof.
  rewrite <- existsb_eqb_elem_of. destruct (existsb (String.eqb p) l); split; intros H;
    try reflexivity; try discriminate H; try (exfalso; apply H; reflexivity).
  intros H'. discriminate H'.
Qed.

(** [_setup_calendar_app] never raises.  It answers false in one case only:
    the list of packages was obtained and does not hold the calendar
    application; nothing but that list was then asked of the device.  Whatever
    fails (the listing itself, the launch, the permissions) is logged and
    answered with true. *)
Theorem setup_calendar_app_answer {W : Type} (B : Backend W) (self : BaseConfigurator.t)
    (w : W) :
  exists w' t b,
    CalendarConfigurator._setup_calendar_app B self w = (w', t, Ok b) /\
    (b = false <->
     exists w1 all_packages,
       be_get_all_package_names B (BaseConfigurator.env_controller self) w
         = (w1, Ok all_packages) /\
       CalendarConfigurator.calendar_package ∉ all_packages) /\
    (b = false -> calls t = [get_all_package_names (BaseConfigurator.env_controller self)]).
Proof.
  unfold CalendarConfigurator._setup_calendar_app. steps.
  destruct (be_get_all_package_names B (BaseConfigurator.env_controller self) w)
    as [w1 [pk|e]] eqn:Hlist; steps.
  - destruct (existsb (String.eqb CalendarConfigurator.calendar_package) pk) eqn:Hin;
      cbn [negb]; steps.
    + assert (Hno : ~ exists (w2 : W) (all_packages : list string),
                 (w1, Ok pk) = (w2, Ok all_packages) /\
                 CalendarConfigurator.calendar_package ∉ all_packages).
      { intros (w2 & pk' & Heq & Hnot). inversion Heq; subst.
        apply existsb_eqb_elem_of in Hin. contradiction. }
      repeat match goal with
             | |- context [be_launch_app B ?a ?b ?c] =>
                 destruct (be_launch_app B a b c) as [? [[]|?]]; steps
             | |- context [be_set_root_if_needed B ?a ?b] =>
                 destruct (be_set_root_if_needed B a b) as [? [[]|?]]; steps
             | |- context [be_grant_permissions B ?a ?b ?c ?d] =>
                 destruct (be_grant_permissions B a b c d) as [? [[]|?]]; steps
             | |- context [be_press_home_button B ?a ?b] =>
                 destruct (be_press_home_button B a b) as [? [[]|?]]; steps
             end;
        (eexists _, _, true; split; [reflexivity|]; split;
         [split; [intros H; discriminate H | intros H; destruct (Hno H)]
         | intros H; discriminate H]).
    + eexists _, _, false. split; [reflexivity|]. split; [|intros _; reflexivity].
      split; [|reflexivity]. intros _. exists w1, pk. split; [reflexivity|].
      apply existsb_eqb_not_elem_of. exact Hin.
  - eexists _, _, true. split; [reflexivity|]. split; [|intros H; discriminate H].
    split; [intros H; discriminate H|].
    intros (w2 & pk & Heq & _). discriminate Heq.
Qed.

Lemma calendar_configure_app_missing {W : Type} (B : Backend W)
    (self : BaseConfigurator.t) (w w1 : W) (all_packages : list string) :
  BaseConfigurator.env_controller self <> NoneObj ->
  be_get_all_package_names B (BaseConfigurator.env_controller self) w
    = (w1, Ok all_packages) ->
  CalendarConfigurator.calendar_package ∉ all_packages ->
  exists t,
    CalendarConfigurator.configure B self w = (w1, t, Ok false) /\
    calls t = [get_all_package_names (BaseConfigurator.env_controller self)].
Proof.
  intros Hctl Hlist Hnot.
  unfold CalendarConfigurator.configure, CalendarConfigurator._setup_calendar_app.
  rewrite (ensure_environment_ok self Hctl). steps. rewrite Hlist. steps.
  apply existsb_eqb_not_elem_of in Hnot. rewrite Hnot. cbn [negb]. steps.
  eexists. split; reflexivity.
Qed.

(** On a device without the calendar application, [configure()] of the
    calendar configurator returns false without raising and without reading
    its configuration: the list of packages is all it asks of the device, so
    nothing is cleared and nothing is added. *)
Theorem calendar_without_the_application {W : Type} (B : Backend W)
    (self : BaseConfigurator.t) (w w1 : W) (all_packages : list string) :
  BaseConfigurator.env_controller self <> NoneObj ->
  be_get_all_package_names B (BaseConfigurator.env_controller self) w
    = (w1, Ok all_packages) ->
  CalendarConfigurator.calendar_package ∉ all_packages ->
  exists t,
    CalendarConfigurator.configure B self w = (w1, t, Ok false) /\
    calls t = [get_all_package_names (BaseConfigurator.env_controller self)].
Proof. exact (calendar_configure_app_missing B self w w1 all_packages). Qed.

(** The simulated device without the calendar application; the fragment asks
    for one event. *)
Lemma calendar_without_the_application_witness :
  exists t,
    CalendarConfigurator.configure Sim.backend (Sim.configurator Sim.standup_only)
      Sim.no_calendar = (Sim.no_calendar, t, Ok false) /\
    calls t = [get_all_package_names Sim.the_controller].
Proof.
  apply (calendar_without_the_application Sim.backend (Sim.configurator Sim.standup_only)
           Sim.no_calendar Sim.no_calendar ["com.android.contacts"]).
  - discriminate.
  - reflexivity.
  - apply existsb_eqb_not_elem_of. reflexivity.
Defined.

(** [_clear_calendar_events] never raises.  It first asks [clear_calendar_db];
    the direct [DELETE FROM events;] is issued exactly when that call raised:
    a failure to read the table back afterwards is only a warning. *)
Theorem clearing_falls_back_to_sql {W : Type} (B : Backend W) (self : BaseConfigurator.t)
    (w : W) :
  exists w' t,
    CalendarConfigurator._clear_calendar_events B self w = (w', t, Ok tt) /\
    head (calls t) = Some (clear_calendar_db (BaseConfigurator.env_controller self)) /\
    (execute_sql_command "DELETE FROM events;" (BaseConfigurator.env_controller self)
       ∈ calls t <->
     exists w1 e,
       be_clear_calendar_db B (BaseConfigurator.env_controller self) w = (w1, Raise e)).
Proof.
  unfold CalendarConfigurator._clear_calendar_events. steps.
  destruct (be_clear_calendar_db B (BaseConfigurator.env_controller self) w)
    as [w1 [[]|e]] eqn:Hclear; steps.
  - destruct (be_get_rows_from_remote_device B (BaseConfigurator.env_controller self) w1)
      as [w2 [rows|e]]; steps;
      (eexists _, _; split; [reflexivity|]; split; [reflexivity|]; split;
       [ intros Hin; simpl in Hin;
         repeat (apply elem_of_cons in Hin as [Hin|Hin]; [discriminate Hin|]);
         inversion Hin
       | intros (w3 & e' & Heq); discriminate Heq ]).
  - destruct (be_execute_sql_command B "DELETE FROM events;"
                (BaseConfigurator.env_controller self) w1) as [w2 [[]|e2]]; steps;
      (eexists _, _; split; [reflexivity|]; split; [reflexivity|]; split;
       [ intros _; exists w1, e; reflexivity
       | intros _; simpl; apply elem_of_cons; right; apply elem_of_cons; left; reflexivity ]).
Qed.

(** ** calendar_configurator.py: the insertion *)

(** The loop that lists the first events read back asks nothing of the device
    and logs at level info only, whether or not a time stamp stops it. *)
Lemma listing_loop_trace {W : Type} (B : Backend W) (evs : list CalendarEvent) (i : nat)
    (w : W) :
  exists t r,
    for_enumerate i evs (fun i ev =>
      lift_res (be_fromtimestamp B (start_ts ev));;
      log Info "  - Event" [PyInt (Z.of_nat (S i)); title ev]) w
    = (w, t, r) /\
    calls t = [] /\ Forall (fun e => is_level Error e = false) t.
Proof.
  steps. revert i. induction evs as [|ev evs IH]; intros i.
  - exists [], (Ok tt). repeat split. constructor.
  - cbn [for_enumerate]. steps.
    destruct (be_fromtimestamp B (start_ts ev)) as [[]|e]; steps.
    + destruct (IH (S i)) as (t2 & r2 & Hrun & Hcalls & Hlv). rewrite Hrun.
      eexists _, _. split; [reflexivity|]. split; [exact Hcalls|].
      constructor; [reflexivity | exact Hlv].
    + eexists _, _. split; [reflexivity|]. split; [reflexivity | constructor].
Qed.

(** When the device takes the batch, [insert_events] inserts it once and for
    all: one [add_events] with the whole list, one reading of the table, no
    retry event by event and no error in the log, even when the table cannot
    be read back or an event read back cannot be printed. *)
Theorem accepted_batch_is_inserted_once {W : Type} (B : Backend W)
    (self : BaseConfigurator.t) (evs : list CalendarEvent) (w w1 : W) :
  evs <> [] ->
  be_add_events B evs (BaseConfigurator.env_controller self) w = (w1, Ok tt) ->
  exists w' t,
    CalendarConfigurator.insert_events B self evs w = (w', t, Ok tt) /\
    calls t = [add_events evs (BaseConfigurator.env_controller self);
               get_rows_from_remote_device (BaseConfigurator.env_controller self)] /\
    Forall (fun e => is_level Error e = false) t.
Proof.
  intros Hne Hadd. destruct evs as [|ev0 evs']; [congruence|].
  unfold CalendarConfigurator.insert_events, CalendarConfigurator.verify_addition. steps.
  rewrite Hadd. steps.
  destruct (be_get_rows_from_remote_device B (BaseConfigurator.env_controller self) w1)
    as [w2 [rows|e]]; steps.
  - destruct (listing_loop_trace B (take 5 rows) 0 w2) as (t2 & r2 & Hrun & Hcalls & Hlv).
    steps_in Hrun. rewrite Hrun. destruct r2 as [[]|e]; steps.
    + destruct (5 <? length rows)%nat; steps;
        (eexists _, _; split; [reflexivity|]; split;
         [ simpl; rewrite !calls_app, Hcalls; reflexivity
         | repeat (constructor; [reflexivity|]);
           apply Forall_app; split; [exact Hlv | repeat constructor] ]).
    + eexists _, _. split; [reflexivity|]. split.
      * simpl. rewrite !calls_app, Hcalls. reflexivity.
      * repeat (constructor; [reflexivity|]).
        apply Forall_app. split; [exact Hlv | repeat constructor].
  - eexists _, _. split; [reflexivity|]. split; [reflexivity | repeat constructor].
Qed.

(** The stand-up on the simulated device. *)
Lemma accepted_batch_is_inserted_once_witness :
  exists w' t,
    CalendarConfigurator.insert_events Sim.backend (Sim.configurator Sim.standup_only)
      [Sim.standup_event] Sim.ready = (w', t, Ok tt) /\
    calls t = [add_events [Sim.standup_event] Sim.the_controller;
               get_rows_from_remote_device Sim.the_controller] /\
    Forall (fun e => is_level Error e = false) t.
Proof.
  apply (accepted_batch_is_inserted_once Sim.backend (Sim.configurator Sim.standup_only)
           [Sim.standup_event] Sim.ready
           (Sim.set_events [Sim.standup_event] Sim.ready)).
  - discriminate.
  - reflexivity.
Defined.

(** ** calendar_configurator.py: one event *)

(** The log line that closes the preparation of an event (line 186) prints the
    start as a date, after the event was appended: an event whose start cannot
    be printed is reported as failed and is inserted all the same. *)
Theorem unprintable_start_is_reported_and_kept {W : Type} (B : Backend W) (i : nat)
    (d : list (string * pyval)) (acc : list CalendarEvent) (w w1 w2 : W)
    (tr tb : list mod_event) (rep : Z * Z) (ev : CalendarEvent) (e : exn) :
  complete_event (PyDict d) = true ->
  CalendarConfigurator.repeat_settings B (field (PyDict d) "repeat_interval" (PyInt 0))
    (field (PyDict d) "day_of_week" (PyInt 0)) w = (w1, tr, Ok rep) ->
  CalendarConfigurator.build_event B i
    (field (PyDict d) "title" (PyStr "")) (field (PyDict d) "description" (PyStr ""))
    (field (PyDict d) "location" (PyStr "")) (field (PyDict d) "start_time" PyNone)
    (field (PyDict d) "end_time" PyNone) (field (PyDict d) "duration_mins" (PyInt 30))
    rep w1 = (w2, tb, Ok ev) ->
  be_fromtimestamp B (start_ts ev) = Raise e ->
  CalendarConfigurator.add_one_event B i (PyDict d) acc w
  = (w2,
     tr ++ tb ++ [Logged Error "Failed to create calendar event"
                    [field (PyDict d) "title" (PyStr "")] (Some e)],
     Ok (acc ++ [ev])).
Proof.
  intros Hc Hrep Hb Hprint.
  rewrite add_one_event_dict, Hrep, Hc, Hb, Hprint. reflexivity.
Qed.

(** An event far in the future, on the simulated device. *)
Lemma unprintable_start_is_reported_and_kept_witness :
  exists t,
    CalendarConfigurator.add_one_event Sim.backend 0 (PyDict Lab.far_future) [] Sim.ready
    = (Sim.ready, t, Ok [Lab.far_future_event]).
Proof.
  eexists.
  refine (unprintable_start_is_reported_and_kept Sim.backend 0 Lab.far_future []
            Sim.ready Sim.ready Sim.ready _ _ (0, 0)%Z Lab.far_future_event ValueError
            _ _ _ _); reflexivity.
Defined.

(** An end time that is given decides the end of the event: the duration is
    not read, whatever it holds, and the end is not compared with the start,
    so that an event may end before it starts. *)
Theorem explicit_end_time_wins {W : Type} (B : Backend W) (i : nat)
    (title0 description0 location0 start_time end_time duration_mins : pyval)
    (rep : Z * Z) (w : W) (n m : Z) :
  truthy end_time = true ->
  resolves B start_time n ->
  resolves B end_time m ->
  exists t s e,
    CalendarConfigurator.build_event B i title0 description0 location0 start_time end_time
      duration_mins rep w
    = (w, t,
       Ok {| start_ts := s; end_ts := e; title := title0;
             description := description0; location := location0;
             repeat_interval := fst rep; repeat_rule := snd rep |}) /\
    as_int s = Some n /\ as_int e = Some m /\ quiet t.
Proof.
  intros Hend Hstart Hstop. unfold CalendarConfigurator.build_event. rewrite Hend.
  destruct (to_timestamp_resolved B "start time" i title0 start_time n w Hstart)
    as (s & Hs & Hn).
  destruct (to_timestamp_resolved B "end time" i title0 end_time m w Hstop)
    as (e & He & Hm).
  steps. rewrite Hs. steps. rewrite He. steps.
  exists [Logged Info "start time" [PyInt (Z.of_nat (S i)); title0; start_time] None;
          Logged Info "end time" [PyInt (Z.of_nat (S i)); title0; end_time] None], s, e.
  split; [reflexivity|]. split; [exact Hn|]. split; [exact Hm|].
  repeat constructor.
Qed.

(** An event from ten to nine, with a duration that is not a number. *)
Lemma explicit_end_time_wins_witness :
  exists t s e,
    CalendarConfigurator.build_event Sim.backend 0 (PyStr "Backwards") (PyStr "") (PyStr "")
      (PyStr "2024-01-01T10:00:00") (PyStr "2024-01-01T09:00:00") (PyStr "an hour")
      (0, 0)%Z Sim.ready
    = (Sim.ready, t,
       Ok {| start_ts := s; end_ts := e; title := PyStr "Backwards";
             description := PyStr ""; location := PyStr "";
             repeat_interval := 0; repeat_rule := 0 |}) /\
    as_int s = Some 1704103200%Z /\ as_int e = Some 1704099600%Z /\ quiet t.
Proof.
  apply (explicit_end_time_wins Sim.backend 0 (PyStr "Backwards") (PyStr "") (PyStr "")
           (PyStr "2024-01-01T10:00:00") (PyStr "2024-01-01T09:00:00") (PyStr "an hour")
           (0, 0)%Z Sim.ready 1704103200 1704099600); reflexivity.
Defined.



(** ** calendar_configurator.py: random events *)

Lemma random_events_by_comparison {W : Type} (B : Backend W) (self : BaseConfigurator.t)
    (d : list (string * pyval)) (w : W) :
  BaseConfigurator.config self = PyDict d ->
  let count := field (PyDict d) "random_event_count" (PyInt 10) in
  match gt_int count 0 with
  | Ok true =>
      exists w' t,
        CalendarConfigurator._add_random_events B self w = (w', t, Ok tt) /\
        calls t = [add_random_events (BaseConfigurator.env_controller self) count]
  | Ok false => CalendarConfigurator._add_random_events B self w = (w, [], Ok tt)
  | Raise e => CalendarConfigurator._add_random_events B self w = (w, [], Raise e)
  end.
Proof.
  intros Hcfg count. unfold CalendarConfigurator._add_random_events.
  rewrite Hcfg. unfold get. steps.
  change (default (PyInt 10) (dict_lookup "random_event_count" d)) with count.
  destruct (gt_int count 0) as [[|]|e]; steps; try reflexivity.
  destruct (be_add_random_events B (BaseConfigurator.env_controller self) count w)
    as [w1 [[]|e]]; steps; eexists _, _; split; reflexivity.
Qed.

(** [_add_random_events] asks for as many random events as
    [random_event_count] says, ten when the fragment does not say: for a
    positive number it calls [add_random_events] once and returns whatever the
    call did; for zero, a negative number or a NaN it does nothing; and for a
    count that is not a number the comparison of line 232 raises [TypeError]
    before anything is asked of the device. *)
Theorem random_events_follow_the_count {W : Type} (B : Backend W) (self : BaseConfigurator.t)
    (d : list (string * pyval)) (w : W) :
  BaseConfigurator.config self = PyDict d ->
  let count := field (PyDict d) "random_event_count" (PyInt 10) in
  let asks :=
    exists w' t,
      CalendarConfigurator._add_random_events B self w = (w', t, Ok tt) /\
      calls t = [add_random_events (BaseConfigurator.env_controller self) count] in
  let nothing := CalendarConfigurator._add_random_events B self w = (w, [], Ok tt) in
  match as_int count, count with
  | Some n, _ => if (0 <? n)%Z then asks else nothing
  | None, PyFloat x =>
      match compare_int_float 0 x with Some Lt => asks | _ => nothing end
  | None, _ => CalendarConfigurator._add_random_events B self w = (w, [], Raise TypeError)
  end.
Proof.
  intros Hcfg count asks nothing.
  pose proof (random_events_by_comparison B self d w Hcfg) as H.
  cbv zeta in H. fold count in H. unfold asks, nothing. clearbody count.
  destruct count as [|b|n|s|l|d'|x]; cbn [gt_int as_int] in H |- *; try exact H.
  destruct (compare_int_float 0 x) as [[| |]|]; exact H.
Qed.

(** A fragment that names no count: ten events are asked for. *)
Lemma random_events_follow_the_count_witness :
  exists w' t,
    CalendarConfigurator._add_random_events Sim.backend
      (Sim.configurator (PyDict [("add_random_events", PyBool true)])) Sim.ready
    = (w', t, Ok tt) /\
    calls t = [add_random_events Sim.the_controller (PyInt 10)].
Proof.
  apply (random_events_follow_the_count Sim.backend
           (Sim.configurator (PyDict [("add_random_events", PyBool true)]))
           [("add_random_events", PyBool true)] Sim.ready).
  reflexivity.
Defined.

(** ** contacts_configurator.py: the verdict *)

(** On a fragment whose contacts are dicts, [configure()] of the contacts
    configurator returns false in one case only: the fragment asks to clear
    the contacts and [clear_contacts] raises; no contact is then added.  A
    contact that the device refuses and a verification that fails never
    change the verdict. *)
Theorem contacts_verdict {W : Type} (B : Backend W) (self : BaseConfigurator.t)
    (d : list (string * pyval)) (items : list pyval) (w : W) :
  BaseConfigurator.env_controller self <> NoneObj ->
  BaseConfigurator.config self = PyDict d ->
  iter (field (PyDict d) "add_contacts" (PyList [])) = Ok items ->
  Forall (fun x => is_dict x = true) items ->
  exists w' t b,
    ContactsConfigurator.configure B self w = (w', t, Ok b) /\
    (b = false <->
     truthy (field (PyDict d) "clear_contacts" (PyBool false)) = true /\
     exists w1 e,
       be_clear_contacts B (BaseConfigurator.env_controller self) w = (w1, Raise e)) /\
    (b = false -> calls t = [clear_contacts (BaseConfigurator.env_controller self)]).
Proof.
  intros Hctl Hcfg Hiter Hitems.
  destruct (truthy (field (PyDict d) "clear_contacts" (PyBool false))) eqn:Hclear.
  - unfold ContactsConfigurator.configure, ContactsConfigurator._add_contacts.
    rewrite (ensure_environment_ok self Hctl), Hcfg.
    unfold field in Hclear, Hiter. unfold get, get_or_float_default. steps.
    rewrite Hclear. steps.
    destruct (be_clear_contacts B (BaseConfigurator.env_controller self) w)
      as [w1 [[]|e]] eqn:Hc; steps.
    + rewrite Hiter. steps.
      destruct (add_contacts_loop B self (dict_lookup "ui_delay_sec" d) items w1 Hitems)
        as (w2 & t2 & Hrun & _).
      rewrite Hrun. steps.
      destruct (truthy (default (PyBool false) (dict_lookup "verify_contacts" d))); steps.
      * destruct (verify_contacts_returns B self w2) as (w3 & t3 & [] & Hv & _). rewrite Hv.
        eexists _, _, true. split; [reflexivity|]. split; [|intros H; discriminate H].
        split; [intros H; discriminate H|].
        intros (_ & w4 & e & Heq). discriminate Heq.
      * eexists _, _, true. split; [reflexivity|]. split; [|intros H; discriminate H].
        split; [intros H; discriminate H|].
        intros (_ & w4 & e & Heq). discriminate Heq.
    + eexists _, _, false. split; [reflexivity|]. split; [|intros _; reflexivity].
      split; [|reflexivity]. intros _. split; [reflexivity|]. exists w1, e. reflexivity.
  - destruct (contacts_configure_true B self d items w Hctl Hcfg Hclear Hiter Hitems)
      as (w' & t & Hrun).
    exists w', t, true. split; [exact Hrun|]. split; [|intros H; discriminate H].
    split; [intros H; discriminate H|]. intros (H & _). discriminate H.
Qed.

(** The table is cleared, Mallory is refused, the verdict is true. *)
Lemma contacts_verdict_witness :
  exists w' t,
    ContactsConfigurator.configure Sim.backend
      (Sim.configurator (PyDict Lab.clear_add_verify)) Sim.ready = (w', t, Ok true).
Proof.
  destruct (contacts_verdict Sim.backend (Sim.configurator (PyDict Lab.clear_add_verify))
              Lab.clear_add_verify [Sim.alice; Sim.mallory; Sim.bob] Sim.ready)
    as (w' & t & b & Hrun & Hb & _).
  - discriminate.
  - reflexivity.
  - reflexivity.
  - repeat constructor.
  - exists w', t. destruct b; [exact Hrun|].
    destruct Hb as [Hb _]. destruct (Hb eq_refl) as (_ & w1 & e & Heq).
    discriminate Heq.
Defined.

(** ** utils/helpers.py: the list of packages *)

Section TextFacts.
Import Text.

Lemma lstrip_blank_app (pad s : string) :
  blank pad = true -> lstrip (pad +:+ s) = lstrip s.
Proof.
  induction pad as [|c pad IH]; simpl; intros H; [reflexivity|].
  apply andb_prop in H as [Hc Hpad]. rewrite Hc. auto.
Qed.

Lemma rstrip_blank (pad : string) : blank pad = true -> rstrip pad = "".
Proof.
  induction pad as [|c pad IH]; simpl; intros H; [reflexivity|].
  apply andb_prop in H as [Hc Hpad]. rewrite (IH Hpad), Hc. reflexivity.
Qed.

Lemma rstrip_app_blank (s pad : string) :
  blank pad = true -> rstrip (s +:+ pad) = rstrip s.
Proof.
  intros H. induction s as [|c s IH]; simpl; [apply rstrip_blank; exact H|].
  rewrite IH. reflexivity.
Qed.

Lemma rstrip_no_space (s : string) : no_space s = true -> rstrip s = s.
Proof.
  induction s as [|c s IH]; simpl; intros H; [reflexivity|].
  apply andb_prop in H as [Hc Hs]. rewrite (IH Hs).
  destruct s; [|reflexivity]. apply negb_true_iff in Hc. rewrite Hc. reflexivity.
Qed.

Lemma lstrip_no_space (s : string) : no_space s = true -> lstrip s = s.
Proof.
  destruct s as [|c s]; simpl; intros H; [reflexivity|].
  apply andb_prop in H as [Hc _]. apply negb_true_iff in Hc. rewrite Hc. reflexivity.
Qed.

Lemma strip_no_space (s : string) : no_space s = true -> strip s = s.
Proof.
  intros H. unfold strip. rewrite (lstrip_no_space s H). apply rstrip_no_space. exact H.
Qed.

(** A text that [rstrip] leaves alone and that is not empty keeps what stands
    before it. *)
Lemma rstrip_app_kept (a b : string) :
  rstrip b = b -> b <> "" -> rstrip (a +:+ b) = a +:+ b.
Proof.
  intros Hb Hne. induction a as [|c a IH]; [exact Hb|].
  change (String c a +:+ b) with (String c (a +:+ b)). cbn [rstrip].
  rewrite IH. destruct (a +:+ b) eqn:Hab; [|reflexivity].
  destruct a; [contradiction | discriminate Hab].
Qed.

Lemma not_space_not_newline (c : ascii) : is_space c = false -> Ascii.eqb c newline = false.
Proof.
  intros H. destruct (Ascii.eqb c newline) eqn:He; [|reflexivity].
  apply Ascii.eqb_eq in He. subst c. discriminate H.
Qed.

Lemma split_no_space (s : string) : no_space s = true -> split newline s = [s].
Proof.
  induction s as [|c s IH]; simpl; intros H; [reflexivity|].
  apply andb_prop in H as [Hc Hs]. apply negb_true_iff in Hc.
  rewrite (not_space_not_newline c Hc), (IH Hs). reflexivity.
Qed.

Lemma split_app_newline (a b : string) :
  no_space a = true -> split newline (a +:+ String newline b) = a :: split newline b.
Proof.
  induction a as [|c a IH]; intros H.
  - reflexivity.
  - simpl in H. apply andb_prop in H as [Hc Ha]. apply negb_true_iff in Hc.
    change (String c a +:+ String newline b) with (String c (a +:+ String newline b)).
    cbn [split]. rewrite (not_space_not_newline c Hc), (IH Ha). reflexivity.
Qed.

Lemma no_space_package_line (name : string) :
  no_space name = true -> no_space ("package:" +:+ name) = true.
Proof. intros H. simpl. exact H. Qed.

(** The listing of a list of names that is not empty: a text that starts with
    the [p] of [package:], that [rstrip] leaves alone, and whose lines are the
    names behind [package:]. *)
Lemma listing_shape (name : string) (names : list string) :
  Forall (fun n => no_space n = true) (name :: names) ->
  exists rest,
    Helpers.listing (name :: names) = String "p" rest /\
    rstrip (Helpers.listing (name :: names)) = Helpers.listing (name :: names) /\
    split newline (Helpers.listing (name :: names))
    = map (fun n => "package:" +:+ n) (name :: names).
Proof.
  revert name. induction names as [|name' names IH]; intros name H.
  - inversion H as [|? ? Hn _]; subst. eexists. split; [reflexivity|]. split.
    + apply rstrip_no_space. apply no_space_package_line. exact Hn.
    + apply split_no_space. apply no_space_package_line. exact Hn.
  - inversion H as [|? ? Hn Hrest]; subst.
    destruct (IH name' Hrest) as (rest & Hp & Hr & Hs).
    change (Helpers.listing (name :: name' :: names))
      with (("package:" +:+ name) +:+ String newline (Helpers.listing (name' :: names))).
    eexists. split; [reflexivity|]. split.
    + apply rstrip_app_kept.
      * cbn [rstrip]. rewrite Hr, Hp. reflexivity.
      * discriminate.
    + rewrite split_app_newline by (apply no_space_package_line; exact Hn).
      rewrite Hs. reflexivity.
Qed.

Lemma parse_package_lines (names : list string) :
  Forall (fun n => no_space n = true) names ->
  map (fun line => strip (drop 8 line))
    (List.filter (String.prefix "package:") (map (fun n => "package:" +:+ n) names))
  = names.
Proof.
  induction 1 as [|name names Hn _ IH]; [reflexivity|].
  cbn [map].
  assert (Hp : String.prefix "package:" ("package:" +:+ name) = true).
  { simpl. destruct name; reflexivity. }
  cbn [List.filter]. rewrite Hp. cbn [map]. rewrite IH. f_equal.
  change (drop 8 ("package:" +:+ name)) with name. apply strip_no_space. exact Hn.
Qed.
End TextFacts.

(** Reading back what [pm list packages] prints gives the names of the
    packages, in order: whatever white space stands before and after the
    listing (the new line that ends it, for one), provided the names hold no
    white space themselves. *)
Theorem package_listing_round_trip (names : list string) (before after : string) :
  Forall (fun n => Text.no_space n = true) names ->
  Text.blank before = true ->
  Text.blank after = true ->
  Helpers.parse_packages (before +:+ Helpers.listing names +:+ after) = names.
Proof.
  intros Hnames Hb Ha. unfold Helpers.parse_packages, Text.strip.
  rewrite lstrip_blank_app by exact Hb.
  destruct names as [|name names].
  - change (Helpers.listing [] +:+ after) with after.
    assert (Hl : Text.lstrip after = "").
    { clear Hb. induction after as [|c s IH]; [reflexivity|].
      simpl in Ha. apply andb_prop in Ha as [Hc Hs]. simpl. rewrite Hc. auto. }
    rewrite Hl. reflexivity.
  - destruct (listing_shape name names Hnames) as (rest & Hp & Hr & Hs).
    assert (Hl : Text.lstrip (Helpers.listing (name :: names) +:+ after)
                 = Helpers.listing (name :: names) +:+ after).
    { rewrite Hp. reflexivity. }
    rewrite Hl, (rstrip_app_blank _ _ Ha), Hr, Hs.
    apply parse_package_lines. exact Hnames.
Qed.

(** Two packages, listed after a blank line and closed by a new line. *)
Lemma package_listing_round_trip_witness :
  Helpers.parse_packages
    (String Text.newline "" +:+ Helpers.listing ["com.android.contacts"; "org.tasks"]
       +:+ String Text.newline "")
  = ["com.android.contacts"; "org.tasks"].
Proof.
  apply (package_listing_round_trip ["com.android.contacts"; "org.tasks"]
           (String Text.newline "") (String Text.newline "")).
  - repeat constructor.
  - reflexivity.
  - reflexivity.
Defined.

(** ** utils/helpers.py: [ensure_app_ready] *)

Lemma requests_app (t1 t2 : list Helpers.helper_event) :
  Helpers.requests (t1 ++ t2) = Helpers.requests t1 ++ Helpers.requests t2.
Proof. apply omap_app. Qed.

(** [get_all_package_names] never raises: it gives the names read from the
    listing, or no name at all when the request failed. *)
Lemma get_all_package_names_answer {W : Type} (A : Helpers.Adb W) (controller : object)
    (w : W) :
  exists w1 t,
    Helpers.get_all_package_names A controller w
    = (w1, t,
       Ok match Helpers.adb_issue_generic_request A Helpers.pm_list_packages controller w with
          | (_, Ok output) => Helpers.parse_packages output
          | (_, Raise _) => []
          end) /\
    fst (Helpers.adb_issue_generic_request A Helpers.pm_list_packages controller w) = w1 /\
    Helpers.requests t = [Helpers.issue_generic_request Helpers.pm_list_packages controller].
Proof.
  unfold Helpers.get_all_package_names, Helpers.requested. steps.
  change ["shell"; "pm"; "list"; "packages"] with Helpers.pm_list_packages.
  destruct (Helpers.adb_issue_generic_request A Helpers.pm_list_packages controller w)
    as [w1 [output|e]]; steps; eexists _, _; repeat split; reflexivity.
Qed.

Lemma set_root_if_needed_answer {W : Type} (A : Helpers.Adb W) (controller : object)
    (w : W) :
  exists w1 t,
    Helpers.set_root_if_needed A controller w = (w1, t, Ok tt) /\
    Helpers.requests t = [Helpers.issue_generic_request ["root"] controller].
Proof.
  unfold Helpers.set_root_if_needed, Helpers.requested. steps.
  destruct (Helpers.adb_issue_generic_request A ["root"] controller w)
    as [w1 [output|e]]; steps; eexists _, _; repeat split; reflexivity.
Qed.

(** [ensure_app_ready] never raises, whatever the device does.  It answers
    true exactly when [APP_INFO] names a package for the key and the listing of
    packages was obtained and holds it: a failure to gain root or to launch the
    application does not change the answer.  Unless it answers true, no
    application is launched. *)
Theorem ensure_app_ready_answer {W : Type} (A : Helpers.Adb W) (app_key : string)
    (controller : object) (w : W) :
  exists w' t b,
    Helpers.ensure_app_ready A app_key controller w = (w', t, Ok b) /\
    (b = true <->
     exists package w1 output,
       Helpers.package_of app_key = Some package /\ package <> "" /\
       Helpers.adb_issue_generic_request A Helpers.pm_list_packages controller w
         = (w1, Ok output) /\
       package ∈ Helpers.parse_packages output) /\
    (b = false ->
     forall app, Helpers.launch_app app controller ∉ Helpers.requests t).
Proof.
  unfold Helpers.ensure_app_ready.
  change (Helpers.dict_get "package_name" (default [] (Helpers.dict_get app_key Helpers.APP_INFO)))
    with (Helpers.package_of app_key).
  generalize (Helpers.dict_get "display_name"
                (default [] (Helpers.dict_get app_key Helpers.APP_INFO))).
  intros app_name.
  destruct (Helpers.package_of app_key) as [package|] eqn:Hp.
  2:{ simpl. steps. eexists _, _, false. split; [reflexivity|]. split.
      - split; [intros H; discriminate H|]. intros (p & _ & _ & H & _). discriminate H.
      - intros _ app Hin. simpl in Hin. inversion Hin. }
  destruct (String.eqb package "") eqn:Hempty.
  { simpl. rewrite Hempty. simpl. steps. eexists _, _, false. split; [reflexivity|]. split.
    - split; [intros H; discriminate H|].
      intros (p & _ & _ & H & Hne & _). inversion H; subst.
      apply String.eqb_eq in Hempty. contradiction.
    - intros _ app Hin. simpl in Hin. inversion Hin. }
  assert (Hne : package <> "").
  { intros ->. discriminate Hempty. }
  cbn [Helpers.given default from_option id]. rewrite Hempty. cbn [negb]. steps.
  destruct (get_all_package_names_answer A controller w) as (w1 & t1 & Hlist & Hw1 & Hreq1).
  rewrite Hlist. steps.
  destruct (Helpers.adb_issue_generic_request A Helpers.pm_list_packages controller w)
    as [w1' [output|e]] eqn:Hadb; simpl in Hw1; subst w1'.
  - destruct (existsb (String.eqb package) (Helpers.parse_packages output)) eqn:Hin;
      cbn [negb]; steps.
    + apply existsb_eqb_elem_of in Hin.
      destruct (set_root_if_needed_answer A controller w1) as (w2 & t2 & Hroot & Hreq2).
      rewrite Hroot. steps. cbn [negb]. steps.
      assert (Hyes : exists (p : string) (w3 : W) (output0 : string),
                 Some package = Some p /\ p <> "" /\
                 (w1, Ok output) = (w3, Ok output0) /\ p ∈ Helpers.parse_packages output0).
      { exists package, w1, output. repeat split; assumption. }
      destruct (Helpers.given app_name); steps.
      * unfold Helpers.requested. steps.
        destruct (Helpers.adb_launch_app A (default "" app_name) controller w2)
          as [w3 [[]|e]]; steps.
        -- destruct (Helpers.adb_press_home_button A controller w3) as [w4 [[]|e]]; steps;
             (eexists _, _, true; split; [reflexivity|]; split;
              [split; [intros _; exact Hyes | reflexivity] | intros H; discriminate H]).
        -- eexists _, _, true. split; [reflexivity|]. split;
             [split; [intros _; exact Hyes | reflexivity] | intros H; discriminate H].
      * eexists _, _, true. split; [reflexivity|]. split;
          [split; [intros _; exact Hyes | reflexivity] | intros H; discriminate H].
    + apply existsb_eqb_not_elem_of in Hin.
      eexists _, _, false. split; [reflexivity|]. split.
      * split; [intros H; discriminate H|].
        intros (p & w3 & output0 & H1 & _ & H2 & H3). inversion H1; inversion H2; subst.
        contradiction.
      * intros _ app Hl. rewrite !requests_app, Hreq1 in Hl. simpl in Hl.
        apply elem_of_cons in Hl as [Hl|Hl]; [discriminate Hl | inversion Hl].
  - simpl. steps. eexists _, _, false. split; [reflexivity|]. split.
    + split; [intros H; discriminate H|].
      intros (p & w3 & output0 & _ & _ & H2 & _). discriminate H2.
    + intros _ app Hl. rewrite !requests_app, Hreq1 in Hl. simpl in Hl.
      apply elem_of_cons in Hl as [Hl|Hl]; [discriminate Hl | inversion Hl].
Qed.

Lemma packaged_keys_listed :
  Helpers.packaged_keys
  = ["datetime"; "contacts"; "sms"; "calendar"; "recipe"; "tasks"; "expense"; "music";
     "joplin"; "osmand"; "audio_recorder"; "markor"; "opentracks"].
Proof. reflexivity. Qed.

(** [_ensure_app_ready] answers false, with one error line and without asking
    anything of the device, for every key for which [APP_INFO] names no
    package: the keys it does not hold, and also [gallery] and [files], which
    it holds with a path only. *)
Theorem apps_without_a_package_are_never_ready {W : Type} (A : Helpers.Adb W)
    (self : BaseConfigurator.t) (app_key : string) (w : W) :
  app_key ∉ Helpers.packaged_keys ->
  _ensure_app_ready A self app_key w
  = (w, [Helpers.Noted Error "Unknown app key" [app_key] None], Ok false).
Proof.
  intros Hnot. rewrite packaged_keys_listed in Hnot.
  assert (Hp : Helpers.given (Helpers.package_of app_key) = false).
  { unfold Helpers.package_of, Helpers.APP_INFO. cbn [Helpers.dict_get].
    repeat match goal with
           | |- context [String.eqb app_key ?k] =>
               destruct (String.eqb app_key k) eqn:?He;
               [ apply String.eqb_eq in He; subst app_key;
                 first [ reflexivity
                       | exfalso; apply Hnot; apply (bool_decide_unpack _); vm_compute;
                         reflexivity ]
               | clear He ]
           end.
    reflexivity. }
  unfold _ensure_app_ready, Helpers.ensure_app_ready.
  change (Helpers.dict_get "package_name" (default [] (Helpers.dict_get app_key Helpers.APP_INFO)))
    with (Helpers.package_of app_key).
  rewrite Hp. reflexivity.
Qed.

(** The gallery, on a device that would answer. *)
Lemma apps_without_a_package_are_never_ready_witness :
  _ensure_app_ready Lab.adb (Sim.configurator (PyDict [])) "gallery" Sim.ready
  = (Sim.ready, [Helpers.Noted Error "Unknown app key" ["gallery"] None], Ok false) /\
  _ensure_app_ready Lab.adb (Sim.configurator (PyDict [])) "files" Sim.ready
  = (Sim.ready, [Helpers.Noted Error "Unknown app key" ["files"] None], Ok false).
Proof.
  split.
  - apply (apps_without_a_package_are_never_ready Lab.adb (Sim.configurator (PyDict []))
             "gallery" Sim.ready).
    apply (bool_decide_unpack _). vm_compute. reflexivity.
  - apply (apps_without_a_package_are_never_ready Lab.adb (Sim.configurator (PyDict []))
             "files" Sim.ready).
    apply (bool_decide_unpack _). vm_compute. reflexivity.
Defined.

(** ** utils/helpers.py and calendar_configurator.py together *)

(** With the helpers installed in [adb_utils], the calendar configurator
    cannot tell a device that does not answer from one without the
    application: when the listing of packages fails, and when it succeeds
    without the calendar package in it, [configure()] returns false and asks
    the device for nothing else.  The handler of [_setup_calendar_app], which
    would continue, is never reached by a failure of the listing. *)
Theorem unlisted_calendar_fails_the_module {W : Type} (A : Helpers.Adb W) (B : Backend W)
    (self : BaseConfigurator.t) (w : W) :
  BaseConfigurator.env_controller self <> NoneObj ->
  (forall w1 output,
     Helpers.adb_issue_generic_request A Helpers.pm_list_packages
       (BaseConfigurator.env_controller self) w = (w1, Ok output) ->
     CalendarConfigurator.calendar_package ∉ Helpers.parse_packages output) ->
  exists t,
    CalendarConfigurator.configure (patched A B) self w
    = (fst (Helpers.adb_issue_generic_request A Helpers.pm_list_packages
              (BaseConfigurator.env_controller self) w), t, Ok false) /\
    calls t = [get_all_package_names (BaseConfigurator.env_controller self)].
Proof.
  intros Hctl Hnot.
  destruct (get_all_package_names_answer A (BaseConfigurator.env_controller self) w)
    as (w1 & t1 & Hlist & Hw1 & _).
  rewrite Hw1.
  apply (calendar_configure_app_missing (patched A B) self w w1
           match Helpers.adb_issue_generic_request A Helpers.pm_list_packages
                   (BaseConfigurator.env_controller self) w with
           | (_, Ok output) => Helpers.parse_packages output
           | (_, Raise _) => []
           end Hctl).
  - cbn [patched be_get_all_package_names]. rewrite Hlist. reflexivity.
  - destruct (Helpers.adb_issue_generic_request A Helpers.pm_list_packages
                (BaseConfigurator.env_controller self) w) as [w2 [output|e]] eqn:Hadb.
    + exact (Hnot w2 output eq_refl).
    + intros Hin. inversion Hin.
Qed.

(** A device that answers no request. *)
Lemma unlisted_calendar_fails_the_module_witness :
  exists t,
    CalendarConfigurator.configure (patched Lab.offline_adb Sim.backend)
      (Sim.configurator Sim.standup_only) Sim.ready = (Sim.ready, t, Ok false) /\
    calls t = [get_all_package_names Sim.the_controller].
Proof.
  apply (unlisted_calendar_fails_the_module Lab.offline_adb Sim.backend
           (Sim.configurator Sim.standup_only) Sim.ready).
  - discriminate.
  - intros w1 output H. discriminate H.
Defined.

(** ** contacts_configurator.py: an item that is not a dict *)

Lemma for_each_app {W E A : Type} (l1 l2 : list A) (body : A -> M W E unit) (w : W) :
  for_each (l1 ++ l2) body w
  = match for_each l1 body w with
    | (w1, t1, Ok _) => let '(w2, t2, r) := for_each l2 body w1 in (w2, t1 ++ t2, r)
    | (w1, t1, Raise e) => (w1, t1, Raise e)
    end.
Proof.
  revert w. induction l1 as [|x l1 IH]; intros w.
  - cbn [app for_each]. steps. destruct (for_each l2 body w) as [[w2 t2] r]. reflexivity.
  - cbn [app for_each]. steps.
    destruct (body x w) as [[w1 t1] [[]|e]]; [|reflexivity].
    rewrite IH. destruct (for_each l1 body w1) as [[w2 t2] [[]|e]]; [|reflexivity].
    destruct (for_each l2 body w2) as [[w3 t3] r]. rewrite app_assoc. reflexivity.
Qed.

(** The name and the number of a contact are read outside the [try] of its
    item (lines 47-48): a contact that is not a dict ends the loop.  The
    contacts before it have been added, those after it are not looked at, and
    [configure()] returns false. *)
Theorem contact_that_is_no_dict_stops_the_list {W : Type} (B : Backend W)
    (self : BaseConfigurator.t) (d : list (string * pyval)) (before after : list pyval)
    (x : pyval) (w : W) :
  BaseConfigurator.env_controller self <> NoneObj ->
  BaseConfigurator.config self = PyDict d ->
  truthy (field (PyDict d) "clear_contacts" (PyBool false)) = false ->
  field (PyDict d) "add_contacts" (PyList []) = PyList (before ++ x :: after) ->
  Forall (fun y => is_dict y = true) before ->
  is_dict x = false ->
  exists w' t,
    ContactsConfigurator.configure B self w = (w', t, Ok false) /\
    calls t = map (add_contact_call self (dict_lookup "ui_delay_sec" d))
                (filter complete_contact before).
Proof.
  intros Hctl Hcfg Hclear Hlist Hbefore Hx.
  unfold ContactsConfigurator.configure, ContactsConfigurator._add_contacts.
  rewrite (ensure_environment_ok self Hctl), Hcfg.
  unfold field in Hclear, Hlist. unfold get, get_or_float_default. steps.
  rewrite Hclear, Hlist. cbn [iter]. steps.
  rewrite for_each_app.
  destruct (add_contacts_loop B self (dict_lookup "ui_delay_sec" d) before w Hbefore)
    as (w1 & t1 & Hrun & Hcalls).
  rewrite Hrun. cbn [for_each]. steps.
  assert (Hraise : ContactsConfigurator.add_one_contact B self
                     (dict_lookup "ui_delay_sec" d) x w1 = (w1, [], Raise AttributeError)).
  { destruct x; try discriminate Hx; reflexivity. }
  rewrite Hraise. steps.
  eexists _, _. split; [reflexivity|].
  rewrite !calls_app, Hcalls. simpl. rewrite !app_nil_r. reflexivity.
Qed.

(** Alice, then a contact written as a string, then Bob. *)
Lemma contact_that_is_no_dict_stops_the_list_witness :
  exists w' t,
    ContactsConfigurator.configure Sim.backend
      (Sim.configurator
         (PyDict [("add_contacts", PyList [Sim.alice; PyStr "Carol 555-0104"; Sim.bob])]))
      Sim.ready = (w', t, Ok false) /\
    calls t = [add_contact (PyStr "Alice") (PyStr "555-0100") Sim.the_controller None].
Proof.
  apply (contact_that_is_no_dict_stops_the_list Sim.backend
           (Sim.configurator
              (PyDict [("add_contacts",
                        PyList [Sim.alice; PyStr "Carol 555-0104"; Sim.bob])]))
           [("add_contacts", PyList [Sim.alice; PyStr "Carol 555-0104"; Sim.bob])]
           [Sim.alice] [Sim.bob] (PyStr "Carol 555-0104") Sim.ready).
  - discriminate.
  - reflexivity.
  - reflexivity.
  - reflexivity.
  - repeat constructor.
  - reflexivity.
Defined.

(** ** calendar_configurator.py: the first loop *)

Lemma to_timestamp_calls {W : Type} (B : Backend W) (what : string) (i : nat)
    (title0 v : pyval) (w w' : W) (t : list mod_event) (r : res pyval) :
  CalendarConfigurator.to_timestamp B what i title0 v w = (w', t, r) -> calls t = [].
Proof.
  unfold CalendarConfigurator.to_timestamp.
  destruct v; steps; try (intros H; inversion H; reflexivity).
  destruct (be_iso_timestamp B s); steps; intros H; inversion H; reflexivity.
Qed.

Lemma build_event_calls {W : Type} (B : Backend W) (i : nat)
    (title0 description0 location0 start_time end_time duration_mins : pyval)
    (rep : Z * Z) (w w' : W) (t : list mod_event) (r : res CalendarEvent) :
  CalendarConfigurator.build_event B i title0 description0 location0 start_time end_time
    duration_mins rep w = (w', t, r) -> calls t = [].
Proof.
  unfold CalendarConfigurator.build_event. steps.
  destruct (CalendarConfigurator.to_timestamp B "start time" i title0 start_time w)
    as [[w1 t1] [s|e]] eqn:Hs; apply to_timestamp_calls in Hs;
    [|intros H; inversion H; subst; exact Hs].
  destruct (truthy end_time).
  - destruct (CalendarConfigurator.to_timestamp B "end time" i title0 end_time w1)
      as [[w2 t2] [s2|e]] eqn:He; apply to_timestamp_calls in He;
      intros H; inversion H; subst; rewrite !calls_app, Hs, He; reflexivity.
  - steps. destruct (mul_int duration_mins 60) as [secs|e]; steps;
      [|intros H; inversion H; subst; rewrite ?calls_app, Hs; reflexivity].
    destruct (add s secs) as [x|e]; steps; intros H; inversion H; subst;
      rewrite ?calls_app, Hs; reflexivity.
Qed.

(** One iteration of the first loop asks nothing of the device, and adds at
    most one event, for a complete item only. *)
Lemma add_one_event_trace {W : Type} (B : Backend W) (i : nat) (x : pyval)
    (acc : list CalendarEvent) (w w' : W) (t : list mod_event)
    (r : res (list CalendarEvent)) :
  CalendarConfigurator.add_one_event B i x acc w = (w', t, r) ->
  w' = w /\ calls t = [] /\
  match r with
  | Ok acc' => acc' = acc \/ (complete_event x = true /\ exists ev, acc' = acc ++ [ev])
  | Raise _ => True
  end.
Proof.
  destruct x as [| | | | |d|];
    try (intros H; inversion H; subst; repeat split; reflexivity).
  rewrite add_one_event_dict.
  destruct (CalendarConfigurator.repeat_settings B _ _ w) as [[w1 tr] [rep|e]] eqn:Hrep;
    apply repeat_settings_trace in Hrep; destruct Hrep as (-> & Hcr & _);
    [|intros H; inversion H; subst; repeat split; exact Hcr].
  destruct (complete_event (PyDict d)) eqn:Hc;
    [|intros H; inversion H; subst; repeat split; [exact Hcr | left; reflexivity]].
  destruct (CalendarConfigurator.build_event B i _ _ _ _ _ _ rep w)
    as [[w2 tb] [ev|e]] eqn:Hb;
    pose proof (build_event_world B _ _ _ _ _ _ _ _ _ _ _ _ Hb) as ->;
    apply build_event_calls in Hb;
    intros H; inversion H; subst; (split; [reflexivity|]); split.
  - rewrite !calls_app, Hcr, Hb.
    destruct (be_fromtimestamp B (start_ts ev)); reflexivity.
  - right. split; [reflexivity|]. exists ev. reflexivity.
  - rewrite !calls_app, Hcr, Hb. reflexivity.
  - left. reflexivity.
Qed.

(** The first loop of [_add_specific_events] only prepares: however it ends,
    it has asked nothing of the device and has left it as it was.  When it
    returns, the events it has added to the list are no more than the items
    with a title and a start time. *)
Theorem preparing_events_asks_nothing_of_the_device {W : Type} (B : Backend W) (i : nat)
    (items : list pyval) (acc : list CalendarEvent) (w w' : W) (t : list mod_event)
    (r : res (list CalendarEvent)) :
  CalendarConfigurator.prepare_events B i items acc w = (w', t, r) ->
  w' = w /\ calls t = [] /\
  match r with
  | Ok acc' =>
      exists added,
        acc' = acc ++ added /\ length added <= length (filter complete_event items)
  | Raise _ => True
  end.
Proof.
  revert i acc w w' t r. induction items as [|x items IH]; intros i acc w w' t r.
  - intros H. inversion H; subst. repeat split. exists []. rewrite app_nil_r.
    split; [reflexivity | simpl; lia].
  - cbn [CalendarConfigurator.prepare_events]. steps.
    destruct (CalendarConfigurator.add_one_event B i x acc w) as [[w1 t1] [acc1|e]] eqn:H1;
      apply add_one_event_trace in H1; destruct H1 as (-> & Hc1 & Hacc);
      [|intros H; inversion H; subst; repeat split; exact Hc1].
    destruct (CalendarConfigurator.prepare_events B (S i) items acc1 w)
      as [[w2 t2] r2] eqn:H2.
    apply IH in H2. destruct H2 as (-> & Hc2 & Hrest).
    intros H. inversion H; subst. split; [reflexivity|]. split.
    + rewrite calls_app, Hc1, Hc2. reflexivity.
    + destruct r as [acc'|e]; [|exact I].
      destruct Hrest as (added & -> & Hlen). rewrite filter_cons.
      destruct Hacc as [-> | (Hx & ev & ->)].
      * exists added. split; [reflexivity|].
        destruct (decide (complete_event x)); simpl; lia.
      * exists (ev :: added). split; [rewrite <- app_assoc; reflexivity|].
        destruct (decide (complete_event x)) as [_|Hn];
          [simpl; lia | exfalso; apply Hn; rewrite Hx; exact I].
Qed.

(** A date that does not parse, the stand-up, and an item without a start. *)
Lemma preparing_events_asks_nothing_of_the_device_witness :
  exists t,
    CalendarConfigurator.prepare_events Sim.backend 0
      [Sim.bad_date; PyDict Sim.standup; Sim.no_start] [] Sim.ready
    = (Sim.ready, t, Ok [Sim.standup_event]) /\
    calls t = [].
Proof.
  eexists. split; [vm_compute; reflexivity|].
  refine (proj1 (proj2 (preparing_events_asks_nothing_of_the_device Sim.backend 0
            [Sim.bad_date; PyDict Sim.standup; Sim.no_start] [] Sim.ready Sim.ready _
            (Ok [Sim.standup_event]) _))).
  vm_compute. reflexivity.
Defined.

(** ** calendar_configurator.py: the end of an event *)

Section CalendarStored.
Context {W : Type} (B : Backend W) (self : BaseConfigurator.t).








End CalendarStored.


